(** * Issue_Analyzer: the analysis pipeline, embedded and verified

    A shallow embedding of the Python sources
    - [config.py]          (class [Config]),
    - [github_parser.py]   (class [GitHubParser]),
    - [code_analyzer.py]   (classes [TreeSitterAnalyzer], [StaticAnalyzer]),
    - [gemini_analyzer.py] (class [GeminiAnalyzer]),
    - [pipeline.py]        (class [IssueAnalyzerPipeline]),
    followed by the theorems that settle the statements of the
    specification against them.

    Conventions of the embedding.
    - A Python [str] is a [string]; its characters are the code points
      0..255.
    - A Python [dict] with string keys is a [gmap string _]; where the
      insertion order of a dict is observable it is an association list.
    - Code that may raise returns a [result]; [try]/[except] is a match on
      it.  The message carried by [Raise] is [str(e)].
    - What the program obtains from outside (the file system, git, the
      generative model, tree-sitter, the clock) is read from a record of
      oracles. *)

From Stdlib Require Import ZArith String Ascii List Floats Uint63.
From stdpp Require Import base option list gmap strings pretty.

Local Open Scope string_scope.
Local Open Scope list_scope.
Local Open Scope nat_scope.

(** ** Exceptions *)

Inductive result (A : Type) : Type :=
| Ok (a : A)
| Raise (msg : string).
Arguments Ok {A} a.
Arguments Raise {A} msg.

Definition rbind {A B : Type} (r : result A) (k : A -> result B) : result B :=
  match r with
  | Ok a => k a
  | Raise msg => Raise msg
  end.

Notation "x <-? r ;; k" := (rbind r (fun x => k))
  (at level 100, r at next level, right associativity,
   format "'[v' x  <-?  r  ;;  '/' k ']'").

(** [for x in xs: acc = body x acc], where the body may raise. *)
Fixpoint for_each {A S : Type} (body : A -> S -> result S) (xs : list A) (acc : S)
  : result S :=
  match xs with
  | [] => Ok acc
  | x :: xs' => acc' <-? body x acc ;; for_each body xs' acc'
  end.

(** ** Python values stored in issue dictionaries

    Issues are dictionaries with string keys.  Their values are strings and
    integers when the issue is built by this program, and arbitrary JSON
    when it is parsed from a model response: [PUnhashable] stands for a
    JSON array or object ([ty] is the Python type name, ['list'] or
    ['dict']), which cannot be used as a dictionary key.  A JSON number
    or boolean is the integer it equals as a dictionary key; numbers with
    a fractional part are not represented. *)

Inductive pyval : Type :=
| PStr (s : string)
| PInt (z : Z)
| PNone
| PUnhashable (ty : string).

#[global] Instance pyval_eq_dec : EqDecision pyval.
Proof. solve_decision. Defined.

Definition pyval_to_sum (v : pyval) : string + Z + unit + string :=
  match v with
  | PStr s => inl (inl (inl s))
  | PInt z => inl (inl (inr z))
  | PNone => inl (inr tt)
  | PUnhashable ty => inr ty
  end.

Definition pyval_of_sum (x : string + Z + unit + string) : pyval :=
  match x with
  | inl (inl (inl s)) => PStr s
  | inl (inl (inr z)) => PInt z
  | inl (inr _) => PNone
  | inr ty => PUnhashable ty
  end.

#[global] Instance pyval_countable : Countable pyval.
Proof.
  apply (inj_countable' pyval_to_sum pyval_of_sum).
  intros []; reflexivity.
Defined.

Abbreviation Issue := (gmap string pyval).

(** [d.get(key, default)] *)
Definition dict_get `{Countable K} {V : Type} (d : gmap K V) (key : K) (default : V) : V :=
  match d !! key with
  | Some v => v
  | None => default
  end.

(** [hash(v)] succeeds, as required of a dictionary key. *)
Definition hashable (v : pyval) : bool :=
  match v with
  | PUnhashable _ => false
  | _ => true
  end.

Definition unhashable_error {A : Type} (ty : string) : result A :=
  Raise ("unhashable type: '" +:+ ty +:+ "'").

(** ** Python numbers: the result of [round(base_score, 1)] is an [int] or
    a [float] (IEEE 754 binary64). *)

Inductive pynum : Type :=
| PyInt (z : Z)
| PyFloat (x : float).

(** ** Python string operations *)

Definition newline : ascii := ascii_of_nat 10.
Definition NL : string := String newline "".

(** The one-character string holding a double quote. *)
Definition dquote : string := String (ascii_of_nat 34) "".

Fixpoint str_rev_onto (s acc : string) : string :=
  match s with
  | "" => acc
  | String c s' => str_rev_onto s' (String c acc)
  end.

Definition str_rev (s : string) : string := str_rev_onto s "".

(** [s.startswith(p)] *)
Definition startswith (s p : string) : bool := String.prefix p s.

(** [s.endswith(p)] *)
Definition endswith (s p : string) : bool := String.prefix (str_rev p) (str_rev s).

(** [sub in s] *)
Fixpoint contains (sub s : string) : bool :=
  String.prefix sub s ||
  match s with
  | "" => false
  | String _ s' => contains sub s'
  end.

(** [s[:n]] for [0 <= n] *)
Fixpoint str_take (n : nat) (s : string) : string :=
  match n, s with
  | S k, String c s' => String c (str_take k s')
  | _, _ => ""
  end.

(** [s.split(sep)] for a non-empty [sep]: the pieces between the
    non-overlapping occurrences of [sep], found from the left.  [skip]
    counts the characters of an occurrence still to be passed over. *)
Fixpoint split_from (sep : string) (skip : nat) (s : string) : list string :=
  match s with
  | "" => [""]
  | String c s' =>
      match skip with
      | S k => split_from sep k s'
      | O =>
          if String.prefix sep s
          then "" :: split_from sep (Nat.pred (String.length sep)) s'
          else match split_from sep O s' with
               | piece :: rest => String c piece :: rest
               | [] => [String c ""]
               end
      end
  end.

Definition split (s sep : string) : list string := split_from sep O s.

(** [s.replace(old, new)] for a non-empty [old]. *)
Fixpoint replace_from (old new : string) (skip : nat) (s : string) : string :=
  match s with
  | "" => ""
  | String c s' =>
      match skip with
      | S k => replace_from old new k s'
      | O =>
          if String.prefix old s
          then new +:+ replace_from old new (Nat.pred (String.length old)) s'
          else String c (replace_from old new O s')
      end
  end.

Definition replace (s old new : string) : string := replace_from old new O s.

(** [c.isspace()] on the code points below 256. *)
Definition isspace (c : ascii) : bool :=
  let n := nat_of_ascii c in
  ((9 <=? n) && (n <=? 13)) || ((28 <=? n) && (n <=? 32))
  || (n =? 133) || (n =? 160).

Fixpoint lstrip (s : string) : string :=
  match s with
  | "" => ""
  | String c s' => if isspace c then lstrip s' else s
  end.

(** [s.strip()] *)
Definition strip (s : string) : string :=
  str_rev (lstrip (str_rev (lstrip s))).

(** [c.lower()] on the code points below 256: the ASCII capitals and the
    Latin-1 capitals other than the multiplication sign. *)
Definition lower_char (c : ascii) : ascii :=
  let n := nat_of_ascii c in
  if ((65 <=? n) && (n <=? 90))
     || ((192 <=? n) && (n <=? 222) && negb (n =? 215))
  then ascii_of_nat (n + 32)
  else c.

(** [s.lower()] *)
Fixpoint lower (s : string) : string :=
  match s with
  | "" => ""
  | String c s' => String (lower_char c) (lower s')
  end.

(** [str(n)] for a non-negative integer *)
Definition str_of_nat (n : nat) : string := pretty n.

(** [enumerate(xs, start)] and [enumerate(xs)] *)
Fixpoint enumerate_from {A : Type} (start : nat) (xs : list A) : list (nat * A) :=
  match xs with
  | [] => []
  | x :: xs' => (start, x) :: enumerate_from (S start) xs'
  end.

Definition enumerate {A : Type} (xs : list A) : list (nat * A) :=
  enumerate_from 0 xs.

(** [xs[i]], raising [IndexError] out of range *)
Definition list_index {A : Type} (xs : list A) (i : nat) : result A :=
  match xs !! i with
  | Some x => Ok x
  | None => Raise "list index out of range"
  end.

(** A dictionary literal. *)
Definition dict_of {V : Type} (items : list (string * V)) : gmap string V :=
  list_to_map items.

(** * config.py *)

(** The process environment read by [os.getenv]. *)
Definition environ := string -> option string.

Definition getenv (env : environ) (name default : string) : string :=
  match env name with
  | Some v => v
  | None => default
  end.

Record Config_attrs : Type := {
  GEMINI_API_KEY : string;
  USE_GEMINI_CLI : bool;
  GEMINI_CLI_PATH : string;
  SUPPORTED_EXTENSIONS : gmap string string;
  SEVERITY_LEVELS : gmap string nat;
  MAX_FILES_TO_ANALYZE : nat;
  MAX_FILE_SIZE : Z
}.

Definition Config (env : environ) : Config_attrs := {|
  GEMINI_API_KEY := getenv env "GEMINI_API_KEY" "";
  USE_GEMINI_CLI :=
    bool_decide (lower (getenv env "USE_GEMINI_CLI" "false") = "true");
  GEMINI_CLI_PATH := getenv env "GEMINI_CLI_PATH" "gemini";
  SUPPORTED_EXTENSIONS := dict_of [
    (".py", "python");
    (".js", "javascript");
    (".ts", "typescript");
    (".java", "java");
    (".cpp", "cpp");
    (".c", "c");
    (".cs", "c_sharp");
    (".go", "go");
    (".rb", "ruby");
    (".php", "php")
  ];
  SEVERITY_LEVELS := dict_of [
    ("CRITICAL", 5);
    ("HIGH", 4);
    ("MEDIUM", 3);
    ("LOW", 2);
    ("INFO", 1)
  ];
  MAX_FILES_TO_ANALYZE := 50;
  MAX_FILE_SIZE := (1024 * 1024)%Z
|}.

(** * github_parser.py *)

(** One code file, as [extract_code_files] records it. *)
Record CodeFile : Type := {
  path : string;
  content : string;
  language : string;
  size : nat
}.

(** What [open(file_path, 'r', encoding='utf-8')] followed by [f.read()]
    does: it returns the decoded text, raises one of the two exceptions
    the inner handler skips, or raises something else. *)
Inductive read_outcome : Type :=
| ReadText (text : string)
| ReadSkipped            (* UnicodeDecodeError, PermissionError *)
| ReadFailed (msg : string).

(** One path yielded by [repo_path.rglob('*')], with what the file system
    answers about it. *)
Record DirEntry : Type := {
  is_file : bool;
  parts : list string;
  suffix : string;
  st_size : result Z;
  read_text : read_outcome;
  relative_to : string
}.

Section GitHubParser.
Variable config : Config_attrs.

(** [parse_github_url]: the inner [ValueError]s are caught by the
    function's own handler and raised again with a prefix. *)
Definition parse_github_url (url : string) : result (gmap string pyval) :=
  let attempt : result (gmap string pyval) :=
    let url := if endswith url ".git"
               then str_take (String.length url - 4) url else url in
    if negb (contains "github.com" url) then Raise "Invalid GitHub URL"
    else
      let parts :=
        split (replace (replace url "https://github.com/" "")
                       "http://github.com/" "") "/" in
      if length parts <? 2 then Raise "Invalid GitHub URL format"
      else
        part0 <-? list_index parts 0 ;;
        part1 <-? list_index parts 1 ;;
        Ok (dict_of [
          ("owner", PStr part0);
          ("repo", PStr part1);
          ("full_url",
           PStr ("https://github.com/" +:+ part0 +:+ "/" +:+ part1 +:+ ".git"))
        ])
  in
  match attempt with
  | Ok d => Ok d
  | Raise e => Raise ("Failed to parse GitHub URL: " +:+ e)
  end.

(** [any(part.startswith('.') for part in file_path.parts)] *)
Definition hidden (e : DirEntry) : bool :=
  existsb (fun part => startswith part ".") (parts e).

(** The loop of [extract_code_files] over the paths still to visit;
    [code_files] holds what has been appended so far.  [continue] is the
    recursive call on the rest, [break] and the outer handler (which only
    prints) both leave the loop with the list as it is. *)
Fixpoint extract_loop (entries : list DirEntry) (code_files : list CodeFile)
  : list CodeFile :=
  match entries with
  | [] => code_files
  | file_path :: rest =>
      if is_file file_path then
        if hidden file_path then extract_loop rest code_files
        else
          match SUPPORTED_EXTENSIONS config !! lower (suffix file_path) with
          | Some lang =>
              match st_size file_path with
              | Raise _ => code_files
              | Ok sz =>
                  if (MAX_FILE_SIZE config <? sz)%Z
                  then extract_loop rest code_files
                  else
                    match read_text file_path with
                    | ReadText text =>
                        let code_files :=
                          code_files ++ [ {|
                            path := relative_to file_path;
                            content := text;
                            language := lang;
                            size := String.length text
                          |} ] in
                        if MAX_FILES_TO_ANALYZE config <=? length code_files
                        then code_files
                        else extract_loop rest code_files
                    | ReadSkipped => extract_loop rest code_files
                    | ReadFailed _ => code_files
                    end
              end
          | None => extract_loop rest code_files
          end
      else extract_loop rest code_files
  end.

(** [extract_code_files(repo_path)], on the listing of [repo_path]. *)
Definition extract_code_files (repo_listing : list DirEntry) : list CodeFile :=
  extract_loop repo_listing [].

(** [get_repository_info]: [api_response] is the JSON body of a
    response with status 200, [None] for any other status or a failed
    request. *)
Definition get_repository_info
    (requests_get : string -> option (gmap string pyval)) (repo_url : string)
  : gmap string pyval :=
  match parse_github_url repo_url with
  | Raise _ => ∅
  | Ok parsed =>
      let field k := match dict_get parsed k PNone with
                     | PStr s => s
                     | _ => ""
                     end in
      let api_url :=
        "https://api.github.com/repos/" +:+ field "owner" +:+ "/" +:+ field "repo" in
      match requests_get api_url with
      | Some repo_data =>
          dict_of [
            ("name", dict_get repo_data "name" (PStr ""));
            ("description", dict_get repo_data "description" (PStr ""));
            ("language", dict_get repo_data "language" (PStr ""));
            ("stars", dict_get repo_data "stargazers_count" (PInt 0));
            ("forks", dict_get repo_data "forks_count" (PInt 0));
            ("size", dict_get repo_data "size" (PInt 0))
          ]
      | None => ∅
      end
  end.
End GitHubParser.

(** * code_analyzer.py *)

(** An entry of [structure['functions']]: a dict with the keys ['name'] and
    ['line'], and ['parameters'] for Python.  The optional fields are the
    keys a lookup may find absent. *)
Record FunctionInfo : Type := {
  name : string;
  line : option nat;
  parameters : option (list string)
}.

Record ClassInfo : Type := {
  class_name : string;
  class_line : nat
}.

(** The dict returned by [analyze_code_structure]. *)
Record Structure : Type := {
  functions : list FunctionInfo;
  classes : list ClassInfo;
  imports : list string;
  complexity : nat;
  lines_of_code : nat
}.

(** tree-sitter, as far as [TreeSitterAnalyzer] depends on it:
    [parser_created lang] says whether [Parser()] returned for that language
    in [_setup_languages], [parse_returns lang code] whether the parsing
    branch of [analyze_code_structure] (the call
    [parser.parse(bytes(code, 'utf8'))] and the reading of the root node)
    completes instead of raising. *)
Record TreeSitter : Type := {
  parser_created : string -> bool;
  parse_returns : string -> string -> bool
}.

Section TreeSitterAnalyzer.
Variable ts : TreeSitter.

(** The keys of [self.parsers] after [_setup_languages]. *)
Definition parsers : list string :=
  filter (fun lang_name => parser_created ts lang_name = true)
         ["python"; "javascript"; "java"; "cpp"; "c"].

Definition _extract_parameters (function_line : string) : list string :=
  let attempt : result (list string) :=
    after_paren <-? list_index (split function_line "(") 1 ;;
    params_str <-? list_index (split after_paren ")") 0 ;;
    if bool_decide (strip params_str <> "")
    then Ok (map strip (split params_str ","))
    else Ok []
  in
  match attempt with
  | Ok params => params
  | Raise _ => []
  end.

(** The body of the Python loop of [_basic_code_analysis]: one line
    extends the three lists. *)
Definition basic_python_line (analysis : Structure) (il : nat * string)
  : Structure :=
  let '(i, line0) := il in
  let line_ := strip line0 in
  if startswith line_ "def " then
    let func_name :=
      replace (default "" (head (split line_ "("))) "def " "" in
    {| functions := functions analysis ++
         [ {| name := func_name;
              line := Some (i + 1);
              parameters := Some (_extract_parameters line_) |} ];
       classes := classes analysis;
       imports := imports analysis;
       complexity := complexity analysis;
       lines_of_code := lines_of_code analysis |}
  else if startswith line_ "class " then
    let cname :=
      replace (replace (default "" (head (split line_ "("))) "class " "")
              ":" "" in
    {| functions := functions analysis;
       classes := classes analysis ++
         [ {| class_name := cname; class_line := i + 1 |} ];
       imports := imports analysis;
       complexity := complexity analysis;
       lines_of_code := lines_of_code analysis |}
  else if startswith line_ "import " || startswith line_ "from " then
    {| functions := functions analysis;
       classes := classes analysis;
       imports := imports analysis ++ [line_];
       complexity := complexity analysis;
       lines_of_code := lines_of_code analysis |}
  else analysis.

(** The body of the JavaScript loop.  [line.split('function ')[1]] and
    [line.split('class ')[1]] exist because the separator occurs in the
    line; the defaults are never used. *)
Definition basic_javascript_line (analysis : Structure) (il : nat * string)
  : Structure :=
  let '(i, line0) := il in
  let line_ := strip line0 in
  if contains "function " line_ then
    let func_name :=
      default "" (head (split (default "" (split line_ "function " !! 1)) "(")) in
    {| functions := functions analysis ++
         [ {| name := func_name; line := Some (i + 1); parameters := None |} ];
       classes := classes analysis;
       imports := imports analysis;
       complexity := complexity analysis;
       lines_of_code := lines_of_code analysis |}
  else if startswith line_ "class " then
    let cname :=
      default "" (head (split (default "" (split line_ "class " !! 1)) " ")) in
    {| functions := functions analysis;
       classes := classes analysis ++
         [ {| class_name := cname; class_line := i + 1 |} ];
       imports := imports analysis;
       complexity := complexity analysis;
       lines_of_code := lines_of_code analysis |}
  else analysis.

Definition _basic_code_analysis (code language : string) : Structure :=
  let lines := split code NL in
  let analysis := {|
    functions := [];
    classes := [];
    imports := [];
    complexity := 1;
    lines_of_code := length lines
  |} in
  if bool_decide (language = "python") then
    fold_left basic_python_line (enumerate lines) analysis
  else if bool_decide (language = "javascript") then
    fold_left basic_javascript_line (enumerate lines) analysis
  else analysis.

(** [_extract_functions], [_extract_classes], [_extract_imports] return
    empty lists and [_calculate_complexity] returns 1, whatever the
    tree. *)
Definition analyze_code_structure (code language : string) : Structure :=
  if bool_decide (language ∈ parsers) then
    if parse_returns ts language code then
      {| functions := [];
         classes := [];
         imports := [];
         complexity := 1;
         lines_of_code := length (split code NL) |}
    else _basic_code_analysis code language
  else _basic_code_analysis code language.
End TreeSitterAnalyzer.

Section StaticAnalyzer.
Variable ts : TreeSitter.

(** The loop over [structure['functions']] in [_check_code_quality]. *)
Definition long_function_issues (structure : Structure) : list Issue :=
  flat_map (fun func =>
    match line func with
    | Some func_line =>
        let func_lines := 20 in
        if 50 <? func_lines then
          [ dict_of [
              ("type", PStr "code_quality");
              ("severity", PStr "MEDIUM");
              ("title", PStr "Long Function");
              ("description",
               PStr ("Function '" +:+ name func +:+ "' is too long ("
                     +:+ str_of_nat func_lines +:+ " lines)"));
              ("line", PInt (Z.of_nat func_line));
              ("suggestion",
               PStr "Consider breaking this function into smaller, more focused functions")
            ] ]
        else []
    | None => []
    end) (functions structure).

Definition long_line_issue (i : nat) (line_ : string) : Issue :=
  dict_of [
    ("type", PStr "code_quality");
    ("severity", PStr "LOW");
    ("title", PStr "Long Line");
    ("description",
     PStr ("Line " +:+ str_of_nat (i + 1) +:+ " exceeds 120 characters ("
           +:+ str_of_nat (String.length line_) +:+ " characters)"));
    ("line", PInt (Z.of_nat (i + 1)));
    ("suggestion",
     PStr "Break long lines into multiple lines for better readability")
  ].

(** The loop over the lines in [_check_code_quality]. *)
Definition long_line_issues (lines : list string) : list Issue :=
  flat_map (fun '(i, line_) =>
    if 120 <? String.length line_ then [long_line_issue i line_] else [])
    (enumerate lines).

Definition _check_code_quality (code language : string) (structure : Structure)
  : list Issue :=
  let lines := split code NL in
  long_function_issues structure ++ long_line_issues lines.

Definition secret_patterns : list string :=
  ["password"; "api_key"; "secret"; "token"].

Definition hardcoded_secret_issue (i : nat) : Issue :=
  dict_of [
    ("type", PStr "security");
    ("severity", PStr "HIGH");
    ("title", PStr "Potential Hardcoded Secret");
    ("description",
     PStr ("Line " +:+ str_of_nat (i + 1) +:+ " may contain a hardcoded secret"));
    ("line", PInt (Z.of_nat (i + 1)));
    ("suggestion",
     PStr "Use environment variables or secure configuration for secrets")
  ].

(** The test of the inner loop of the secret check, for one pattern. *)
Definition secret_match (pattern line_ : string) : bool :=
  contains pattern (lower line_) && contains "=" line_
  && (contains dquote line_ || contains "'" line_).

Definition hardcoded_secret_issues (lines : list string) : list Issue :=
  flat_map (fun '(i, line_) =>
    flat_map (fun pattern =>
      if secret_match pattern line_ then [hardcoded_secret_issue i] else [])
      secret_patterns)
    (enumerate lines).

Definition eval_issue (i : nat) : Issue :=
  dict_of [
    ("type", PStr "security");
    ("severity", PStr "CRITICAL");
    ("title", PStr "Dangerous eval() Usage");
    ("description",
     PStr ("Line " +:+ str_of_nat (i + 1)
           +:+ " uses eval() which can execute arbitrary code"));
    ("line", PInt (Z.of_nat (i + 1)));
    ("suggestion",
     PStr "Avoid eval(). Use safer alternatives like ast.literal_eval() for simple cases")
  ].

Definition eval_issues (lines : list string) : list Issue :=
  flat_map (fun '(i, line_) =>
    if contains "eval(" line_ then [eval_issue i] else [])
    (enumerate lines).

Definition _check_security_issues (code language : string) : list Issue :=
  let lines := split code NL in
  hardcoded_secret_issues lines ++
  (if bool_decide (language = "python") then eval_issues lines else []).

Definition inefficient_loop_issue (i : nat) : Issue :=
  dict_of [
    ("type", PStr "performance");
    ("severity", PStr "MEDIUM");
    ("title", PStr "Inefficient Loop");
    ("description",
     PStr ("Line " +:+ str_of_nat (i + 1) +:+ " uses range(len()) pattern"));
    ("line", PInt (Z.of_nat (i + 1)));
    ("suggestion",
     PStr "Use enumerate() or iterate directly over the collection")
  ].

Definition _check_performance_issues (code language : string)
    (structure : Structure) : list Issue :=
  let lines := split code NL in
  if bool_decide (language = "python") then
    flat_map (fun '(i, line_) =>
      if contains "for" line_ && contains "range(len(" line_
      then [inefficient_loop_issue i] else [])
      (enumerate lines)
  else [].

Definition missing_documentation_issue (func : FunctionInfo) : Issue :=
  dict_of [
    ("type", PStr "maintainability");
    ("severity", PStr "LOW");
    ("title", PStr "Missing Documentation");
    ("description",
     PStr ("Function '" +:+ name func +:+ "' lacks documentation"));
    ("line", PInt (Z.of_nat (default 1 (line func))));
    ("suggestion",
     PStr "Add docstring to explain function purpose, parameters, and return value")
  ].

Definition _check_maintainability (code language : string)
    (structure : Structure) : list Issue :=
  if bool_decide (language = "python") then
    map missing_documentation_issue (functions structure)
  else [].

(** [issue['file_path'] = file_path] *)
Definition set_file_path (file_path : string) (issue : Issue) : Issue :=
  <["file_path" := PStr file_path]> issue.

Definition analyze_file (file_content language file_path : string)
  : list Issue :=
  let structure := analyze_code_structure ts file_content language in
  let issues :=
    _check_code_quality file_content language structure
    ++ _check_security_issues file_content language
    ++ _check_performance_issues file_content language structure
    ++ _check_maintainability file_content language structure in
  map (set_file_path file_path) issues.
End StaticAnalyzer.

(** * gemini_analyzer.py *)

(** A prompt sent to the generative model.  Each of the three prompts of
    the source is a fixed text around the values recorded here; for the
    enhancement prompt these are the file path and, per issue, its
    ['title'] and ['description']. *)
Inductive Prompt : Type :=
| AnalysisPrompt (code language file_path : string)
| SimulationPrompt (code language : string)
| EnhancePrompt (file_path : pyval) (issues_summary : list (pyval * pyval)).

(** What [json.loads(json_str)] followed by [parsed.get('issues', [])] and
    the stamping loop does: it yields the issue dictionaries, raises
    [json.JSONDecodeError], or raises something else (the document is not
    an object, or its issues are not a list of objects). *)
Inductive json_outcome : Type :=
| JsonIssues (parsed_issues : list Issue)
| JsonDecodeError
| JsonOtherError (msg : string).

(** The generative model and its command line client.
    [generate_content prompt] is [self.model.generate_content(prompt).text]
    or the exception raised; [cli_generate prompt] is what
    [_analyze_with_cli] returns, the empty string on any failure. *)
Record Gemini : Type := {
  cli_available : bool;
  cli_generate : Prompt -> string;
  generate_content : Prompt -> result string;
  json_loads : string -> json_outcome
}.

(** The attributes of a [GeminiAnalyzer] after [__init__]; [model] tells
    whether [self.model] is a model object rather than [None]. *)
Record GeminiAnalyzer : Type := {
  config : Config_attrs;
  use_cli : bool;
  model : bool
}.

Definition GeminiAnalyzer_init (env : environ) (gemini : Gemini) : GeminiAnalyzer :=
  let config := Config env in
  let use_cli := USE_GEMINI_CLI config && cli_available gemini in
  {| config := config;
     use_cli := use_cli;
     model := if use_cli then false
              else bool_decide (GEMINI_API_KEY config <> "") |}.

(** [s.find(c)] for a character *)
Fixpoint find_char (c : ascii) (s : string) : option nat :=
  match s with
  | "" => None
  | String c' s' => if bool_decide (c' = c) then Some 0 else S <$> find_char c s'
  end.

(** [s.rfind(c) + 1]: the index after the last occurrence, 0 without one *)
Fixpoint rfind_char_end (c : ascii) (s : string) : nat :=
  match s with
  | "" => 0
  | String c' s' =>
      match rfind_char_end c s' with
      | S k => S (S k)
      | O => if bool_decide (c' = c) then 1 else 0
      end
  end.

(** [s[a:b]] for [0 <= a] and [0 <= b] *)
Definition slice (s : string) (a b : nat) : string := String.substring a (b - a) s.

Section GeminiAnalyzer.
Variable gemini : Gemini.
Variable self : GeminiAnalyzer.

Definition text_response_issue (line_ file_path : string) : Issue :=
  dict_of [
    ("type", PStr "logic_error");
    ("severity", PStr "MEDIUM");
    ("title", PStr line_);
    ("description", PStr line_);
    ("line", PInt 1);
    ("suggestion", PStr "Review and fix the identified issue");
    ("file_path", PStr file_path);
    ("source", PStr "gemini")
  ].

(** One iteration of the loop of [_parse_text_response]; the state is
    [issues] and [current_issue] ([None] for the empty dict). *)
Definition text_response_line (file_path : string)
    (st : list Issue * option Issue) (line0 : string)
  : list Issue * option Issue :=
  let '(issues, current_issue) := st in
  let line_ := strip line0 in
  if bool_decide (line_ = "") then st
  else if existsb (fun keyword => contains keyword (lower line_))
                  ["issue:"; "problem:"; "bug:"; "error:"]
  then (match current_issue with
        | Some cur => issues ++ [cur]
        | None => issues
        end,
        Some (text_response_issue line_ file_path))
  else st.

Definition _parse_text_response (response_text file_path : string) : list Issue :=
  let lines := split response_text NL in
  let '(issues, current_issue) :=
    fold_left (text_response_line file_path) lines ([], None) in
  match current_issue with
  | Some cur => issues ++ [cur]
  | None => issues
  end.

(** The stamping loop of [_parse_gemini_response]. *)
Definition stamp_gemini (file_path : string) (issue : Issue) : Issue :=
  <["source" := PStr "gemini"]> (<["file_path" := PStr file_path]> issue).

(** [_parse_gemini_response]: only [json.JSONDecodeError] is handled
    here, any other exception reaches the caller. *)
Definition _parse_gemini_response (response_text file_path : string)
  : result (list Issue) :=
  match find_char "{" response_text with
  | Some start_idx =>
      let end_idx := rfind_char_end "}" response_text in
      let json_str := slice response_text start_idx end_idx in
      match json_loads gemini json_str with
      | JsonIssues parsed_issues => Ok (map (stamp_gemini file_path) parsed_issues)
      | JsonDecodeError => Ok (_parse_text_response response_text file_path)
      | JsonOtherError msg => Raise msg
      end
  | None => Ok (_parse_text_response response_text file_path)
  end.

Definition bare_except_issue (i : nat) (file_path : string) : Issue :=
  dict_of [
    ("type", PStr "logic_error");
    ("severity", PStr "MEDIUM");
    ("title", PStr "Bare Except Clause");
    ("description", PStr "Bare except clause catches all exceptions");
    ("line", PInt (Z.of_nat (i + 1)));
    ("suggestion", PStr "Specify the exception type or use Exception");
    ("file_path", PStr file_path);
    ("source", PStr "fallback")
  ].

Definition division_issue (i : nat) (file_path : string) : Issue :=
  dict_of [
    ("type", PStr "logic_error");
    ("severity", PStr "HIGH");
    ("title", PStr "Potential Division by Zero");
    ("description", PStr "Division operation without zero check");
    ("line", PInt (Z.of_nat (i + 1)));
    ("suggestion", PStr "Add validation to ensure divisor is not zero");
    ("file_path", PStr file_path);
    ("source", PStr "fallback")
  ].

Definition _fallback_logic_analysis (code language file_path : string)
  : list Issue :=
  let lines := split code NL in
  flat_map (fun '(i, line_) =>
    let line_stripped := strip line_ in
    if bool_decide (language = "python") then
      (if bool_decide (line_stripped = "except:")
       then [bare_except_issue i file_path] else [])
      ++
      (if contains "/" line_stripped && negb (contains "if" line_stripped)
       then [division_issue i file_path] else [])
    else [])
    (enumerate lines).

Definition _analyze_with_cli_logic (code language file_path : string)
  : list Issue :=
  let prompt := AnalysisPrompt code language file_path in
  let response_text := cli_generate gemini prompt in
  if bool_decide (response_text <> "") then
    match _parse_gemini_response response_text file_path with
    | Ok issues => issues
    | Raise _ => _fallback_logic_analysis code language file_path
    end
  else _fallback_logic_analysis code language file_path.

Definition analyze_code_logic (code language file_path : string) : list Issue :=
  if use_cli self then _analyze_with_cli_logic code language file_path
  else if negb (model self) then _fallback_logic_analysis code language file_path
  else
    let attempt :=
      let prompt := AnalysisPrompt code language file_path in
      response_text <-? generate_content gemini prompt ;;
      _parse_gemini_response response_text file_path
    in
    match attempt with
    | Ok issues => issues
    | Raise _ => _fallback_logic_analysis code language file_path
    end.

Definition _extract_runtime_issues (simulation_text : string) : list string :=
  flat_map (fun line_ =>
    if existsb (fun keyword => contains keyword (lower line_))
               ["exception"; "error"; "crash"; "fail"; "issue"; "problem"]
    then [strip line_] else [])
    (split simulation_text NL).

(** The dict returned by [simulate_code_execution]; the key
    ['potential_runtime_issues'] is present on one path only. *)
Record Simulation : Type := {
  simulation_results : string;
  potential_runtime_issues : option (list string)
}.

Definition simulate_code_execution (code language : string) : Simulation :=
  if negb (model self) then
    {| simulation_results := "Gemini not available for simulation";
       potential_runtime_issues := None |}
  else
    match generate_content gemini (SimulationPrompt code language) with
    | Ok response_text =>
        {| simulation_results := response_text;
           potential_runtime_issues := Some (_extract_runtime_issues response_text) |}
    | Raise e =>
        {| simulation_results := "Simulation failed: " +:+ e;
           potential_runtime_issues := None |}
    end.

(** [issue[key]], raising [KeyError] *)
Definition dict_item (issue : Issue) (key : string) : result pyval :=
  match issue !! key with
  | Some v => Ok v
  | None => Raise ("'" +:+ key +:+ "'")
  end.

(** The enhancement loop of [_enhance_suggestions_for_file]. *)
Definition attach_suggestions (suggestions : list string) (issues : list Issue)
  : list Issue :=
  imap (fun i issue =>
    match suggestions !! i with
    | Some suggestion =>
        if bool_decide (strip suggestion <> "")
        then <["enhanced_suggestion" := PStr (strip suggestion)]> issue
        else issue
    | None => issue
    end) issues.

Definition _enhance_suggestions_for_file (issues : list Issue) (file_path : pyval)
  : list Issue :=
  let attempt :=
    issues_summary <-?
      for_each (fun issue acc =>
                  title <-? dict_item issue "title" ;;
                  description <-? dict_item issue "description" ;;
                  Ok (acc ++ [(title, description)]))
               issues [] ;;
    response_text <-? generate_content gemini (EnhancePrompt file_path issues_summary) ;;
    let suggestions := split response_text NL in
    Ok (attach_suggestions suggestions issues)
  in
  match attempt with
  | Ok enhanced => enhanced
  | Raise _ => issues
  end.

(** [files_issues[file_path].append(issue)], creating the entry at the
    end of the dict when the key is new. *)
Fixpoint group_append (files_issues : list (pyval * list Issue))
    (file_path : pyval) (issue : Issue) : list (pyval * list Issue) :=
  match files_issues with
  | [] => [(file_path, [issue])]
  | (k, file_issues) :: rest =>
      if bool_decide (k = file_path)
      then (k, file_issues ++ [issue]) :: rest
      else (k, file_issues) :: group_append rest file_path issue
  end.

(** The grouping loop of [generate_improvement_suggestions]. *)
Definition group_by_file (issues : list Issue)
  : result (list (pyval * list Issue)) :=
  for_each (fun issue files_issues =>
              let file_path := dict_get issue "file_path" (PStr "unknown") in
              match file_path with
              | PUnhashable ty => unhashable_error ty
              | _ => Ok (group_append files_issues file_path issue)
              end)
           issues [].

Definition generate_improvement_suggestions (issues : list Issue) : list Issue :=
  if negb (model self) || bool_decide (issues = []) then issues
  else
    match group_by_file issues with
    | Ok files_issues =>
        flat_map (fun '(file_path, file_issues) =>
                    _enhance_suggestions_for_file file_issues file_path)
                 files_issues
    | Raise _ => issues
    end.
End GeminiAnalyzer.

(** * pipeline.py *)

(** ** Arithmetic of the score *)

(** [float(z)], exact for the integers of magnitude below [2^53]. *)
Definition float_of_int (z : Z) : float :=
  if (z <? 0)%Z
  then PrimFloat.opp (PrimFloat.of_uint63 (Uint63.of_Z (- z)))
  else PrimFloat.of_uint63 (Uint63.of_Z z).

(** [a / b] on two [int]s.  The operands here are a weighted count of
    issues and a number of files; below [2^53] CPython converts both
    exactly and divides in binary64. *)
Definition int_truediv (a b : Z) : float :=
  PrimFloat.div (float_of_int a) (float_of_int b).

(** [max(0, x)] for a [float] [x]: the first argument stays unless
    [x > 0]. *)
Definition max_0 (x : float) : pynum :=
  if PrimFloat.ltb (float_of_int 0) x then PyFloat x else PyInt 0.

(** The integer nearest to [num / den] for [0 < den], ties to even. *)
Definition div_half_even (num den : Z) : Z :=
  let q := (num / den)%Z in
  let r := (num mod den)%Z in
  if (2 * r <? den)%Z then q
  else if (den <? 2 * r)%Z then (q + 1)%Z
  else if Z.even q then q else (q + 1)%Z.

(** [round(x, 1)] for a [float]: the binary64 number nearest to the
    decimal with one fractional digit that is nearest to the exact value
    of [x] (ties to even), as CPython computes it from the shortest
    correctly rounded decimal.  A finite [x] is [m * 2^e] exactly, so the
    number of tenths is [10 * m / 2^(-e)] rounded half to even.  Numbers
    without a fractional part, infinities and NaN are returned as they
    are. *)
Definition float_round1 (x : float) : float :=
  match Prim2SF x with
  | S754_finite sign m e =>
      if (0 <=? e)%Z then x
      else
        let tenths := div_half_even (10 * Z.pos m) (2 ^ (- e)) in
        let r := PrimFloat.div (float_of_int tenths) (float_of_int 10) in
        if sign then PrimFloat.opp r else r
  | _ => x
  end.

(** [round(base_score, 1)]: an [int] is returned unchanged. *)
Definition round1 (base_score : pynum) : pynum :=
  match base_score with
  | PyInt z => PyInt z
  | PyFloat x => PyFloat (float_round1 x)
  end.

(** ** The run state and the report *)

Record Summary : Type := {
  total_issues : nat;
  files_analyzed : nat;
  overall_score : pynum;
  severity_breakdown : gmap string nat;
  issue_types : gmap pyval nat
}.

Record AnalysisMetadata : Type := {
  static_analysis_issues : nat;
  ai_analysis_issues : nat;
  timestamp : string
}.

Record Report : Type := {
  repository : gmap string pyval;
  summary : Summary;
  issues : list Issue;
  recommendations : list string;
  analysis_metadata : AnalysisMetadata
}.

(** The value under ['final_report']: the empty dict of the initial state
    or a report. *)
Inductive ReportSlot : Type :=
| EmptyReport
| FullReport (report : Report).

Record AnalysisState : Type := {
  repo_url : string;
  repo_info : gmap string pyval;
  code_files : list CodeFile;
  static_issues : list Issue;
  ai_issues : list Issue;
  final_report : ReportSlot;
  error : string
}.

Definition set_repo_info (v : gmap string pyval) (st : AnalysisState) :=
  {| repo_url := repo_url st; repo_info := v; code_files := code_files st;
     static_issues := static_issues st; ai_issues := ai_issues st;
     final_report := final_report st; error := error st |}.

Definition set_code_files (v : list CodeFile) (st : AnalysisState) :=
  {| repo_url := repo_url st; repo_info := repo_info st; code_files := v;
     static_issues := static_issues st; ai_issues := ai_issues st;
     final_report := final_report st; error := error st |}.

Definition set_static_issues (v : list Issue) (st : AnalysisState) :=
  {| repo_url := repo_url st; repo_info := repo_info st;
     code_files := code_files st; static_issues := v; ai_issues := ai_issues st;
     final_report := final_report st; error := error st |}.

Definition set_ai_issues (v : list Issue) (st : AnalysisState) :=
  {| repo_url := repo_url st; repo_info := repo_info st;
     code_files := code_files st; static_issues := static_issues st;
     ai_issues := v; final_report := final_report st; error := error st |}.

Definition set_final_report (v : ReportSlot) (st : AnalysisState) :=
  {| repo_url := repo_url st; repo_info := repo_info st;
     code_files := code_files st; static_issues := static_issues st;
     ai_issues := ai_issues st; final_report := v; error := error st |}.

Definition set_error (v : string) (st : AnalysisState) :=
  {| repo_url := repo_url st; repo_info := repo_info st;
     code_files := code_files st; static_issues := static_issues st;
     ai_issues := ai_issues st; final_report := final_report st; error := v |}.

(** What the pipeline obtains from outside the program. *)
Record World : Type := {
  os_environ : environ;
  requests_get : string -> option (gmap string pyval);
  clone_from : string -> result (list DirEntry);
  tree_sitter : TreeSitter;
  gemini : Gemini;
  now_isoformat : string
}.

(** ** A LangGraph workflow with one outgoing edge per node

    [invoke] runs the node at the entry point, then the node its edge
    leads to, until the edge leads to [END]; LangGraph raises when the
    number of steps reaches its recursion limit, 25 by default.  A graph
    that names a node without action or edge is refused when it is
    compiled; the workflow of the pipeline names none. *)

Definition END : string := "__end__".

Record StateGraph (S : Type) : Type := {
  nodes : list (string * (S -> S));
  edges : list (string * string);
  entry_point : string
}.
Arguments nodes {S} _.
Arguments edges {S} _.
Arguments entry_point {S} _.

Fixpoint assoc {V : Type} (key : string) (items : list (string * V)) : option V :=
  match items with
  | [] => None
  | (k, v) :: rest => if bool_decide (k = key) then Some v else assoc key rest
  end.

Fixpoint run_from {S : Type} (g : StateGraph S) (steps : nat) (node : string)
    (st : S) : result S :=
  if bool_decide (node = END) then Ok st
  else
    match steps with
    | O => Raise "Recursion limit of 25 reached without hitting a stop condition."
    | S steps' =>
        match assoc node (nodes g), assoc node (edges g) with
        | Some action, Some next => run_from g steps' next (action st)
        | _, _ => Raise ("Unknown node: " +:+ node)
        end
    end.

Definition invoke {S : Type} (g : StateGraph S) (st : S) : result S :=
  run_from g 25 (entry_point g) st.

(** ** The stages *)

(** [try: body except Exception as e: state["error"] = f"{prefix}{str(e)}"].
    In every stage the statements that assign to the state come after the
    last one that can raise, so the handler sees the state the stage
    received. *)
Definition try_stage (prefix : string)
    (body : AnalysisState -> result AnalysisState) (state : AnalysisState)
  : AnalysisState :=
  match body state with
  | Ok state' => state'
  | Raise e => set_error (prefix +:+ e) state
  end.

(** [severity_counts[key]], raising [KeyError] *)
Definition counts_item (counts : gmap string nat) (key : string) : result nat :=
  match counts !! key with
  | Some n => Ok n
  | None => Raise ("'" +:+ key +:+ "'")
  end.

(** The body of a severity loop:
    [severity = issue.get('severity', 'MEDIUM')],
    [if severity in severity_counts: severity_counts[severity] += 1]. *)
Definition count_severity (issue : Issue) (severity_counts : gmap string nat)
  : result (gmap string nat) :=
  let severity := dict_get issue "severity" (PStr "MEDIUM") in
  match severity with
  | PUnhashable ty => unhashable_error ty
  | PStr s =>
      match severity_counts !! s with
      | Some n => Ok (<[s := n + 1]> severity_counts)
      | None => Ok severity_counts
      end
  | _ => Ok severity_counts
  end.

(** The body of a type loop:
    [issue_type = issue.get('type', 'unknown')],
    [type_counts[issue_type] = type_counts.get(issue_type, 0) + 1]. *)
Definition count_type (issue : Issue) (type_counts : gmap pyval nat)
  : result (gmap pyval nat) :=
  let issue_type := dict_get issue "type" (PStr "unknown") in
  match issue_type with
  | PUnhashable ty => unhashable_error ty
  | _ => Ok (<[issue_type := dict_get type_counts issue_type 0 + 1]> type_counts)
  end.

Section IssueAnalyzerPipeline.
Variable world : World.

Definition github_parser_config : Config_attrs := Config (os_environ world).

Definition gemini_analyzer : GeminiAnalyzer :=
  GeminiAnalyzer_init (os_environ world) (gemini world).

(** [clone_repository] and the listing of the clone. *)
Definition clone_repository (repo_url : string) : result (list DirEntry) :=
  match clone_from world repo_url with
  | Ok repo_listing => Ok repo_listing
  | Raise e => Raise ("Failed to clone repository: " +:+ e)
  end.

Definition _parse_repository_body (state : AnalysisState) : result AnalysisState :=
  let repo_info := get_repository_info (requests_get world) (repo_url state) in
  parsed_url <-? parse_github_url (repo_url state) ;;
  Ok (set_repo_info (parsed_url ∪ repo_info) state).

Definition _parse_repository : AnalysisState -> AnalysisState :=
  try_stage "Failed to parse repository: " _parse_repository_body.

Definition _extract_code_files_body (state : AnalysisState) : result AnalysisState :=
  repo_path <-? clone_repository (repo_url state) ;;
  let code_files := extract_code_files github_parser_config repo_path in
  Ok (set_code_files code_files state).

Definition _extract_code_files : AnalysisState -> AnalysisState :=
  try_stage "Failed to extract code files: " _extract_code_files_body.

Definition _run_static_analysis_body (state : AnalysisState) : result AnalysisState :=
  let all_issues :=
    flat_map (fun file_info =>
                analyze_file (tree_sitter world) (content file_info)
                             (language file_info) (path file_info))
             (code_files state) in
  Ok (set_static_issues all_issues state).

Definition _run_static_analysis : AnalysisState -> AnalysisState :=
  try_stage "Static analysis failed: " _run_static_analysis_body.

Definition runtime_issue (issue_text file_path : string) : Issue :=
  dict_of [
    ("type", PStr "runtime_risk");
    ("severity", PStr "MEDIUM");
    ("title", PStr "Potential Runtime Issue");
    ("description", PStr issue_text);
    ("line", PInt 1);
    ("suggestion", PStr "Review code for runtime safety");
    ("file_path", PStr file_path);
    ("source", PStr "gemini_simulation")
  ].

(** What one iteration of the loop of [_run_ai_analysis] appends to
    [all_ai_issues]. *)
Definition ai_issues_of_file (file_info : CodeFile) : list Issue :=
  let logic_issues :=
    analyze_code_logic (gemini world) gemini_analyzer
      (content file_info) (language file_info) (path file_info) in
  logic_issues ++
  (if String.length (content file_info) <? 5000 then
     let simulation :=
       simulate_code_execution (gemini world) gemini_analyzer
         (content file_info) (language file_info) in
     let runtime_issues := default [] (potential_runtime_issues simulation) in
     map (fun issue_text => runtime_issue issue_text (path file_info)) runtime_issues
   else []).

Definition _run_ai_analysis_body (state : AnalysisState) : result AnalysisState :=
  let files_to_analyze := take 10 (code_files state) in
  let all_ai_issues := flat_map ai_issues_of_file files_to_analyze in
  let static_issues_ := static_issues state in
  let all_issues := static_issues_ ++ all_ai_issues in
  let enhanced_issues :=
    generate_improvement_suggestions (gemini world) gemini_analyzer all_issues in
  Ok (set_ai_issues (drop (length static_issues_) enhanced_issues)
       (set_static_issues (take (length static_issues_) enhanced_issues)
         (set_ai_issues all_ai_issues state))).

Definition _run_ai_analysis : AnalysisState -> AnalysisState :=
  try_stage "AI analysis failed: " _run_ai_analysis_body.

Definition _generate_recommendations (issues : list Issue) : result (list string) :=
  counts <-?
    for_each (fun issue (counts : gmap pyval nat * gmap string nat) =>
                type_counts <-? count_type issue (fst counts) ;;
                severity_counts <-? count_severity issue (snd counts) ;;
                Ok (type_counts, severity_counts))
             issues
             (∅, dict_of [("CRITICAL", 0); ("HIGH", 0); ("MEDIUM", 0); ("LOW", 0)]) ;;
  let type_counts := fst counts in
  let severity_counts := snd counts in
  critical <-? counts_item severity_counts "CRITICAL" ;;
  let recommendations :=
    if 0 <? critical
    then ["🚨 Address critical security and logic issues immediately"]
    else [] in
  high <-? counts_item severity_counts "HIGH" ;;
  let recommendations :=
    if 3 <? high
    then recommendations ++
         ["⚠️ High number of high-severity issues detected - consider code review"]
    else recommendations in
  let recommendations :=
    if 0 <? dict_get type_counts (PStr "security") 0
    then recommendations ++
         ["🔒 Implement security best practices and input validation"]
    else recommendations in
  let recommendations :=
    if 2 <? dict_get type_counts (PStr "performance") 0
    then recommendations ++
         ["⚡ Optimize performance bottlenecks for better efficiency"]
    else recommendations in
  let recommendations :=
    if 5 <? dict_get type_counts (PStr "maintainability") 0
    then recommendations ++
         ["📚 Improve code documentation and maintainability"]
    else recommendations in
  let recommendations :=
    if bool_decide (recommendations = [])
    then recommendations ++
         ["✅ Code quality looks good! Consider regular analysis for continuous improvement"]
    else recommendations in
  Ok recommendations.

Definition _get_timestamp : string := now_isoformat world.

(** The report built by [_generate_final_report]. *)
Definition build_report (state : AnalysisState) : result Report :=
  let static_issues_ := static_issues state in
  let ai_issues_ := ai_issues state in
  let all_issues := static_issues_ ++ ai_issues_ in
  severity_counts <-?
    for_each count_severity all_issues
      (dict_of [("CRITICAL", 0); ("HIGH", 0); ("MEDIUM", 0); ("LOW", 0); ("INFO", 0)]) ;;
  type_counts <-? for_each count_type all_issues ∅ ;;
  let total_issues := length all_issues in
  critical <-? counts_item severity_counts "CRITICAL" ;;
  let critical_weight := critical * 10 in
  high <-? counts_item severity_counts "HIGH" ;;
  let high_weight := high * 5 in
  medium <-? counts_item severity_counts "MEDIUM" ;;
  let medium_weight := medium * 2 in
  low <-? counts_item severity_counts "LOW" ;;
  let low_weight := low * 1 in
  let penalty_score := critical_weight + high_weight + medium_weight + low_weight in
  let code_files_count := length (code_files state) in
  let base_score :=
    if 0 <? code_files_count then
      max_0 (PrimFloat.sub (float_of_int 100)
               (PrimFloat.mul
                  (int_truediv (Z.of_nat penalty_score) (Z.of_nat code_files_count))
                  (float_of_int 10)))
    else if total_issues =? 0 then PyInt 100 else PyInt 50 in
  recommendations <-? _generate_recommendations all_issues ;;
  Ok {| repository := repo_info state;
        summary := {|
          total_issues := total_issues;
          files_analyzed := length (code_files state);
          overall_score := round1 base_score;
          severity_breakdown := severity_counts;
          issue_types := type_counts
        |};
        issues := all_issues;
        recommendations := recommendations;
        analysis_metadata := {|
          static_analysis_issues := length static_issues_;
          ai_analysis_issues := length ai_issues_;
          timestamp := _get_timestamp
        |} |}.

Definition _generate_final_report_body (state : AnalysisState) : result AnalysisState :=
  report <-? build_report state ;;
  Ok (set_final_report (FullReport report) state).

Definition _generate_final_report : AnalysisState -> AnalysisState :=
  try_stage "Report generation failed: " _generate_final_report_body.

Definition _create_workflow : StateGraph AnalysisState := {|
  nodes := [
    ("parse_repo", _parse_repository);
    ("extract_files", _extract_code_files);
    ("static_analysis", _run_static_analysis);
    ("ai_analysis", _run_ai_analysis);
    ("generate_report", _generate_final_report)
  ];
  edges := [
    ("parse_repo", "extract_files");
    ("extract_files", "static_analysis");
    ("static_analysis", "ai_analysis");
    ("ai_analysis", "generate_report");
    ("generate_report", END)
  ];
  entry_point := "parse_repo"
|}.

(** The dict returned by [analyze]. *)
Record AnalyzeResult : Type := {
  success : bool;
  result_error : option string;
  result_report : option ReportSlot
}.

Definition initial_state (repo_url : string) : AnalysisState := {|
  repo_url := repo_url;
  repo_info := ∅;
  code_files := [];
  static_issues := [];
  ai_issues := [];
  final_report := EmptyReport;
  error := ""
|}.

Definition analyze (repo_url : string) : AnalyzeResult :=
  match invoke _create_workflow (initial_state repo_url) with
  | Ok final_state =>
      if bool_decide (error final_state <> "")
      then {| success := false;
              result_error := Some (error final_state);
              result_report := None |}
      else {| success := true;
              result_error := None;
              result_report := Some (final_report final_state) |}
  | Raise e =>
      {| success := false;
         result_error := Some ("Pipeline execution failed: " +:+ e);
         result_report := None |}
  end.
End IssueAnalyzerPipeline.

(** * Vocabulary of the properties *)

(** ** Reading issues *)

(** The issue's ['title'] is [t]. *)
Definition titled (t : string) (issue : Issue) : bool :=
  bool_decide (issue !! "title" = Some (PStr t)).

(** The issue's ['line'] is [n]. *)
Definition at_line (n : nat) (issue : Issue) : bool :=
  bool_decide (issue !! "line" = Some (PInt (Z.of_nat n))).

(** How many issues of a list pass a test. *)
Definition count_issues (p : Issue -> bool) (l : list Issue) : nat :=
  length (List.filter p l).

(** Every issue of the list carries the title [t]. *)
Definition all_titled (t : string) (l : list Issue) : Prop :=
  Forall (fun x => x !! "title" = Some (PStr t)) l.

(** ** Sample inputs *)

(** [c * n] *)
Fixpoint str_replicate (n : nat) (c : ascii) : string :=
  match n with
  | O => ""
  | S k => String c (str_replicate k c)
  end.

(** tree-sitter with no working parser: every structure summary comes
    from [_basic_code_analysis]. *)
Definition no_tree_sitter : TreeSitter := {|
  parser_created := fun _ => false;
  parse_returns := fun _ _ => false
|}.

(** Three lines, the third of 130 characters. *)
Definition sample_wide_code : string :=
  "import os" +:+ NL +:+ "x = 1" +:+ NL +:+ str_replicate 130 "a".

(** A line with an assignment, a quote and two of the secret keywords. *)
Definition sample_secret_code : string :=
  "import os" +:+ NL +:+ "API_KEY = 'abc'  # the token".

(** The secret keywords that occur in a line, case-insensitively. *)
Definition keywords_in (line_ : string) : list string :=
  List.filter (fun pattern => contains pattern (lower line_)) secret_patterns.

(** Decoding a file yields at most one character per byte, and the file
    is not replaced between [stat()] and [read()]: the text read from an
    entry is no longer than the size reported for it. *)
Definition decodes_within (e : DirEntry) : Prop :=
  forall text sz,
    read_text e = ReadText text -> st_size e = Ok sz ->
    (Z.of_nat (String.length text) <= sz)%Z.

(** A cloned repository with a hidden file, an oversized file, a file that
    is not valid UTF-8 and two small code files. *)
Definition sample_listing : list DirEntry := [
  {| is_file := true; parts := ["tmp"; ".git"; "config"]; suffix := "";
     st_size := Ok 92%Z; read_text := ReadText "[core]"; relative_to := ".git/config" |};
  {| is_file := true; parts := ["tmp"; "big.js"]; suffix := ".js";
     st_size := Ok 2000000%Z; read_text := ReadText "x"; relative_to := "big.js" |};
  {| is_file := true; parts := ["tmp"; "latin.py"]; suffix := ".py";
     st_size := Ok 12%Z; read_text := ReadSkipped; relative_to := "latin.py" |};
  {| is_file := true; parts := ["tmp"; "a.py"]; suffix := ".py";
     st_size := Ok 5%Z; read_text := ReadText "x = 1"; relative_to := "a.py" |};
  {| is_file := true; parts := ["tmp"; "src"; "B.JS"]; suffix := ".JS";
     st_size := Ok 9%Z; read_text := ReadText "let y = 2"; relative_to := "src/B.JS" |}
].

(** No environment variable is set. *)
Definition empty_environ : environ := fun _ => None.

(** ** Counting issues by severity and by category *)

(** The severity the report reads off an issue: the value under
    ['severity'], MEDIUM when the key is absent. *)
Definition severity_of (issue : Issue) : pyval :=
  dict_get issue "severity" (PStr "MEDIUM").

(** The category the report reads off an issue: the value under ['type'],
    unknown when the key is absent. *)
Definition type_of (issue : Issue) : pyval :=
  dict_get issue "type" (PStr "unknown").

(** The number of issues of a list whose severity is [level]. *)
Definition number_with_severity (level : string) (issues : list Issue) : nat :=
  count_issues (fun x => bool_decide (severity_of x = PStr level)) issues.

(** The number of issues of a list whose category is the value [key]. *)
Definition number_of_type (key : pyval) (issues : list Issue) : nat :=
  count_issues (fun x => bool_decide (type_of x = key)) issues.

(** The number of issues of a list whose category is the string
    [category]. *)
Definition number_in_category (category : string) (issues : list Issue) : nat :=
  number_of_type (PStr category) issues.

(** The severity and the category of the issue can be dictionary keys. *)
Definition keys_hashable (issue : Issue) : Prop :=
  hashable (severity_of issue) = true /\ hashable (type_of issue) = true.

(** ** The recommendation rules, as the specification lists them *)

Definition rule_critical : string :=
  "🚨 Address critical security and logic issues immediately".
Definition rule_high : string :=
  "⚠️ High number of high-severity issues detected - consider code review".
Definition rule_security : string :=
  "🔒 Implement security best practices and input validation".
Definition rule_performance : string :=
  "⚡ Optimize performance bottlenecks for better efficiency".
Definition rule_maintainability : string :=
  "📚 Improve code documentation and maintainability".
Definition rule_looks_good : string :=
  "✅ Code quality looks good! Consider regular analysis for continuous improvement".

(** The strings of the rules whose trigger holds, in the order of the
    rules. *)
Definition triggered_rules (issues : list Issue) : list string :=
  (if 0 <? number_with_severity "CRITICAL" issues then [rule_critical] else [])
  ++ (if 3 <? number_with_severity "HIGH" issues then [rule_high] else [])
  ++ (if 0 <? number_in_category "security" issues then [rule_security] else [])
  ++ (if 2 <? number_in_category "performance" issues then [rule_performance] else [])
  ++ (if 5 <? number_in_category "maintainability" issues
      then [rule_maintainability] else []).

(** The recommendations of the specification: the triggered rules, or the
    single fallback when there is none. *)
Definition expected_recommendations (issues : list Issue) : list string :=
  match triggered_rules issues with
  | [] => [rule_looks_good]
  | triggered => triggered
  end.

(** An issue with the given category and severity and nothing else. *)
Definition sample_issue (category severity : string) : Issue :=
  dict_of [("type", PStr category); ("severity", PStr severity)].

(** ** The score, as the specification states it *)

(** [10·#CRITICAL + 5·#HIGH + 2·#MEDIUM + 1·#LOW] *)
Definition penalty (issues : list Issue) : nat :=
  10 * number_with_severity "CRITICAL" issues
  + 5 * number_with_severity "HIGH" issues
  + 2 * number_with_severity "MEDIUM" issues
  + 1 * number_with_severity "LOW" issues.

(** [max(0, 100 − penalty/#codeUnits·10)] when there are code units,
    otherwise 100 for no issue and 50 for some; rounded to one decimal.
    The arithmetic is that of Python numbers. *)
Definition expected_score (issues : list Issue) (code_units : nat) : pynum :=
  round1
    (if 0 <? code_units then
       max_0 (PrimFloat.sub (float_of_int 100)
                (PrimFloat.mul
                   (int_truediv (Z.of_nat (penalty issues)) (Z.of_nat code_units))
                   (float_of_int 10)))
     else match issues with
          | [] => PyInt 100
          | _ :: _ => PyInt 50
          end).

(** ** The severity breakdown *)

Definition severity_levels : list string :=
  ["CRITICAL"; "HIGH"; "MEDIUM"; "LOW"; "INFO"].

(** The sum of the five counts of a severity breakdown. *)
Definition breakdown_sum (breakdown : gmap string nat) : nat :=
  list_sum (map (fun level => dict_get breakdown level 0) severity_levels).

(** The severity read off the issue is one of the five levels. *)
Definition recognized (issue : Issue) : bool :=
  existsb (fun level => bool_decide (severity_of issue = PStr level)) severity_levels.

(** ** Sample worlds and states *)

(** A generative model that is not reachable. *)
Definition no_gemini : Gemini := {|
  cli_available := false;
  cli_generate := fun _ => "";
  generate_content := fun _ => Raise "unreachable";
  json_loads := fun _ => JsonDecodeError
|}.

(** A world without network, parsers, model or API key. *)
Definition offline_world : World := {|
  os_environ := empty_environ;
  requests_get := fun _ => None;
  clone_from := fun _ => Raise "could not resolve host";
  tree_sitter := no_tree_sitter;
  gemini := no_gemini;
  now_isoformat := "2024-01-01T00:00:00"
|}.

Definition sample_code_file : CodeFile := {|
  path := "a.py"; content := "x = 1"; language := "python"; size := 5
|}.

(** The state before synthesis, with the given code files and static
    issues and no AI issue. *)
Definition state_with (files : list CodeFile) (found : list Issue) : AnalysisState := {|
  repo_url := "https://github.com/o/r";
  repo_info := ∅;
  code_files := files;
  static_issues := found;
  ai_issues := [];
  final_report := EmptyReport;
  error := ""
|}.

(** The issue has no ['severity'] or the severity MEDIUM. *)
Definition absent_or_medium (issue : Issue) : bool :=
  match issue !! "severity" with
  | None => true
  | Some v => bool_decide (v = PStr "MEDIUM")
  end.

(** The issue's ['source'] is [s]. *)
Definition from_source (s : string) (issue : Issue) : bool :=
  bool_decide (issue !! "source" = Some (PStr s)).

(** An environment that holds an API key and nothing else. *)
Definition api_key_environ : environ :=
  fun name => if bool_decide (name = "GEMINI_API_KEY") then Some "k3y" else None.

(** A generative model that answers simulation prompts with one line and
    fails on the others. *)
Definition simulating_gemini : Gemini := {|
  cli_available := false;
  cli_generate := fun _ => "";
  generate_content := fun prompt =>
    match prompt with
    | SimulationPrompt _ _ => Ok "IndexError possible"
    | _ => Raise "quota exceeded"
    end;
  json_loads := fun _ => JsonDecodeError
|}.

Definition simulating_world : World := {|
  os_environ := api_key_environ;
  requests_get := fun _ => None;
  clone_from := fun _ => Raise "could not resolve host";
  tree_sitter := no_tree_sitter;
  gemini := simulating_gemini;
  now_isoformat := "2024-01-01T00:00:00"
|}.

(** ** Enhancement *)

(** [y] is [x], possibly with an ['enhanced_suggestion'] attached. *)
Definition enhanced_from (x y : Issue) : Prop :=
  y = x \/ exists s, y = <["enhanced_suggestion" := PStr s]> x.

(** The issues of the groups, group after group. *)
Definition ungroup (files_issues : list (pyval * list Issue)) : list Issue :=
  flat_map snd files_issues.

(** An issue with a title, a description and a file path. *)
Definition located_issue (title file_path : string) : Issue :=
  dict_of [("title", PStr title); ("description", PStr title);
           ("file_path", PStr file_path)].

(** Two Python files: static detection finds an eval call in each, the
    fallback logic analysis a division in the first. *)
Definition sample_file_a : CodeFile := {|
  path := "a.py"; content := "y = eval(x) / 2"; language := "python"; size := 15
|}.
Definition sample_file_b : CodeFile := {|
  path := "b.py"; content := "z = eval(w)"; language := "python"; size := 11
|}.

(** ** Errors recorded by the stages *)

(** The message a stage records on the state it receives, if its body
    raises there. *)
Definition recorded (prefix : string)
    (body : AnalysisState -> result AnalysisState) (state : AnalysisState)
  : option string :=
  match body state with
  | Ok _ => None
  | Raise e => Some (prefix +:+ e)
  end.

(** The state handed to the report stage. *)
Definition state_before_report (world : World) (repo_url : string) : AnalysisState :=
  _run_ai_analysis world
    (_run_static_analysis world
       (_extract_code_files world
          (_parse_repository world (initial_state repo_url)))).

(** The messages the five stages record during a run, in the order of
    the stages. *)
Definition recorded_errors (world : World) (repo_url : string) : list string :=
  let s0 := initial_state repo_url in
  let s1 := _parse_repository world s0 in
  let s2 := _extract_code_files world s1 in
  let s3 := _run_static_analysis world s2 in
  let s4 := _run_ai_analysis world s3 in
  omap id [
    recorded "Failed to parse repository: " (_parse_repository_body world) s0;
    recorded "Failed to extract code files: " (_extract_code_files_body world) s1;
    recorded "Static analysis failed: " (_run_static_analysis_body world) s2;
    recorded "AI analysis failed: " (_run_ai_analysis_body world) s3;
    recorded "Report generation failed: " (_generate_final_report_body world) s4
  ].

(** A world where the clone succeeds and holds one small Python file. *)
Definition cloning_world : World := {|
  os_environ := empty_environ;
  requests_get := fun _ => None;
  clone_from := fun _ => Ok sample_listing;
  tree_sitter := no_tree_sitter;
  gemini := no_gemini;
  now_isoformat := "2024-01-01T00:00:00"
|}.

(** ** Counting characters *)

(** The number of occurrences of a character in a string. *)
Fixpoint count_char (c : ascii) (s : string) : nat :=
  match s with
  | "" => 0
  | String d s' => (if bool_decide (d = c) then 1 else 0) + count_char c s'
  end.

(** The dictionary [parse_github_url] returns for an owner and a
    repository name. *)
Definition parsed_url (owner repo : string) : gmap string pyval :=
  dict_of [
    ("owner", PStr owner);
    ("repo", PStr repo);
    ("full_url", PStr ("https://github.com/" +:+ owner +:+ "/" +:+ repo +:+ ".git"))
  ].

(** ** The scan of a repository, entry by entry *)

(** The code unit built for an entry the scan accepts; none for an entry
    it passes over (not a regular file, hidden, unsupported extension,
    oversized, not decodable) or fails on. *)
Definition unit_of (config : Config_attrs) (e : DirEntry) : option CodeFile :=
  if is_file e && negb (hidden e) then
    match SUPPORTED_EXTENSIONS config !! lower (suffix e), st_size e, read_text e with
    | Some lang, Ok sz, ReadText text =>
        if (MAX_FILE_SIZE config <? sz)%Z then None
        else Some {| path := relative_to e; content := text; language := lang;
                     size := String.length text |}
    | _, _, _ => None
    end
  else None.

(** The scan fails on the entry: a visible regular file with a supported
    extension whose [stat()] raises, or which is within the size cap and
    whose reading raises something other than [UnicodeDecodeError] and
    [PermissionError]. *)
Definition fatal (config : Config_attrs) (e : DirEntry) : bool :=
  is_file e && negb (hidden e)
  && match SUPPORTED_EXTENSIONS config !! lower (suffix e) with
     | Some _ =>
         match st_size e with
         | Raise _ => true
         | Ok sz =>
             negb (MAX_FILE_SIZE config <? sz)%Z
             && match read_text e with
                | ReadFailed _ => true
                | _ => false
                end
         end
     | None => false
     end.

(** The entries before the first one the scan fails on. *)
Fixpoint scanned (config : Config_attrs) (entries : list DirEntry) : list DirEntry :=
  match entries with
  | [] => []
  | e :: rest => if fatal config e then [] else e :: scanned config rest
  end.

(** A listing in which the third file cannot be read. *)
Definition sample_broken_listing : list DirEntry := [
  {| is_file := true; parts := ["tmp"; "a.py"]; suffix := ".py";
     st_size := Ok 5%Z; read_text := ReadText "x = 1"; relative_to := "a.py" |};
  {| is_file := false; parts := ["tmp"; "src"]; suffix := "";
     st_size := Ok 4096%Z; read_text := ReadFailed "is a directory"; relative_to := "src" |};
  {| is_file := true; parts := ["tmp"; "src"; "gone.go"]; suffix := ".go";
     st_size := Raise "no such file"; read_text := ReadFailed "no such file";
     relative_to := "src/gone.go" |};
  {| is_file := true; parts := ["tmp"; "src"; "b.rb"]; suffix := ".rb";
     st_size := Ok 7%Z; read_text := ReadText "puts 1"; relative_to := "src/b.rb" |}
].

(** ** Lines and functions of a code unit *)

(** The stripped line opens a Python function definition. *)
Definition is_def_line (line_ : string) : bool := startswith (strip line_) "def ".

(** The entry the basic analysis records for a Python [def] line. *)
Definition python_function (i : nat) (line_ : string) : FunctionInfo := {|
  name := replace (default "" (head (split (strip line_) "("))) "def " "";
  line := Some (i + 1);
  parameters := Some (_extract_parameters (strip line_))
|}.

(** tree-sitter whose parsers are created and whose parsing succeeds. *)
Definition working_tree_sitter : TreeSitter := {|
  parser_created := fun _ => true;
  parse_returns := fun _ _ => true
|}.

(** A Python file with two functions, one of them indented. *)
Definition sample_python_code : string :=
  "def f(a, b):" +:+ NL +:+ "    return eval(a)" +:+ NL +:+ "  def g():"
  +:+ NL +:+ "    for i in range(len(a)): pass".

(** ** What every issue of static detection looks like *)

Definition static_categories : list string :=
  ["code_quality"; "security"; "performance"; "maintainability"].

(** The issue is stamped with [file_path], has one of the four
    categories of the static checks, a severity the report recognizes, a
    line number from 1, and neither a source nor an enhanced
    suggestion. *)
Definition static_issue_shape (file_path : string) (x : Issue) : Prop :=
  x !! "file_path" = Some (PStr file_path)
  /\ (exists category, category ∈ static_categories /\ x !! "type" = Some (PStr category))
  /\ recognized x = true
  /\ (exists n, x !! "line" = Some (PInt (Z.of_nat (S n))))
  /\ x !! "source" = None
  /\ x !! "enhanced_suggestion" = None.

(** ** Reading a model response as text *)

(** The stripped line names an issue, a problem, a bug or an error. *)
Definition announces_issue (line_ : string) : bool :=
  existsb (fun keyword => contains keyword (lower (strip line_)))
          ["issue:"; "problem:"; "bug:"; "error:"].

(** A world with the command line client switched on and present. *)
Definition cli_environ : environ :=
  fun name =>
    if bool_decide (name = "USE_GEMINI_CLI") then Some "True"
    else if bool_decide (name = "GEMINI_API_KEY") then Some "k3y"
    else None.

Definition cli_gemini : Gemini := {|
  cli_available := true;
  cli_generate := fun _ => "";
  generate_content := fun _ => Ok "Error: never asked";
  json_loads := fun _ => JsonDecodeError
|}.

(** ** Reports *)

(** The issue's severity or category is a JSON array or object. *)
Definition unhashable_keys (x : Issue) : Prop :=
  hashable (severity_of x) = false \/ hashable (type_of x) = false.

(** The sum of the counts of a dictionary of counts. *)
Definition counts_total `{Countable K} (counts : gmap K nat) : nat :=
  map_fold (fun _ n total => n + total) 0 counts.


(** The report of a run that found no code file and no issue. *)
Definition clean_report (world : World) (info : gmap string pyval) : Report := {|
  repository := info;
  summary := {|
    total_issues := 0;
    files_analyzed := 0;
    overall_score := PyInt 100;
    severity_breakdown :=
      dict_of [("CRITICAL", 0); ("HIGH", 0); ("MEDIUM", 0); ("LOW", 0); ("INFO", 0)];
    issue_types := ∅
  |};
  issues := [];
  recommendations := [rule_looks_good];
  analysis_metadata := {|
    static_analysis_issues := 0;
    ai_analysis_issues := 0;
    timestamp := now_isoformat world
  |}
|}.

(** A world where the clone succeeds and holds no file. *)
Definition empty_clone_world : World := {|
  os_environ := empty_environ;
  requests_get := fun _ => None;
  clone_from := fun _ => Ok [];
  tree_sitter := no_tree_sitter;
  gemini := no_gemini;
  now_isoformat := "2024-01-01T00:00:00"
|}.

(** The stages between extraction and the end of the run. *)
Definition analysis_stages (world : World) (state : AnalysisState) : AnalysisState :=
  _generate_final_report world
    (_run_ai_analysis world (_run_static_analysis world state)).

(** What the fallback detection reports for a code file. *)
Definition fallback_issues_of_file (file_info : CodeFile) : list Issue :=
  _fallback_logic_analysis (content file_info) (language file_info) (path file_info).

(** What static detection reports for a code file. *)
Definition static_issues_of_file (world : World) (file_info : CodeFile) : list Issue :=
  analyze_file (tree_sitter world) (content file_info) (language file_info)
               (path file_info).


(** The issue has no ['source']. *)
Definition unsourced (issue : Issue) : bool :=
  bool_decide (issue !! "source" = None).

(** The sources the AI stage writes on its issues. *)
Definition ai_sources : list string := ["gemini"; "fallback"; "gemini_simulation"].

(** The issue's ['source'] is one of those of the AI stage. *)
Definition ai_sourced (issue : Issue) : Prop :=
  exists s, s ∈ ai_sources /\ issue !! "source" = Some (PStr s).


(** ** The score in exact arithmetic *)

(** The integer nearest to the rational [num / den], for [0 < den]; a
    rational halfway between two integers goes to the even one. *)
Definition nearest_integer (num den : Z) : Z :=
  let below := (num / den)%Z in
  match (2 * (num - below * den) ?= den)%Z with
  | Lt => below
  | Gt => (below + 1)%Z
  | Eq => if Z.even below then below else (below + 1)%Z
  end.

(** The score of the specification when there are code units, counted in
    tenths: the rational [100 − penalty/#codeUnits·10], which is
    [(100·#codeUnits − 10·penalty) / #codeUnits], times ten and rounded to
    the nearest integer. *)
Definition score_tenths (penalty code_units : nat) : Z :=
  nearest_integer
    (10 * (100 * Z.of_nat code_units - 10 * Z.of_nat penalty))
    (Z.of_nat code_units).

(** The binary64 number nearest to [tenths / 10], for [0 <= tenths]. *)
Definition float_of_tenths (tenths : Z) : float :=
  PrimFloat.div (PrimFloat.of_uint63 (Uint63.of_Z tenths))
                (PrimFloat.of_uint63 (Uint63.of_Z 10)).

(** [max(0, 100 − penalty/#codeUnits·10)] rounded to one decimal, computed
    on rational numbers: the integer 0 when the difference is not
    positive, otherwise the float that prints as the rounded decimal. *)
Definition exact_score (penalty code_units : nat) : pynum :=
  if (100 * Z.of_nat code_units <=? 10 * Z.of_nat penalty)%Z then PyInt 0
  else PyFloat (float_of_tenths (score_tenths penalty code_units)).

(** Equality of two Python numbers of the same type; floats are compared
    as binary64 values. *)
Definition pynum_eqb (a b : pynum) : bool :=
  match a, b with
  | PyInt x, PyInt y => (x =? y)%Z
  | PyFloat x, PyFloat y => PrimFloat.Leibniz.eqb x y
  | _, _ => false
  end.

(** Three code files. *)
Definition three_code_files : list CodeFile :=
  [sample_code_file; sample_code_file; sample_code_file].


(** The score [_generate_final_report] computes from the penalty when
    there are code units, in the arithmetic of Python numbers. *)
Definition score_of_penalty (penalty_score code_files_count : nat) : pynum :=
  round1
    (max_0 (PrimFloat.sub (float_of_int 100)
              (PrimFloat.mul
                 (int_truediv (Z.of_nat penalty_score) (Z.of_nat code_files_count))
                 (float_of_int 10)))).


(** A listing with one Python file that reports the size 0 and reads as
    [text], as a link to a file of the proc file system does. *)
Definition understated_listing (text : string) : list DirEntry := [
  {| is_file := true; parts := ["tmp"; "b.py"]; suffix := ".py";
     st_size := Ok 0%Z; read_text := ReadText text; relative_to := "b.py" |}
].

(** A listing whose first file cannot be read (its reading raises an
    [OSError] that is no [PermissionError]), followed by a small code
    file. *)
Definition unreadable_listing : list DirEntry := [
  {| is_file := true; parts := ["tmp"; "a.py"]; suffix := ".py";
     st_size := Ok 12%Z; read_text := ReadFailed "Input/output error";
     relative_to := "a.py" |};
  {| is_file := true; parts := ["tmp"; "c.py"]; suffix := ".py";
     st_size := Ok 5%Z; read_text := ReadText "x = 1"; relative_to := "c.py" |}
].

(** * Properties *)

(** ** Counting and reading issues *)

Lemma count_issues_app p l1 l2 :
  count_issues p (l1 ++ l2) = count_issues p l1 + count_issues p l2.
Proof. unfold count_issues. by rewrite List.filter_app, length_app. Qed.

Lemma count_issues_map p (f : Issue -> Issue) l :
  (forall x, p (f x) = p x) ->
  count_issues p (map f l) = count_issues p l.
Proof.
  intros Hpf. unfold count_issues.
  induction l as [|x l IH]; simpl; [done|].
  rewrite Hpf. destruct (p x); simpl; by rewrite IH.
Qed.

Lemma count_issues_none p l :
  Forall (fun x => p x = false) l -> count_issues p l = 0.
Proof.
  unfold count_issues. induction 1 as [|x l Hx _ IH]; simpl; [done|].
  by rewrite Hx.
Qed.

Lemma set_file_path_lookup file_path issue key :
  key <> "file_path" -> set_file_path file_path issue !! key = issue !! key.
Proof. intros Hne. unfold set_file_path. by rewrite lookup_insert_ne. Qed.

Lemma titled_set_file_path t file_path issue :
  titled t (set_file_path file_path issue) = titled t issue.
Proof. unfold titled. by rewrite set_file_path_lookup. Qed.

Lemma at_line_set_file_path n file_path issue :
  at_line n (set_file_path file_path issue) = at_line n issue.
Proof. unfold at_line. by rewrite set_file_path_lookup. Qed.

(** The fields of the issues the static checks build. *)

Lemma long_line_issue_title i l : long_line_issue i l !! "title" = Some (PStr "Long Line").
Proof. reflexivity. Qed.

Lemma long_line_issue_line i l :
  long_line_issue i l !! "line" = Some (PInt (Z.of_nat (i + 1))).
Proof. reflexivity. Qed.

Lemma long_line_issue_severity i l :
  long_line_issue i l !! "severity" = Some (PStr "LOW").
Proof. reflexivity. Qed.

Lemma hardcoded_secret_issue_title i :
  hardcoded_secret_issue i !! "title" = Some (PStr "Potential Hardcoded Secret").
Proof. reflexivity. Qed.

Lemma hardcoded_secret_issue_line i :
  hardcoded_secret_issue i !! "line" = Some (PInt (Z.of_nat (i + 1))).
Proof. reflexivity. Qed.

Lemma eval_issue_title i :
  eval_issue i !! "title" = Some (PStr "Dangerous eval() Usage").
Proof. reflexivity. Qed.

Lemma inefficient_loop_issue_title i :
  inefficient_loop_issue i !! "title" = Some (PStr "Inefficient Loop").
Proof. reflexivity. Qed.

Lemma missing_documentation_issue_title func :
  missing_documentation_issue func !! "title" = Some (PStr "Missing Documentation").
Proof. reflexivity. Qed.

Lemma all_titled_enumerate t (g : nat -> string -> list Issue) k lines :
  (forall j l, all_titled t (g j l)) ->
  all_titled t (flat_map (fun '(j, l) => g j l) (enumerate_from k lines)).
Proof.
  intros Hg. unfold all_titled. apply List.Forall_flat_map, Forall_forall.
  intros [j l] _. apply Hg.
Qed.

Lemma all_titled_other t t' l :
  t <> t' -> all_titled t' l -> Forall (fun x => titled t x = false) l.
Proof.
  intros Hne Hall. eapply Forall_impl; [exact Hall|]. intros x Hx. unfold titled.
  rewrite Hx. apply bool_decide_eq_false. congruence.
Qed.

Lemma long_function_issues_nil structure : long_function_issues structure = [].
Proof.
  unfold long_function_issues.
  induction (functions structure) as [|func funcs IH]; simpl; [done|].
  destruct (line func); simpl; exact IH.
Qed.

Lemma long_line_issues_titled lines : all_titled "Long Line" (long_line_issues lines).
Proof.
  apply (all_titled_enumerate "Long Line"
           (fun i l => if 120 <? String.length l then [long_line_issue i l] else [])).
  intros j l. destruct (120 <? String.length l); repeat constructor.
Qed.

Lemma hardcoded_secret_issues_titled lines :
  all_titled "Potential Hardcoded Secret" (hardcoded_secret_issues lines).
Proof.
  apply (all_titled_enumerate "Potential Hardcoded Secret"
           (fun i l => flat_map (fun pattern =>
              if secret_match pattern l then [hardcoded_secret_issue i] else [])
              secret_patterns)).
  intros j l. apply List.Forall_flat_map, Forall_forall. intros pattern _.
  destruct (secret_match pattern l); repeat constructor.
Qed.

Lemma eval_issues_titled lines : all_titled "Dangerous eval() Usage" (eval_issues lines).
Proof.
  apply (all_titled_enumerate "Dangerous eval() Usage"
           (fun i l => if contains "eval(" l then [eval_issue i] else [])).
  intros j l. destruct (contains "eval(" l); repeat constructor.
Qed.

Lemma performance_issues_titled code lang structure :
  all_titled "Inefficient Loop" (_check_performance_issues code lang structure).
Proof.
  unfold _check_performance_issues. case_bool_decide; [|constructor].
  apply (all_titled_enumerate "Inefficient Loop"
           (fun i l => if contains "for" l && contains "range(len(" l
                       then [inefficient_loop_issue i] else [])).
  intros j l. destruct (contains "for" l && contains "range(len(" l); repeat constructor.
Qed.

Lemma maintainability_issues_titled code lang structure :
  all_titled "Missing Documentation" (_check_maintainability code lang structure).
Proof.
  unfold _check_maintainability. case_bool_decide; [|constructor].
  unfold all_titled. apply Forall_map, Forall_forall. intros func _. reflexivity.
Qed.

(** The output of [analyze_file], family by family. *)
Lemma analyze_file_families ts code lang file_path :
  analyze_file ts code lang file_path =
  map (set_file_path file_path)
    (long_line_issues (split code NL)
     ++ hardcoded_secret_issues (split code NL)
     ++ (if bool_decide (lang = "python") then eval_issues (split code NL) else [])
     ++ _check_performance_issues code lang (analyze_code_structure ts code lang)
     ++ _check_maintainability code lang (analyze_code_structure ts code lang)).
Proof.
  unfold analyze_file, _check_code_quality, _check_security_issues.
  rewrite long_function_issues_nil. simpl. by rewrite <- !app_assoc.
Qed.

(** Counting the issues of one line number among those a loop over the
    enumerated lines appends, when the issues appended for the line of
    index [j] carry the line number [j + 1]. *)
Section CountAtLine.
Variable g : nat -> string -> list Issue.
Variable p : Issue -> bool.
Hypothesis g_line :
  forall j l, Forall (fun x => x !! "line" = Some (PInt (Z.of_nat (j + 1)))) (g j l).

Lemma at_line_other j l n :
  n <> j + 1 -> count_issues (fun x => p x && at_line n x) (g j l) = 0.
Proof.
  intros Hne. apply count_issues_none. eapply Forall_impl; [apply g_line|].
  intros x Hx. unfold at_line. rewrite Hx.
  rewrite (bool_decide_eq_false_2 _); [apply andb_false_r|].
  intros [=Heq]. apply Nat2Z.inj in Heq. lia.
Qed.

Lemma at_line_same j l :
  count_issues (fun x => p x && at_line (j + 1) x) (g j l) = count_issues p (g j l).
Proof.
  unfold count_issues. f_equal.
  pose proof (g_line j l) as Hall. induction Hall as [|x xs Hx _ IH]; [done|].
  simpl. unfold at_line at 1. rewrite Hx, bool_decide_eq_true_2 by done.
  rewrite andb_true_r. destruct (p x); by rewrite IH.
Qed.

Lemma count_before_start lines k n :
  n <= k ->
  count_issues (fun x => p x && at_line n x)
    (flat_map (fun '(j, l) => g j l) (enumerate_from k lines)) = 0.
Proof.
  revert k. induction lines as [|l lines IH]; intros k Hle; [done|].
  simpl. rewrite count_issues_app, at_line_other by lia.
  rewrite IH by lia. done.
Qed.

Lemma count_at_line_enumerate lines k i :
  count_issues (fun x => p x && at_line (k + i + 1) x)
    (flat_map (fun '(j, l) => g j l) (enumerate_from k lines))
  = match lines !! i with
    | Some l => count_issues p (g (k + i) l)
    | None => 0
    end.
Proof.
  revert k i. induction lines as [|l lines IH]; intros k i; [done|].
  simpl. rewrite count_issues_app. destruct i as [|i]; simpl.
  - rewrite count_before_start by lia.
    replace (k + 0 + 1) with (k + 1) by lia.
    rewrite at_line_same. replace (k + 0) with k by lia. lia.
  - rewrite at_line_other by lia.
    replace (k + S i + 1) with (S k + i + 1) by lia.
    rewrite IH. replace (S k + i) with (k + S i) by lia. done.
Qed.
End CountAtLine.

(** ** Static detection: the "Long Function" rule *)

(** C9. For every code unit, [analyze_file] returns no issue titled
    "Long Function": the loop of the quality check compares the constant
    estimate of 20 lines with the threshold 50 and appends nothing,
    whatever the structure summary, and the other checks use other
    titles. *)
Theorem analyze_file_never_long_function ts code lang file_path :
  (forall structure, long_function_issues structure = [])
  /\ Forall (fun issue => issue !! "title" <> Some (PStr "Long Function"))
            (analyze_file ts code lang file_path).
Proof.
  split; [apply long_function_issues_nil|].
  rewrite analyze_file_families.
  assert (Hother : forall t l, t <> "Long Function" -> all_titled t l ->
            Forall (fun issue => issue !! "title" <> Some (PStr "Long Function"))
                   (map (set_file_path file_path) l)).
  { intros t l Hne Hall. apply Forall_map. eapply Forall_impl; [exact Hall|].
    intros x Hx. rewrite set_file_path_lookup by done. rewrite Hx. congruence. }
  rewrite !map_app, !Forall_app. repeat split.
  - by apply (Hother "Long Line"), long_line_issues_titled.
  - by apply (Hother "Potential Hardcoded Secret"), hardcoded_secret_issues_titled.
  - case_bool_decide; [|constructor].
    by apply (Hother "Dangerous eval() Usage"), eval_issues_titled.
  - by apply (Hother "Inefficient Loop"), performance_issues_titled.
  - by apply (Hother "Missing Documentation"), maintainability_issues_titled.
Qed.

Lemma count_issues_pos p l :
  0 < count_issues p l -> exists x, x ∈ l /\ p x = true.
Proof.
  unfold count_issues. induction l as [|x l IH]; simpl; [lia|].
  destruct (p x) eqn:Hpx.
  - intros _. exists x. split; [left|done].
  - intros Hpos. destruct (IH Hpos) as (y & Hy & Hpy). exists y. split; [by right|done].
Qed.

Lemma elem_of_enumerate_from {A : Type} (xs : list A) k j x :
  (j, x) ∈ enumerate_from k xs -> exists i, j = k + i /\ xs !! i = Some x.
Proof.
  revert k. induction xs as [|y xs IH]; intros k Hin; simpl in Hin.
  - by apply elem_of_nil in Hin.
  - apply elem_of_cons in Hin as [[= -> ->]|Hin].
    + exists 0. split; [lia|done].
    + destruct (IH _ Hin) as (i & -> & Hi). exists (S i). split; [lia|done].
Qed.

Lemma long_line_issues_line j l :
  Forall (fun x => x !! "line" = Some (PInt (Z.of_nat (j + 1))))
         (if 120 <? String.length l then [long_line_issue j l] else []).
Proof. destruct (120 <? String.length l); repeat constructor. Qed.

Lemma count_long_lines_at lines i :
  count_issues (fun x => titled "Long Line" x && at_line (i + 1) x) (long_line_issues lines)
  = match lines !! i with
    | Some l => if 120 <? String.length l then 1 else 0
    | None => 0
    end.
Proof.
  pose proof (count_at_line_enumerate
                (fun j l => if 120 <? String.length l then [long_line_issue j l] else [])
                (titled "Long Line") long_line_issues_line lines 0 i) as Hcount.
  simpl in Hcount. unfold long_line_issues, enumerate. rewrite Hcount.
  destruct (lines !! i) as [l|]; [|done].
  destruct (120 <? String.length l); reflexivity.
Qed.

(** ** Static detection: the "Long Line" rule *)

(** C7. For every code unit, [analyze_file] returns, for each physical
    line of the content (the pieces between newline characters), exactly
    one issue titled "Long Line" carrying that line's 1-based index when
    the line is longer than 120 characters, and none when it is not; every
    "Long Line" issue has severity LOW and the index of such a line; and a
    file whose line 3 is 130 characters long yields a "Long Line" issue
    with line 3 and severity LOW. *)
Theorem long_line_per_offending_line ts code lang file_path :
  (forall i line_,
     split code NL !! i = Some line_ ->
     count_issues (fun x => titled "Long Line" x && at_line (i + 1) x)
                  (analyze_file ts code lang file_path)
     = if 120 <? String.length line_ then 1 else 0)
  /\ Forall (fun x =>
       x !! "title" = Some (PStr "Long Line") ->
       x !! "severity" = Some (PStr "LOW")
       /\ exists i line_,
            split code NL !! i = Some line_ /\ 120 < String.length line_
            /\ x !! "line" = Some (PInt (Z.of_nat (i + 1))))
       (analyze_file ts code lang file_path)
  /\ (forall line3,
        split code NL !! 2 = Some line3 -> String.length line3 = 130 ->
        exists x, x ∈ analyze_file ts code lang file_path
                  /\ x !! "title" = Some (PStr "Long Line")
                  /\ x !! "line" = Some (PInt 3)
                  /\ x !! "severity" = Some (PStr "LOW")).
Proof.
  assert (Hcount : forall i line_,
     split code NL !! i = Some line_ ->
     count_issues (fun x => titled "Long Line" x && at_line (i + 1) x)
                  (analyze_file ts code lang file_path)
     = if 120 <? String.length line_ then 1 else 0).
  { intros i line_ Hline. rewrite analyze_file_families.
    rewrite count_issues_map
      by (intros x; by rewrite titled_set_file_path, at_line_set_file_path).
    assert (Hzero : forall t l, "Long Line" <> t -> all_titled t l ->
              count_issues (fun x => titled "Long Line" x && at_line (i + 1) x) l = 0).
    { intros t l Hne Hall. apply count_issues_none.
      eapply Forall_impl; [exact (all_titled_other _ _ _ Hne Hall)|].
      intros x Hx. simpl in Hx. by rewrite Hx. }
    rewrite !count_issues_app, count_long_lines_at, Hline.
    rewrite (Hzero "Potential Hardcoded Secret" _ ltac:(done) (hardcoded_secret_issues_titled _)).
    rewrite (Hzero "Inefficient Loop" _ ltac:(done) (performance_issues_titled _ _ _)).
    rewrite (Hzero "Missing Documentation" _ ltac:(done) (maintainability_issues_titled _ _ _)).
    case_bool_decide.
    - rewrite (Hzero "Dangerous eval() Usage" _ ltac:(done) (eval_issues_titled _)). lia.
    - unfold count_issues. simpl. lia. }
  assert (Hall : Forall (fun x =>
       x !! "title" = Some (PStr "Long Line") ->
       x !! "severity" = Some (PStr "LOW")
       /\ exists i line_,
            split code NL !! i = Some line_ /\ 120 < String.length line_
            /\ x !! "line" = Some (PInt (Z.of_nat (i + 1))))
       (analyze_file ts code lang file_path)).
  { rewrite analyze_file_families.
    assert (Hother : forall t l, t <> "Long Line" -> all_titled t l ->
              Forall (fun x =>
                x !! "title" = Some (PStr "Long Line") ->
                x !! "severity" = Some (PStr "LOW")
                /\ exists i line_,
                     split code NL !! i = Some line_ /\ 120 < String.length line_
                     /\ x !! "line" = Some (PInt (Z.of_nat (i + 1))))
                (map (set_file_path file_path) l)).
    { intros t l Hne Htitled. apply Forall_map. eapply Forall_impl; [exact Htitled|].
      intros x Hx. simpl. rewrite set_file_path_lookup by done. rewrite Hx.
      intros [= Heq]. congruence. }
    rewrite !map_app, !Forall_app. repeat split.
    - apply Forall_map, Forall_forall. intros x Hx _.
      unfold long_line_issues in Hx. apply list_elem_of_In, in_flat_map in Hx.
      destruct Hx as ([j l] & Hjl & Hx).
      apply list_elem_of_In, elem_of_enumerate_from in Hjl as (i & -> & Hi).
      destruct (120 <? String.length l) eqn:Hlong; [|by destruct Hx].
      destruct Hx as [<-|[]]. simpl.
      rewrite !set_file_path_lookup by done. split; [reflexivity|].
      exists i, l. apply Nat.ltb_lt in Hlong. done.
    - by apply (Hother "Potential Hardcoded Secret"), hardcoded_secret_issues_titled.
    - case_bool_decide; [|constructor].
      by apply (Hother "Dangerous eval() Usage"), eval_issues_titled.
    - by apply (Hother "Inefficient Loop"), performance_issues_titled.
    - by apply (Hother "Missing Documentation"), maintainability_issues_titled. }
  split; [exact Hcount|]. split; [exact Hall|].
  intros line3 Hline Hlen.
  specialize (Hcount 2 line3 Hline). rewrite Hlen in Hcount. simpl in Hcount.
  destruct (count_issues_pos _ _ ltac:(rewrite Hcount; lia)) as (x & Hx & Hpx).
  apply andb_true_iff in Hpx as [Htitle Hat].
  apply bool_decide_eq_true in Htitle. apply bool_decide_eq_true in Hat.
  exists x. repeat split; [done|done|exact Hat|].
  rewrite Forall_forall in Hall. by destruct (Hall x Hx Htitle).
Qed.

(** The third line of [sample_wide_code] is reported once, at line 3. *)
Lemma long_line_per_offending_line_witness :
  exists x, x ∈ analyze_file no_tree_sitter sample_wide_code "python" "wide.py"
            /\ x !! "title" = Some (PStr "Long Line")
            /\ x !! "line" = Some (PInt 3)
            /\ x !! "severity" = Some (PStr "LOW").
Proof.
  apply (proj2 (proj2 (long_line_per_offending_line
                         no_tree_sitter sample_wide_code "python" "wide.py"))
               (str_replicate 130 "a")).
  - vm_compute. reflexivity.
  - vm_compute. reflexivity.
Defined.

(** ** Static detection: hardcoded secrets *)

Lemma hardcoded_secret_issues_line j l :
  Forall (fun x => x !! "line" = Some (PInt (Z.of_nat (j + 1))))
         (flat_map (fun pattern =>
            if secret_match pattern l then [hardcoded_secret_issue j] else [])
            secret_patterns).
Proof.
  apply List.Forall_flat_map, Forall_forall. intros pattern _.
  destruct (secret_match pattern l); repeat constructor.
Qed.

Lemma count_secret_issues_of_line j l patterns :
  contains "=" l = true ->
  contains dquote l || contains "'" l = true ->
  count_issues (titled "Potential Hardcoded Secret")
    (flat_map (fun pattern =>
       if secret_match pattern l then [hardcoded_secret_issue j] else [])
       patterns)
  = length (List.filter (fun pattern => contains pattern (lower l)) patterns).
Proof.
  intros Hassign Hquote. induction patterns as [|pattern patterns IH]; [done|].
  simpl. rewrite count_issues_app, IH. unfold secret_match.
  rewrite Hassign, Hquote, !andb_true_r.
  destruct (contains pattern (lower l)); reflexivity.
Qed.

Lemma count_secret_issues_at lines i :
  count_issues (fun x => titled "Potential Hardcoded Secret" x && at_line (i + 1) x)
               (hardcoded_secret_issues lines)
  = match lines !! i with
    | Some l =>
        count_issues (titled "Potential Hardcoded Secret")
          (flat_map (fun pattern =>
             if secret_match pattern l then [hardcoded_secret_issue i] else [])
             secret_patterns)
    | None => 0
    end.
Proof.
  pose proof (count_at_line_enumerate
                (fun j l => flat_map (fun pattern =>
                   if secret_match pattern l then [hardcoded_secret_issue j] else [])
                   secret_patterns)
                (titled "Potential Hardcoded Secret")
                hardcoded_secret_issues_line lines 0 i) as Hcount.
  simpl in Hcount. unfold hardcoded_secret_issues, enumerate. exact Hcount.
Qed.

(** C10. For every line of a code unit that contains ['='] and a quote
    character together with [n] of the keywords password, api_key, secret,
    token (compared in lower case), the security check emits [n]
    "Potential Hardcoded Secret" issues with that line's number, one per
    matching keyword; [analyze_file] passes all [n] on. *)
Theorem one_secret_issue_per_keyword ts code lang file_path i line_ n :
  split code NL !! i = Some line_ ->
  contains "=" line_ = true ->
  contains dquote line_ || contains "'" line_ = true ->
  length (keywords_in line_) = n ->
  count_issues (fun x => titled "Potential Hardcoded Secret" x && at_line (i + 1) x)
               (_check_security_issues code lang) = n
  /\ count_issues (fun x => titled "Potential Hardcoded Secret" x && at_line (i + 1) x)
                  (analyze_file ts code lang file_path) = n.
Proof.
  intros Hline Hassign Hquote Hn.
  assert (Hzero : forall t l, "Potential Hardcoded Secret" <> t -> all_titled t l ->
            count_issues
              (fun x => titled "Potential Hardcoded Secret" x && at_line (i + 1) x) l = 0).
  { intros t l Hne Hall. apply count_issues_none.
    eapply Forall_impl; [exact (all_titled_other _ _ _ Hne Hall)|].
    intros x Hx. simpl in Hx. by rewrite Hx. }
  assert (Hsecrets :
    count_issues (fun x => titled "Potential Hardcoded Secret" x && at_line (i + 1) x)
                 (hardcoded_secret_issues (split code NL)) = n).
  { rewrite count_secret_issues_at, Hline.
    rewrite count_secret_issues_of_line by done. exact Hn. }
  split.
  - unfold _check_security_issues. rewrite count_issues_app, Hsecrets.
    case_bool_decide.
    + rewrite (Hzero "Dangerous eval() Usage" _ ltac:(done) (eval_issues_titled _)). lia.
    + unfold count_issues. simpl. lia.
  - rewrite analyze_file_families.
    rewrite count_issues_map
      by (intros x; by rewrite titled_set_file_path, at_line_set_file_path).
    rewrite !count_issues_app, Hsecrets.
    rewrite (Hzero "Long Line" _ ltac:(done) (long_line_issues_titled _)).
    rewrite (Hzero "Inefficient Loop" _ ltac:(done) (performance_issues_titled _ _ _)).
    rewrite (Hzero "Missing Documentation" _ ltac:(done)
               (maintainability_issues_titled _ _ _)).
    case_bool_decide.
    + rewrite (Hzero "Dangerous eval() Usage" _ ltac:(done) (eval_issues_titled _)). lia.
    + unfold count_issues. simpl. lia.
Qed.

(** The second line of [sample_secret_code] names api_key and token and
    is reported twice. *)
Lemma one_secret_issue_per_keyword_witness :
  keywords_in "API_KEY = 'abc'  # the token" = ["api_key"; "token"]
  /\ count_issues (fun x => titled "Potential Hardcoded Secret" x && at_line 2 x)
                  (_check_security_issues sample_secret_code "python") = 2
  /\ count_issues (fun x => titled "Potential Hardcoded Secret" x && at_line 2 x)
                  (analyze_file no_tree_sitter sample_secret_code "python" "cfg.py") = 2.
Proof.
  split; [vm_compute; reflexivity|].
  apply (one_secret_issue_per_keyword no_tree_sitter sample_secret_code "python" "cfg.py"
           1 "API_KEY = 'abc'  # the token" 2).
  - vm_compute. reflexivity.
  - vm_compute. reflexivity.
  - vm_compute. reflexivity.
  - vm_compute. reflexivity.
Defined.

(** ** File extraction *)

Section ExtractLoop.
Variable config : Config_attrs.

(** Where the loop passes over an entry without appending. *)
Lemma extract_loop_skip e rest acc :
  (exists sz, st_size e = Ok sz
              /\ ((MAX_FILE_SIZE config < sz)%Z \/ read_text e = ReadSkipped)) ->
  extract_loop config (e :: rest) acc = extract_loop config rest acc.
Proof.
  intros (sz & Hsz & Hskip). simpl.
  destruct (is_file e); [|done]. destruct (hidden e); [done|].
  destruct (SUPPORTED_EXTENSIONS config !! lower (suffix e)); [|done].
  rewrite Hsz. destruct (Z.ltb_spec (MAX_FILE_SIZE config) sz) as [Hbig|Hsmall]; [done|].
  destruct Hskip as [Hbig|Hread]; [lia|]. by rewrite Hread.
Qed.

Lemma extract_loop_length entries acc :
  1 <= MAX_FILES_TO_ANALYZE config ->
  length acc < MAX_FILES_TO_ANALYZE config ->
  length (extract_loop config entries acc) <= MAX_FILES_TO_ANALYZE config.
Proof.
  intros Hcap. revert acc.
  induction entries as [|e entries IH]; intros acc Hacc; simpl; [lia|].
  destruct (is_file e); [|by apply IH]. destruct (hidden e); [by apply IH|].
  destruct (SUPPORTED_EXTENSIONS config !! lower (suffix e)) as [lang|]; [|by apply IH].
  destruct (st_size e) as [sz|]; [|lia].
  destruct (MAX_FILE_SIZE config <? sz)%Z; [by apply IH|].
  destruct (read_text e) as [text| |]; [|by apply IH|lia].
  destruct (Nat.leb_spec (MAX_FILES_TO_ANALYZE config)
              (length (acc ++ [ {| path := relative_to e; content := text;
                                   language := lang; size := String.length text |} ])))
    as [Hfull|Hroom].
  - rewrite length_app in *. simpl in *. lia.
  - by apply IH.
Qed.

(** Every code unit the loop appends is the text of a listed entry whose
    reported size is within the byte cap. *)
Lemma extract_loop_units (P : CodeFile -> Prop) entries acc :
  (forall e sz text lang,
     e ∈ entries -> is_file e = true -> hidden e = false ->
     SUPPORTED_EXTENSIONS config !! lower (suffix e) = Some lang ->
     st_size e = Ok sz -> (sz <= MAX_FILE_SIZE config)%Z ->
     read_text e = ReadText text ->
     P {| path := relative_to e; content := text; language := lang;
          size := String.length text |}) ->
  Forall P acc -> Forall P (extract_loop config entries acc).
Proof.
  revert acc. induction entries as [|e entries IH]; intros acc Hnew Hacc; simpl; [done|].
  assert (Hrest : Forall P (extract_loop config entries acc)).
  { apply IH; [|done]. intros e' **. eapply Hnew; eauto. by right. }
  destruct (is_file e) eqn:Hfile; [|done]. destruct (hidden e) eqn:Hhidden; [done|].
  destruct (SUPPORTED_EXTENSIONS config !! lower (suffix e)) as [lang|] eqn:Hext; [|done].
  destruct (st_size e) as [sz|] eqn:Hsz; [|done].
  destruct (Z.ltb_spec (MAX_FILE_SIZE config) sz) as [Hbig|Hsmall]; [done|].
  destruct (read_text e) as [text| |] eqn:Hread; [|done|done].
  assert (Hacc' : Forall P (acc ++ [ {| path := relative_to e; content := text;
                                       language := lang; size := String.length text |} ])).
  { apply Forall_app. split; [done|]. constructor; [|constructor].
    eapply Hnew; eauto. by left. }
  destruct (_ <=? _); [done|].
  apply IH; [|done]. intros e' **. eapply Hnew; eauto. by right.
Qed.
End ExtractLoop.

(** C8, as the code has it. With the configuration of [config.py] (at
    most 50 files, at most 1,048,576 bytes per file), whatever the
    repository holds, [extract_code_files] returns at most 50 code units;
    each of them is the text of a listed file whose size reported by
    [stat()] is within the byte cap. The size recorded in the unit is the
    number of characters read, which is within the cap when the text read
    is no longer than the reported size, and not otherwise. An oversized
    file, or one whose reading raises [UnicodeDecodeError] or
    [PermissionError], is passed over and the loop goes on; a code file
    whose [stat()] raises, or whose reading raises anything else, ends
    the scan with the units collected so far. *)
Theorem extract_code_files_within_caps env listing :
  MAX_FILES_TO_ANALYZE (Config env) = 50
  /\ MAX_FILE_SIZE (Config env) = 1048576%Z
  /\ length (extract_code_files (Config env) listing) <= MAX_FILES_TO_ANALYZE (Config env)
  /\ Forall (fun unit =>
       exists e sz, e ∈ listing /\ st_size e = Ok sz
                    /\ (sz <= MAX_FILE_SIZE (Config env))%Z
                    /\ read_text e = ReadText (content unit)
                    /\ size unit = String.length (content unit))
       (extract_code_files (Config env) listing)
  /\ (Forall decodes_within listing ->
      Forall (fun unit => (Z.of_nat (size unit) <= MAX_FILE_SIZE (Config env))%Z)
             (extract_code_files (Config env) listing))
  /\ (forall e rest acc,
        (exists sz, st_size e = Ok sz
                    /\ ((MAX_FILE_SIZE (Config env) < sz)%Z
                        \/ read_text e = ReadSkipped)) ->
        extract_loop (Config env) (e :: rest) acc
        = extract_loop (Config env) rest acc)
  /\ (forall e rest acc lang,
        is_file e = true -> hidden e = false ->
        SUPPORTED_EXTENSIONS (Config env) !! lower (suffix e) = Some lang ->
        ((exists msg, st_size e = Raise msg)
         \/ (exists sz msg,
               st_size e = Ok sz /\ (sz <= MAX_FILE_SIZE (Config env))%Z
               /\ read_text e = ReadFailed msg)) ->
        extract_loop (Config env) (e :: rest) acc = acc).
Proof.
  split; [reflexivity|]. split; [reflexivity|].
  split; [apply extract_loop_length; simpl; lia|].
  split; [|split; [|split]].
  - apply extract_loop_units; [|constructor].
    intros e sz text lang He _ _ _ Hsz Hsmall Hread. exists e, sz. done.
  - intros Hdecode. apply extract_loop_units; [|constructor].
    intros e sz text lang He _ _ _ Hsz Hsmall Hread. cbn [size].
    rewrite Forall_forall in Hdecode.
    pose proof (Hdecode e He text sz Hread Hsz). lia.
  - intros e rest acc Hskip. by apply extract_loop_skip.
  - intros e rest acc lang Hfile Hhidden Hext Hfatal.
    cbn [extract_loop]. rewrite Hfile, Hhidden, Hext.
    destruct Hfatal as [[msg Hstat]|(sz & msg & Hstat & Hsmall & Hread)].
    + by rewrite Hstat.
    + rewrite Hstat, Hread.
      by destruct (Z.ltb_spec (MAX_FILE_SIZE (Config env)) sz); [lia|].
Qed.

(** On [sample_listing] the hidden, the oversized and the undecodable
    file are passed over and the two small files are returned, in order. *)
Lemma extract_code_files_within_caps_witness :
  Forall decodes_within sample_listing
  /\ map path (extract_code_files (Config empty_environ) sample_listing)
     = ["a.py"; "src/B.JS"]
  /\ Forall (fun unit =>
       (Z.of_nat (size unit) <= MAX_FILE_SIZE (Config empty_environ))%Z)
       (extract_code_files (Config empty_environ) sample_listing).
Proof.
  assert (Hdecode : Forall decodes_within sample_listing).
  { repeat constructor; intros text sz [= <-] [= <-]; vm_compute; congruence. }
  split; [exact Hdecode|]. split; [vm_compute; reflexivity|].
  exact (proj1 (proj2 (proj2 (proj2 (proj2
           (extract_code_files_within_caps empty_environ sample_listing))))) Hdecode).
Defined.

Lemma str_replicate_length n c : String.length (str_replicate n c) = n.
Proof. induction n as [|n IH]; simpl; [done|]. by rewrite IH. Qed.

Lemma extract_understated env text :
  extract_code_files (Config env) (understated_listing text)
  = [ {| path := "b.py"; content := text; language := "python";
         size := String.length text |} ].
Proof. reflexivity. Qed.

(** C8, as stated, fails in both of its parts. A file that reports the
    size 0 and reads as 1,048,577 characters is returned as a code unit
    whose size exceeds the byte cap. And a file whose reading raises an
    exception other than the two the loop names is not passed over: the
    scan ends there, and the code file listed after it, which is returned
    when the listing starts with it, is lost. *)
Lemma understated_size_and_unreadable_file :
  (exists unit,
     unit ∈ extract_code_files (Config empty_environ)
              (understated_listing (str_replicate (2 ^ 20 + 1) "a"))
     /\ (MAX_FILE_SIZE (Config empty_environ) < Z.of_nat (size unit))%Z)
  /\ extract_code_files (Config empty_environ) unreadable_listing = []
  /\ map path (extract_code_files (Config empty_environ) (tail unreadable_listing))
     = ["c.py"].
Proof.
  split; [|split; reflexivity].
  exists {| path := "b.py"; content := str_replicate (2 ^ 20 + 1) "a";
            language := "python";
            size := String.length (str_replicate (2 ^ 20 + 1) "a") |}.
  split.
  - rewrite extract_understated. apply list_elem_of_here.
  - cbn [size]. rewrite str_replicate_length, Nat2Z.inj_add, Nat2Z.inj_pow.
    vm_compute. reflexivity.
Qed.

(** ** The tallies of the report *)

Lemma number_with_severity_cons level issue issues :
  number_with_severity level (issue :: issues)
  = (if bool_decide (severity_of issue = PStr level) then 1 else 0)
    + number_with_severity level issues.
Proof.
  unfold number_with_severity, count_issues. simpl.
  by destruct (bool_decide (severity_of issue = PStr level)).
Qed.

Lemma number_of_type_cons key issue issues :
  number_of_type key (issue :: issues)
  = (if bool_decide (type_of issue = key) then 1 else 0) + number_of_type key issues.
Proof.
  unfold number_of_type, count_issues. simpl.
  by destruct (bool_decide (type_of issue = key)).
Qed.

(** One step of the severity loop, read key by key. *)
Lemma count_severity_step issue (counts : gmap string nat) :
  hashable (severity_of issue) = true ->
  exists counts',
    count_severity issue counts = Ok counts'
    /\ forall level,
         counts' !! level
         = (fun n => n + (if bool_decide (severity_of issue = PStr level) then 1 else 0))
           <$> counts !! level.
Proof.
  intros Hhash. unfold count_severity. fold (severity_of issue).
  assert (Hsame : forall level, counts !! level = (fun n => n + 0) <$> counts !! level).
  { intros level. destruct (counts !! level) as [n|]; simpl; [|done].
    f_equal. lia. }
  destruct (severity_of issue) as [s|z| |ty] eqn:Hsev; [| | |done].
  - destruct (counts !! s) as [n|] eqn:Hs.
    + eexists. split; [done|]. intros level.
      destruct (decide (s = level)) as [->|Hne].
      * rewrite lookup_insert_eq, Hs, bool_decide_eq_true_2 by done. done.
      * rewrite lookup_insert_ne by done.
        rewrite bool_decide_eq_false_2 by congruence. apply Hsame.
    + eexists. split; [done|]. intros level.
      destruct (decide (s = level)) as [->|Hne].
      * by rewrite Hs.
      * rewrite bool_decide_eq_false_2 by congruence. apply Hsame.
  - eexists. split; [done|]. intros level.
    rewrite bool_decide_eq_false_2 by congruence. apply Hsame.
  - eexists. split; [done|]. intros level.
    rewrite bool_decide_eq_false_2 by congruence. apply Hsame.
Qed.

(** The severity loop returns, and adds to each key it finds in the dict
    the number of issues of that severity. *)
Lemma severity_loop issues (counts : gmap string nat) :
  Forall (fun x => hashable (severity_of x) = true) issues ->
  exists counts',
    for_each count_severity issues counts = Ok counts'
    /\ forall level,
         counts' !! level
         = (fun n => n + number_with_severity level issues) <$> counts !! level.
Proof.
  intros Hall. revert counts.
  induction Hall as [|issue issues Hhash _ IH]; intros counts.
  - exists counts. split; [done|]. intros level.
    destruct (counts !! level) as [n|]; simpl; [|done].
    f_equal. unfold number_with_severity, count_issues. simpl. lia.
  - destruct (count_severity_step issue counts Hhash) as (counts1 & Hstep & Hlookup1).
    destruct (IH counts1) as (counts' & Hrest & Hlookup').
    exists counts'. split.
    + simpl. rewrite Hstep. exact Hrest.
    + intros level. rewrite Hlookup', Hlookup1, number_with_severity_cons.
      destruct (counts !! level) as [n|]; simpl; [|done]. f_equal. lia.
Qed.

(** The type loop returns, and adds to the count of each value the
    number of issues of that category. *)
Lemma type_loop issues (counts : gmap pyval nat) :
  Forall (fun x => hashable (type_of x) = true) issues ->
  exists counts',
    for_each count_type issues counts = Ok counts'
    /\ forall key,
         dict_get counts' key 0 = dict_get counts key 0 + number_of_type key issues.
Proof.
  intros Hall. revert counts.
  induction Hall as [|issue issues Hhash _ IH]; intros counts.
  - exists counts. split; [done|]. intros key.
    unfold number_of_type, count_issues. simpl. lia.
  - set (counts1 := <[type_of issue := dict_get counts (type_of issue) 0 + 1]> counts).
    assert (Hstep : count_type issue counts = Ok counts1).
    { unfold count_type. fold (type_of issue). subst counts1.
      by destruct (type_of issue). }
    destruct (IH counts1) as (counts' & Hrest & Hlookup').
    exists counts'. split.
    + simpl. rewrite Hstep. exact Hrest.
    + intros key. rewrite Hlookup', number_of_type_cons.
      subst counts1. unfold dict_get at 1.
      destruct (decide (type_of issue = key)) as [->|Hne].
      * rewrite lookup_insert_eq, bool_decide_eq_true_2 by done. lia.
      * rewrite lookup_insert_ne by done.
        rewrite bool_decide_eq_false_2 by done. unfold dict_get. lia.
Qed.

(** The loop of [_generate_recommendations] does both tallies at once. *)
Lemma both_loops issues (type_counts : gmap pyval nat) (severity_counts : gmap string nat) :
  Forall keys_hashable issues ->
  exists type_counts' severity_counts',
    for_each (fun issue (counts : gmap pyval nat * gmap string nat) =>
                type_counts <-? count_type issue (fst counts) ;;
                severity_counts <-? count_severity issue (snd counts) ;;
                Ok (type_counts, severity_counts))
             issues (type_counts, severity_counts)
    = Ok (type_counts', severity_counts')
    /\ for_each count_type issues type_counts = Ok type_counts'
    /\ for_each count_severity issues severity_counts = Ok severity_counts'.
Proof.
  intros Hall. revert type_counts severity_counts.
  induction Hall as [|issue issues [Hsev Htype] _ IH]; intros type_counts severity_counts.
  - by exists type_counts, severity_counts.
  - destruct (type_loop [issue] type_counts) as (t1 & Ht1 & _); [by repeat constructor|].
    destruct (severity_loop [issue] severity_counts) as (s1 & Hs1 & _);
      [by repeat constructor|].
    simpl in Ht1, Hs1.
    destruct (count_type issue type_counts) as [t1'|] eqn:Ht; [|done].
    destruct (count_severity issue severity_counts) as [s1'|] eqn:Hs; [|done].
    simpl in Ht1, Hs1. injection Ht1 as ->. injection Hs1 as ->.
    destruct (IH t1 s1) as (t' & s' & Hboth & Htypes & Hsevs).
    exists t', s'. simpl. rewrite Ht, Hs. simpl. done.
Qed.

Lemma keys_hashable_severity issues :
  Forall keys_hashable issues -> Forall (fun x => hashable (severity_of x) = true) issues.
Proof. intros Hall. eapply Forall_impl; [exact Hall|]. by intros x [? ?]. Qed.

Lemma keys_hashable_type issues :
  Forall keys_hashable issues -> Forall (fun x => hashable (type_of x) = true) issues.
Proof. intros Hall. eapply Forall_impl; [exact Hall|]. by intros x [? ?]. Qed.

(** ** Recommendations *)

Lemma counts_item_after_loop (init counts' : gmap string nat) issues level :
  init !! level = Some 0 ->
  (forall k, counts' !! k = (fun n => n + number_with_severity k issues) <$> init !! k) ->
  counts_item counts' level = Ok (number_with_severity level issues).
Proof.
  intros Hinit Hlookup. unfold counts_item. by rewrite Hlookup, Hinit.
Qed.

Lemma recommendations_of_hashable issues :
  Forall keys_hashable issues ->
  _generate_recommendations issues = Ok (expected_recommendations issues).
Proof.
  intros Hall. unfold _generate_recommendations.
  destruct (both_loops issues ∅
              (dict_of [("CRITICAL", 0); ("HIGH", 0); ("MEDIUM", 0); ("LOW", 0)]) Hall)
    as (type_counts & severity_counts & Hboth & Htypes & Hsevs).
  destruct (severity_loop issues
              (dict_of [("CRITICAL", 0); ("HIGH", 0); ("MEDIUM", 0); ("LOW", 0)])
              (keys_hashable_severity _ Hall))
    as (severity_counts' & Hsevs' & Hsev_lookup).
  destruct (type_loop issues ∅ (keys_hashable_type _ Hall))
    as (type_counts' & Htypes' & Htype_lookup).
  rewrite Hsevs in Hsevs'. injection Hsevs' as <-.
  rewrite Htypes in Htypes'. injection Htypes' as <-.
  rewrite Hboth. cbn [rbind fst snd].
  rewrite (counts_item_after_loop
             (dict_of [("CRITICAL", 0); ("HIGH", 0); ("MEDIUM", 0); ("LOW", 0)])
             _ issues "CRITICAL" eq_refl Hsev_lookup).
  rewrite (counts_item_after_loop
             (dict_of [("CRITICAL", 0); ("HIGH", 0); ("MEDIUM", 0); ("LOW", 0)])
             _ issues "HIGH" eq_refl Hsev_lookup).
  cbn [rbind]. rewrite !Htype_lookup.
  change (dict_get (∅ : gmap pyval nat) ?k 0) with 0.
  unfold expected_recommendations, triggered_rules, number_in_category.
  cbn [Nat.add].
  destruct (0 <? number_with_severity "CRITICAL" issues),
           (3 <? number_with_severity "HIGH" issues),
           (0 <? number_of_type (PStr "security") issues),
           (2 <? number_of_type (PStr "performance") issues),
           (5 <? number_of_type (PStr "maintainability") issues);
    reflexivity.
Qed.

(** C6. For every issue list whose severities and categories can be
    tallied, [_generate_recommendations] returns the strings of the five
    rules (CRITICAL count > 0, HIGH count > 3, security count > 0,
    performance count > 2, maintainability count > 5) whose trigger holds,
    in that order, and the single "looks good" string when none holds; for
    the empty list it returns exactly that string. *)
Theorem recommendations_follow_rules issues :
  (Forall keys_hashable issues ->
   _generate_recommendations issues = Ok (expected_recommendations issues))
  /\ (triggered_rules issues = [] -> expected_recommendations issues = [rule_looks_good])
  /\ _generate_recommendations [] = Ok [rule_looks_good].
Proof.
  split; [|split; [|reflexivity]].
  - apply recommendations_of_hashable.
  - unfold expected_recommendations. by intros ->.
Qed.

(** Four HIGH security issues trigger the second and the third rule. *)
Lemma recommendations_follow_rules_witness :
  _generate_recommendations (replicate 4 (sample_issue "security" "HIGH"))
  = Ok [rule_high; rule_security].
Proof.
  rewrite (proj1 (recommendations_follow_rules
                    (replicate 4 (sample_issue "security" "HIGH")))).
  - vm_compute. reflexivity.
  - repeat constructor.
Defined.

(** ** The synthesized report *)

(** When the severities and categories can be tallied, [build_report]
    returns, and its summary holds the counts of the issue list. *)
Lemma build_report_of_hashable world state :
  Forall keys_hashable (static_issues state ++ ai_issues state) ->
  exists report,
    build_report world state = Ok report
    /\ issues report = static_issues state ++ ai_issues state
    /\ total_issues (summary report) = length (static_issues state ++ ai_issues state)
    /\ files_analyzed (summary report) = length (code_files state)
    /\ (forall level,
          severity_breakdown (summary report) !! level
          = if bool_decide (level ∈ severity_levels)
            then Some (number_with_severity level (static_issues state ++ ai_issues state))
            else None)
    /\ (forall key,
          dict_get (issue_types (summary report)) key 0
          = number_of_type key (static_issues state ++ ai_issues state))
    /\ overall_score (summary report)
       = expected_score (static_issues state ++ ai_issues state)
                        (length (code_files state))
    /\ recommendations report
       = expected_recommendations (static_issues state ++ ai_issues state).
Proof.
  intros Hall. unfold build_report.
  set (all_issues := static_issues state ++ ai_issues state) in *.
  set (init := dict_of [("CRITICAL", 0); ("HIGH", 0); ("MEDIUM", 0); ("LOW", 0);
                        ("INFO", 0)]).
  destruct (severity_loop all_issues init (keys_hashable_severity _ Hall))
    as (severity_counts & Hsevs & Hsev_lookup).
  destruct (type_loop all_issues ∅ (keys_hashable_type _ Hall))
    as (type_counts & Htypes & Htype_lookup).
  rewrite Hsevs, Htypes. cbn [rbind].
  rewrite (counts_item_after_loop init _ all_issues "CRITICAL" eq_refl Hsev_lookup).
  rewrite (counts_item_after_loop init _ all_issues "HIGH" eq_refl Hsev_lookup).
  rewrite (counts_item_after_loop init _ all_issues "MEDIUM" eq_refl Hsev_lookup).
  rewrite (counts_item_after_loop init _ all_issues "LOW" eq_refl Hsev_lookup).
  cbn [rbind]. rewrite (recommendations_of_hashable _ Hall). cbn [rbind].
  eexists. split; [reflexivity|]. cbn [issues summary total_issues files_analyzed
    severity_breakdown issue_types overall_score recommendations].
  repeat split.
  - intros level. rewrite Hsev_lookup. unfold severity_levels.
    case_bool_decide as Hin.
    + repeat (apply elem_of_cons in Hin as [->|Hin]; [reflexivity|]).
      by apply elem_of_nil in Hin.
    + subst init. unfold dict_of. simpl.
      rewrite !lookup_insert_ne; [by rewrite lookup_empty|..];
        intros <-; apply Hin; set_solver.
  - intros key. by rewrite Htype_lookup.
  - unfold expected_score, penalty.
    replace (number_with_severity "CRITICAL" all_issues * 10
             + number_with_severity "HIGH" all_issues * 5
             + number_with_severity "MEDIUM" all_issues * 2
             + number_with_severity "LOW" all_issues * 1)
      with (10 * number_with_severity "CRITICAL" all_issues
            + 5 * number_with_severity "HIGH" all_issues
            + 2 * number_with_severity "MEDIUM" all_issues
            + 1 * number_with_severity "LOW" all_issues) by lia.
    destruct (0 <? length (code_files state)); [reflexivity|].
    by destruct all_issues.
Qed.

Lemma generate_final_report_of_build world state report :
  build_report world state = Ok report ->
  _generate_final_report world state = set_final_report (FullReport report) state.
Proof.
  intros Hbuild. unfold _generate_final_report, try_stage, _generate_final_report_body.
  by rewrite Hbuild.
Qed.

Lemma pynum_eqb_eq a b : pynum_eqb a b = true -> a = b.
Proof.
  destruct a as [x|x], b as [y|y]; simpl; try done.
  - intros Heq. apply Z.eqb_eq in Heq. by subst.
  - intros Heq. apply FloatAxioms.Leibniz.eqb_spec in Heq. by subst.
Qed.

Lemma expected_score_of_penalty issues code_units :
  0 < code_units ->
  expected_score issues code_units = score_of_penalty (penalty issues) code_units.
Proof.
  intros Hpos. unfold expected_score, score_of_penalty.
  destruct (Nat.ltb_spec 0 code_units); [done|lia].
Qed.

(** Python's arithmetic and the exact one give the same score for every
    penalty up to 2000 over 1 to 50 code units: the 100,050 pairs are
    evaluated. *)
Lemma score_of_penalty_exact penalty_score code_units :
  1 <= code_units <= 50 -> penalty_score <= 2000 ->
  score_of_penalty penalty_score code_units = exact_score penalty_score code_units.
Proof.
  intros Hunits Hpenalty.
  assert (Hall : forallb (fun f =>
                   forallb (fun p => pynum_eqb (score_of_penalty p f) (exact_score p f))
                           (seq 0 2001))
                   (seq 1 50) = true) by (vm_compute; reflexivity).
  rewrite forallb_forall in Hall.
  specialize (Hall code_units ltac:(apply in_seq; lia)).
  rewrite forallb_forall in Hall.
  apply pynum_eqb_eq, Hall, in_seq. lia.
Qed.

(** C1. For any static and AI issue lists whose severities and
    categories can be tallied and any list of code units, the report is
    synthesized and its overall score is the score of the formula:
    [penalty = 10·#CRITICAL + 5·#HIGH + 2·#MEDIUM + 1·#LOW] (an INFO issue
    leaves it as it is), [max(0, 100 − penalty/#codeUnits·10)] when there
    are code units, otherwise 100 for an empty and 50 for a non-empty
    issue list, rounded to one decimal. The score is the one Python's
    numbers give; without code units it is the integer 100 or 50; for 1
    to 50 code units (extraction returns no more) and a penalty up to
    2000 it is the formula evaluated on rational numbers and rounded to
    the nearest tenth, ties to the even tenth: the integer 0 when the
    difference is not positive, the float of that decimal otherwise. With
    one code unit and two CRITICAL issues (and no HIGH, MEDIUM or LOW one)
    the score is 0; with three code units and penalty 7 it is 76.7. *)
#[warnings="-inexact-float"] Theorem overall_score_by_formula world state :
  Forall keys_hashable (static_issues state ++ ai_issues state) ->
  exists report,
    _generate_final_report world state = set_final_report (FullReport report) state
    /\ overall_score (summary report)
       = expected_score (static_issues state ++ ai_issues state)
                        (length (code_files state))
    /\ (forall issue issues,
          severity_of issue = PStr "INFO" -> penalty (issue :: issues) = penalty issues)
    /\ (length (code_files state) = 1 ->
        number_with_severity "CRITICAL" (static_issues state ++ ai_issues state) = 2 ->
        number_with_severity "HIGH" (static_issues state ++ ai_issues state) = 0 ->
        number_with_severity "MEDIUM" (static_issues state ++ ai_issues state) = 0 ->
        number_with_severity "LOW" (static_issues state ++ ai_issues state) = 0 ->
        overall_score (summary report) = PyInt 0)
    /\ (length (code_files state) = 0 ->
        overall_score (summary report)
        = if bool_decide (static_issues state ++ ai_issues state = [])
          then PyInt 100 else PyInt 50)
    /\ (1 <= length (code_files state) <= 50 ->
        penalty (static_issues state ++ ai_issues state) <= 2000 ->
        overall_score (summary report)
        = exact_score (penalty (static_issues state ++ ai_issues state))
                      (length (code_files state)))
    /\ (length (code_files state) = 3 ->
        penalty (static_issues state ++ ai_issues state) = 7 ->
        score_tenths 7 3 = 767%Z
        /\ overall_score (summary report) = PyFloat 76.7).
Proof.
  intros Hall.
  destruct (build_report_of_hashable world state Hall)
    as (report & Hbuild & _ & _ & _ & _ & _ & Hscore & _).
  exists report. split; [by apply generate_final_report_of_build|].
  split; [exact Hscore|]. split; [|split; [|split; [|split]]].
  - intros issue issues Hinfo. unfold penalty.
    rewrite !number_with_severity_cons, Hinfo.
    rewrite !bool_decide_eq_false_2 by congruence. lia.
  - intros Hfiles Hcritical Hhigh Hmedium Hlow. rewrite Hscore.
    unfold expected_score, penalty.
    rewrite Hfiles, Hcritical, Hhigh, Hmedium, Hlow.
    vm_compute. reflexivity.
  - intros Hfiles. rewrite Hscore, Hfiles. unfold expected_score. cbn [Nat.ltb Nat.leb].
    by destruct (static_issues state ++ ai_issues state).
  - intros Hfiles Hpenalty.
    rewrite Hscore, expected_score_of_penalty by lia.
    by apply score_of_penalty_exact.
  - intros Hfiles Hpenalty. split; [vm_compute; reflexivity|].
    rewrite Hscore, expected_score_of_penalty, Hfiles, Hpenalty by lia.
    vm_compute. reflexivity.
Qed.

(** One code file and two CRITICAL issues: the score is the integer 0.
    Three code files, a HIGH and a MEDIUM issue: the penalty is 7 and the
    score 76.7, which is 100 − 7/3·10 = 76.666... rounded. *)
#[warnings="-inexact-float"] Lemma overall_score_by_formula_witness :
  (exists report,
     _generate_final_report offline_world
       (state_with [sample_code_file]
                   (replicate 2 (sample_issue "security" "CRITICAL")))
     = set_final_report (FullReport report)
         (state_with [sample_code_file]
                     (replicate 2 (sample_issue "security" "CRITICAL")))
     /\ overall_score (summary report) = PyInt 0)
  /\ (exists report,
        _generate_final_report offline_world
          (state_with three_code_files
             [sample_issue "security" "HIGH"; sample_issue "logic_error" "MEDIUM"])
        = set_final_report (FullReport report)
            (state_with three_code_files
               [sample_issue "security" "HIGH"; sample_issue "logic_error" "MEDIUM"])
        /\ overall_score (summary report) = PyFloat 76.7
        /\ overall_score (summary report) = exact_score 7 3).
Proof.
  split.
  - destruct (overall_score_by_formula offline_world
                (state_with [sample_code_file]
                            (replicate 2 (sample_issue "security" "CRITICAL"))))
      as (report & Hstage & _ & _ & Hzero & _).
    + repeat constructor.
    + exists report. split; [exact Hstage|].
      apply Hzero; vm_compute; reflexivity.
  - destruct (overall_score_by_formula offline_world
                (state_with three_code_files
                   [sample_issue "security" "HIGH"; sample_issue "logic_error" "MEDIUM"]))
      as (report & Hstage & _ & _ & _ & _ & Hexact & Hclosed).
    + repeat constructor.
    + exists report. split; [exact Hstage|]. split.
      * apply Hclosed; vm_compute; reflexivity.
      * apply Hexact; vm_compute; lia.
Defined.

(** ** The severity breakdown and the total *)

Lemma recognized_cases issue :
  (if bool_decide (severity_of issue = PStr "CRITICAL") then 1 else 0)
  + (if bool_decide (severity_of issue = PStr "HIGH") then 1 else 0)
  + (if bool_decide (severity_of issue = PStr "MEDIUM") then 1 else 0)
  + (if bool_decide (severity_of issue = PStr "LOW") then 1 else 0)
  + (if bool_decide (severity_of issue = PStr "INFO") then 1 else 0)
  = if recognized issue then 1 else 0.
Proof.
  unfold recognized, severity_levels. cbn [existsb].
  repeat case_bool_decide; simpl; congruence.
Qed.

Lemma sum_of_levels issues :
  number_with_severity "CRITICAL" issues
  + number_with_severity "HIGH" issues
  + number_with_severity "MEDIUM" issues
  + number_with_severity "LOW" issues
  + number_with_severity "INFO" issues
  = count_issues recognized issues.
Proof.
  induction issues as [|issue issues IH]; [done|].
  rewrite !number_with_severity_cons.
  pose proof (recognized_cases issue) as Hcase.
  unfold count_issues in *. simpl. destruct (recognized issue); simpl; lia.
Qed.

Lemma count_issues_le p l : count_issues p l <= length l.
Proof. unfold count_issues. apply filter_length_le. Qed.

Lemma count_issues_all p l :
  Forall (fun x => p x = true) l -> count_issues p l = length l.
Proof.
  unfold count_issues. induction 1 as [|x l Hx _ IH]; [done|].
  simpl. rewrite Hx. simpl. by rewrite IH.
Qed.

Lemma number_medium_absent issues :
  number_with_severity "MEDIUM" issues = count_issues absent_or_medium issues.
Proof.
  unfold number_with_severity, count_issues. f_equal.
  induction issues as [|issue issues IH]; [done|]. simpl. rewrite IH.
  replace (bool_decide (severity_of issue = PStr "MEDIUM")) with (absent_or_medium issue);
    [done|].
  unfold absent_or_medium, severity_of, dict_get.
  destruct (issue !! "severity"); [done|]. by rewrite bool_decide_eq_true_2.
Qed.

(** C2, as the code has it. For every issue list whose severities and
    categories can be tallied, the report is synthesized, its severity
    breakdown has the five levels as keys, and the five counts sum to the
    number of issues whose severity (MEDIUM when the field is absent) is
    one of the five levels: at most [total_issues], and [total_issues]
    when every issue is of that kind. The MEDIUM count is the number of
    issues whose severity is absent or MEDIUM; an issue with any other
    value is counted under no level. *)
Theorem severity_breakdown_counts_recognized world state :
  Forall keys_hashable (static_issues state ++ ai_issues state) ->
  exists report,
    _generate_final_report world state = set_final_report (FullReport report) state
    /\ total_issues (summary report) = length (static_issues state ++ ai_issues state)
    /\ dom (severity_breakdown (summary report)) = list_to_set severity_levels
    /\ breakdown_sum (severity_breakdown (summary report))
       = count_issues recognized (static_issues state ++ ai_issues state)
    /\ breakdown_sum (severity_breakdown (summary report))
       <= total_issues (summary report)
    /\ (Forall (fun x => recognized x = true) (static_issues state ++ ai_issues state) ->
        breakdown_sum (severity_breakdown (summary report))
        = total_issues (summary report))
    /\ severity_breakdown (summary report) !! "MEDIUM"
       = Some (count_issues absent_or_medium (static_issues state ++ ai_issues state)).
Proof.
  intros Hall.
  destruct (build_report_of_hashable world state Hall)
    as (report & Hbuild & _ & Htotal & _ & Hbreakdown & _).
  exists report. split; [by apply generate_final_report_of_build|].
  assert (Hsum : breakdown_sum (severity_breakdown (summary report))
                 = count_issues recognized (static_issues state ++ ai_issues state)).
  { rewrite <- sum_of_levels. unfold breakdown_sum, severity_levels, dict_get.
    cbn [map list_sum]. rewrite !Hbreakdown. simpl. lia. }
  split; [exact Htotal|]. split; [|split; [exact Hsum|split; [|split]]].
  - apply set_eq. intros level. rewrite elem_of_dom, Hbreakdown.
    rewrite elem_of_list_to_set. case_bool_decide as Hin.
    + split; [done|]. by eexists.
    + split; [by intros [? ?]|done].
  - rewrite Hsum, Htotal. apply count_issues_le.
  - intros Hrecognized. rewrite Hsum, Htotal. by apply count_issues_all.
  - rewrite Hbreakdown. simpl. by rewrite number_medium_absent.
Qed.

(** An issue without severity is counted as MEDIUM and the sum is the
    total. *)
Lemma severity_breakdown_counts_recognized_witness :
  exists report,
    _generate_final_report offline_world
      (state_with [sample_code_file]
         [dict_of [("type", PStr "logic_error")]; sample_issue "security" "HIGH"])
    = set_final_report (FullReport report)
        (state_with [sample_code_file]
           [dict_of [("type", PStr "logic_error")]; sample_issue "security" "HIGH"])
    /\ breakdown_sum (severity_breakdown (summary report)) = total_issues (summary report)
    /\ severity_breakdown (summary report) !! "MEDIUM" = Some 1.
Proof.
  destruct (severity_breakdown_counts_recognized offline_world
              (state_with [sample_code_file]
                 [dict_of [("type", PStr "logic_error")]; sample_issue "security" "HIGH"]))
    as (report & Hstage & _ & _ & _ & _ & Hall & Hmedium).
  - repeat constructor.
  - exists report. split; [exact Hstage|]. split.
    + apply Hall. repeat constructor.
    + rewrite Hmedium. vm_compute. reflexivity.
Defined.

(** C2, as stated, fails: an issue whose severity is the string BLOCKER
    is part of [total_issues] and of no count of the breakdown, MEDIUM
    included. *)
Lemma unrecognized_severity_is_not_counted :
  exists report,
    _generate_final_report offline_world
      (state_with [sample_code_file] [sample_issue "security" "BLOCKER"])
    = set_final_report (FullReport report)
        (state_with [sample_code_file] [sample_issue "security" "BLOCKER"])
    /\ total_issues (summary report) = 1
    /\ breakdown_sum (severity_breakdown (summary report)) = 0
    /\ breakdown_sum (severity_breakdown (summary report)) <> total_issues (summary report)
    /\ severity_breakdown (summary report) !! "MEDIUM" = Some 0.
Proof.
  destruct (build_report_of_hashable offline_world
              (state_with [sample_code_file] [sample_issue "security" "BLOCKER"]))
    as (report & Hbuild & _ & Htotal & _ & Hbreakdown & _).
  - repeat constructor.
  - exists report. split; [by apply generate_final_report_of_build|].
    assert (Hsum : breakdown_sum (severity_breakdown (summary report)) = 0).
    { unfold breakdown_sum, severity_levels, dict_get. cbn [map list_sum].
      rewrite !Hbreakdown. vm_compute. reflexivity. }
    rewrite Hsum, Htotal, Hbreakdown. split; [reflexivity|]. split; [reflexivity|].
    split; [vm_compute; lia|]. vm_compute. reflexivity.
Qed.

(** ** The AI stage: issues of the execution simulation *)

Lemma fallback_source code lang file_path :
  Forall (fun x => x !! "source" = Some (PStr "fallback"))
         (_fallback_logic_analysis code lang file_path).
Proof.
  unfold _fallback_logic_analysis.
  apply List.Forall_flat_map, Forall_forall. intros [i l] _.
  case_bool_decide; [|constructor].
  apply Forall_app. split.
  - case_bool_decide; repeat constructor.
  - destruct (_ && _); repeat constructor.
Qed.

Lemma text_response_source response_text file_path :
  Forall (fun x => x !! "source" = Some (PStr "gemini"))
         (_parse_text_response response_text file_path).
Proof.
  unfold _parse_text_response.
  assert (Hinv : forall lines (st : list Issue * option Issue),
    Forall (fun x => x !! "source" = Some (PStr "gemini")) (fst st) ->
    (forall cur, snd st = Some cur -> cur !! "source" = Some (PStr "gemini")) ->
    let st' := fold_left (text_response_line file_path) lines st in
    Forall (fun x => x !! "source" = Some (PStr "gemini")) (fst st')
    /\ (forall cur, snd st' = Some cur -> cur !! "source" = Some (PStr "gemini"))).
  { induction lines as [|l lines IH]; intros [found cur0] Hfound Hcur; [done|].
    simpl. apply IH.
    - unfold text_response_line. case_bool_decide; [done|].
      match goal with |- context [if ?b then _ else _] => destruct b end; [|done].
      simpl.
      destruct cur0 as [cur|]; [|done].
      apply Forall_app. split; [done|]. constructor; [by apply Hcur|constructor].
    - unfold text_response_line. case_bool_decide; [done|].
      match goal with |- context [if ?b then _ else _] => destruct b end; [|done].
      simpl. by intros cur [= <-]. }
  destruct (Hinv (split response_text NL) ([], None)) as [Hfound Hcur];
    [constructor|done|].
  destruct (fold_left _ _ _) as [found [cur|]]; simpl in *; [|done].
  apply Forall_app. split; [done|]. constructor; [by apply Hcur|constructor].
Qed.

Lemma gemini_response_source gem response_text file_path parsed :
  _parse_gemini_response gem response_text file_path = Ok parsed ->
  Forall (fun x => x !! "source" = Some (PStr "gemini")) parsed.
Proof.
  unfold _parse_gemini_response.
  destruct (find_char _ _); [|intros [= <-]; apply text_response_source].
  destruct (json_loads gem _) as [parsed_issues| |msg]; [| |done].
  - intros [= <-]. apply Forall_map, Forall_forall. intros x _.
    unfold stamp_gemini. apply lookup_insert_eq.
  - intros [= <-]. apply text_response_source.
Qed.

(** The logic issues carry the source gemini or fallback. *)
Lemma analyze_code_logic_source gem self code lang file_path :
  Forall (fun x => x !! "source" = Some (PStr "gemini")
                   \/ x !! "source" = Some (PStr "fallback"))
         (analyze_code_logic gem self code lang file_path).
Proof.
  assert (Hfallback : Forall (fun x => x !! "source" = Some (PStr "gemini")
                                       \/ x !! "source" = Some (PStr "fallback"))
                             (_fallback_logic_analysis code lang file_path)).
  { eapply Forall_impl; [apply fallback_source|]. intros x Hx. by right. }
  assert (Hparsed : forall text parsed,
            _parse_gemini_response gem text file_path = Ok parsed ->
            Forall (fun x => x !! "source" = Some (PStr "gemini")
                             \/ x !! "source" = Some (PStr "fallback")) parsed).
  { intros text parsed Hok. eapply Forall_impl; [exact (gemini_response_source _ _ _ _ Hok)|].
    intros x Hx. by left. }
  unfold analyze_code_logic, _analyze_with_cli_logic.
  destruct (use_cli self).
  - case_bool_decide; [|done].
    destruct (_parse_gemini_response _ _ _) eqn:Hok; [by eapply Hparsed|done].
  - destruct (model self); simpl; [|done].
    destruct (generate_content gem _) as [text|]; simpl; [|done].
    destruct (_parse_gemini_response _ _ _) eqn:Hok; [by eapply Hparsed|done].
Qed.

Lemma filter_none {A : Type} (p : A -> bool) l :
  Forall (fun x => p x = false) l -> List.filter p l = [].
Proof. induction 1 as [|x l Hx _ IH]; simpl; [done|]. by rewrite Hx. Qed.

Lemma filter_all {A : Type} (p : A -> bool) l :
  Forall (fun x => p x = true) l -> List.filter p l = l.
Proof. induction 1 as [|x l Hx _ IH]; simpl; [done|]. by rewrite Hx, IH. Qed.

(** What the loop appends for one file, split by origin. *)
Lemma simulation_issues_of_file world file_info :
  List.filter (from_source "gemini_simulation") (ai_issues_of_file world file_info)
  = if String.length (content file_info) <? 5000
    then map (fun issue_text => runtime_issue issue_text (path file_info))
             (default []
                (potential_runtime_issues
                   (simulate_code_execution (gemini world) (gemini_analyzer world)
                      (content file_info) (language file_info))))
    else [].
Proof.
  unfold ai_issues_of_file. rewrite List.filter_app.
  rewrite (filter_none (from_source "gemini_simulation")
             (analyze_code_logic _ _ _ _ _)).
  - destruct (_ <? 5000); [|done]. simpl. apply filter_all.
    apply Forall_map, Forall_forall. by intros text _.
  - eapply Forall_impl; [apply analyze_code_logic_source|].
    intros x [Hx|Hx]; unfold from_source; rewrite Hx;
      apply bool_decide_eq_false; congruence.
Qed.

(** C4, as the code has it. In the AI stage, a code unit among the first
    ten whose content has 5000 characters or more contributes its logic
    issues only; one with fewer contributes, after them, one issue per
    text the simulation reports, in order. Each such issue has category
    runtime_risk, severity MEDIUM, line 1 and source gemini_simulation,
    the text as description and the unit's path; they are all the issues
    of that source the stage collects before enhancement. *)
Theorem simulation_issues_of_small_files world state :
  (forall file_info,
     5000 <= String.length (content file_info) ->
     ai_issues_of_file world file_info
     = analyze_code_logic (gemini world) (gemini_analyzer world)
         (content file_info) (language file_info) (path file_info))
  /\ (forall file_info,
        String.length (content file_info) < 5000 ->
        ai_issues_of_file world file_info
        = analyze_code_logic (gemini world) (gemini_analyzer world)
            (content file_info) (language file_info) (path file_info)
          ++ map (fun issue_text => runtime_issue issue_text (path file_info))
               (default []
                  (potential_runtime_issues
                     (simulate_code_execution (gemini world) (gemini_analyzer world)
                        (content file_info) (language file_info)))))
  /\ (forall issue_text file_path,
        runtime_issue issue_text file_path !! "type" = Some (PStr "runtime_risk")
        /\ runtime_issue issue_text file_path !! "severity" = Some (PStr "MEDIUM")
        /\ runtime_issue issue_text file_path !! "line" = Some (PInt 1)
        /\ runtime_issue issue_text file_path !! "source" = Some (PStr "gemini_simulation")
        /\ runtime_issue issue_text file_path !! "description" = Some (PStr issue_text)
        /\ runtime_issue issue_text file_path !! "file_path" = Some (PStr file_path))
  /\ List.filter (from_source "gemini_simulation")
       (flat_map (ai_issues_of_file world) (take 10 (code_files state)))
     = flat_map (fun file_info =>
         if String.length (content file_info) <? 5000
         then map (fun issue_text => runtime_issue issue_text (path file_info))
                (default []
                   (potential_runtime_issues
                      (simulate_code_execution (gemini world) (gemini_analyzer world)
                         (content file_info) (language file_info))))
         else [])
         (take 10 (code_files state))
  /\ static_issues (_run_ai_analysis world state) ++ ai_issues (_run_ai_analysis world state)
     = generate_improvement_suggestions (gemini world) (gemini_analyzer world)
         (static_issues state
          ++ flat_map (ai_issues_of_file world) (take 10 (code_files state))).
Proof.
  split; [|split; [|split; [|split]]].
  - intros file_info Hlarge. unfold ai_issues_of_file.
    destruct (Nat.ltb_spec (String.length (content file_info)) 5000); [lia|].
    by rewrite app_nil_r.
  - intros file_info Hsmall. unfold ai_issues_of_file.
    destruct (Nat.ltb_spec (String.length (content file_info)) 5000); [done|lia].
  - intros issue_text file_path. repeat split.
  - induction (take 10 (code_files state)) as [|file_info files IH]; [done|].
    simpl. by rewrite List.filter_app, simulation_issues_of_file, IH.
  - unfold _run_ai_analysis, try_stage, _run_ai_analysis_body. simpl.
    apply take_drop.
Qed.

(** One small file and a model that reports one line: the stage holds
    one issue for it. *)
Lemma simulation_issues_of_small_files_witness :
  ai_issues_of_file simulating_world sample_code_file
  = analyze_code_logic (gemini simulating_world) (gemini_analyzer simulating_world)
      "x = 1" "python" "a.py"
    ++ [runtime_issue "IndexError possible" "a.py"].
Proof.
  rewrite (proj1 (proj2 (simulation_issues_of_small_files
                           simulating_world (state_with [sample_code_file] [])))
             sample_code_file).
  - reflexivity.
  - vm_compute. lia.
Defined.

(** C4, as stated, fails: the issue built from a simulation text has
    line 1, not 0, and source gemini_simulation, not ai_simulation. *)
Lemma simulation_issue_line_and_source :
  exists x,
    x ∈ ai_issues (_run_ai_analysis simulating_world (state_with [sample_code_file] []))
    /\ x !! "type" = Some (PStr "runtime_risk")
    /\ x !! "description" = Some (PStr "IndexError possible")
    /\ x !! "line" = Some (PInt 1)
    /\ x !! "line" <> Some (PInt 0)
    /\ x !! "source" = Some (PStr "gemini_simulation")
    /\ x !! "source" <> Some (PStr "ai_simulation").
Proof.
  exists (runtime_issue "IndexError possible" "a.py").
  split; [|by repeat split].
  assert (Hstage :
    ai_issues (_run_ai_analysis simulating_world (state_with [sample_code_file] []))
    = [runtime_issue "IndexError possible" "a.py"]).
  { vm_compute. reflexivity. }
  rewrite Hstage. by left.
Qed.

(** ** Enhancement of suggestions *)

Lemma enhanced_from_fields x y key :
  enhanced_from x y -> key <> "enhanced_suggestion" -> y !! key = x !! key.
Proof.
  intros [->|[s ->]] Hne; [done|]. by rewrite lookup_insert_ne.
Qed.

Lemma imap_related {A B : Type} (R : A -> B -> Prop) (f : nat -> A -> B) l :
  (forall i x, R x (f i x)) -> Forall2 R l (imap f l).
Proof.
  revert f. induction l as [|x l IH]; intros f Hf; [constructor|].
  rewrite imap_cons. constructor; [apply Hf|]. apply IH. intros i y. apply Hf.
Qed.

Lemma attach_suggestions_related suggestions issues :
  Forall2 enhanced_from issues (attach_suggestions suggestions issues).
Proof.
  apply imap_related. intros i x.
  destruct (suggestions !! i) as [suggestion|]; [|by left].
  case_bool_decide; [right; by eexists|by left].
Qed.

Lemma enhanced_from_refl issues : Forall2 enhanced_from issues issues.
Proof. induction issues; constructor; [by left|done]. Qed.

Lemma enhance_file_related gem issues file_path :
  Forall2 enhanced_from issues (_enhance_suggestions_for_file gem issues file_path).
Proof.
  unfold _enhance_suggestions_for_file.
  destruct (for_each _ issues []) as [summary|]; simpl; [|apply enhanced_from_refl].
  destruct (generate_content gem _) as [text|]; simpl; [|apply enhanced_from_refl].
  apply attach_suggestions_related.
Qed.

Lemma group_append_ungroup files_issues file_path issue :
  ungroup (group_append files_issues file_path issue)
  ≡ₚ ungroup files_issues ++ [issue].
Proof.
  unfold ungroup.
  induction files_issues as [|[k file_issues] rest IH]; simpl; [done|].
  case_bool_decide; simpl.
  - rewrite <- !app_assoc. apply Permutation_app_head, Permutation_app_comm.
  - rewrite IH. by rewrite app_assoc.
Qed.

Lemma group_loop_ungroup issues files_issues grouped :
  for_each (fun issue files_issues =>
              let file_path := dict_get issue "file_path" (PStr "unknown") in
              match file_path with
              | PUnhashable ty => unhashable_error ty
              | _ => Ok (group_append files_issues file_path issue)
              end)
           issues files_issues = Ok grouped ->
  ungroup grouped ≡ₚ ungroup files_issues ++ issues.
Proof.
  revert files_issues. induction issues as [|issue issues IH]; intros files_issues.
  - simpl. intros [= <-]. by rewrite app_nil_r.
  - simpl.
    destruct (dict_get issue "file_path" (PStr "unknown")) as [s|z| |ty] eqn:Hpath;
      simpl; [| | |done]; intros Hloop; apply IH in Hloop;
      rewrite Hloop, group_append_ungroup; by rewrite <- app_assoc.
Qed.

Lemma enhance_groups_related gem files_issues :
  Forall2 enhanced_from (ungroup files_issues)
    (flat_map (fun '(file_path, file_issues) =>
                 _enhance_suggestions_for_file gem file_issues file_path)
              files_issues).
Proof.
  unfold ungroup. induction files_issues as [|[k file_issues] rest IH]; simpl;
    [constructor|].
  apply Forall2_app; [apply enhance_file_related|exact IH].
Qed.

(** What holds of the enhancement on every input: the issues returned
    are those of the input, regrouped, each with its fields other than
    ['enhanced_suggestion'] as they were. *)
Lemma enhancement_regroups gem self issues :
  exists regrouped,
    regrouped ≡ₚ issues
    /\ Forall2 enhanced_from regrouped
         (generate_improvement_suggestions gem self issues).
Proof.
  unfold generate_improvement_suggestions.
  destruct (negb (model self) || bool_decide (issues = []));
    [exists issues; split; [done|apply enhanced_from_refl]|].
  destruct (group_by_file issues) as [files_issues|] eqn:Hgroup;
    [|exists issues; split; [done|apply enhanced_from_refl]].
  exists (ungroup files_issues). split; [|apply enhance_groups_related].
  apply group_loop_ungroup in Hgroup. exact Hgroup.
Qed.

(** C3. The enhancement returns its input unchanged when the model is
    unavailable or the list is empty, and on every input it returns a list
    of the same length, made of the input's issues with every field other
    than ['enhanced_suggestion'] unchanged. It does not keep the order: with
    a model available, issues of the files a.py, b.py, a.py come back in
    the order a.py, a.py, b.py, and in the AI stage, which cuts the list at
    the number of static issues, the division issue of the fallback
    analysis lands among the static issues of the state and the static
    issue of b.py among its AI issues. *)
Theorem enhancement_does_not_keep_order :
  (forall gem self issues,
     model self = false -> generate_improvement_suggestions gem self issues = issues)
  /\ (forall gem self, generate_improvement_suggestions gem self [] = [])
  /\ (forall gem self issues,
        length (generate_improvement_suggestions gem self issues) = length issues
        /\ exists regrouped,
             regrouped ≡ₚ issues
             /\ Forall2 (fun x y =>
                  forall key, key <> "enhanced_suggestion" -> y !! key = x !! key)
                  regrouped (generate_improvement_suggestions gem self issues))
  /\ generate_improvement_suggestions simulating_gemini
       (gemini_analyzer simulating_world)
       [located_issue "first" "a.py"; located_issue "second" "b.py";
        located_issue "third" "a.py"]
     = [located_issue "first" "a.py"; located_issue "third" "a.py";
        located_issue "second" "b.py"]
  /\ map (fun x : Issue => x !! "title")
       (generate_improvement_suggestions simulating_gemini
          (gemini_analyzer simulating_world)
          [located_issue "first" "a.py"; located_issue "second" "b.py";
           located_issue "third" "a.py"])
     <> [Some (PStr "first"); Some (PStr "second"); Some (PStr "third")]
  /\ map (fun x : Issue => (x !! "title", x !! "file_path", x !! "source"))
       (static_issues
          (_run_ai_analysis simulating_world
             (_run_static_analysis simulating_world
                (state_with [sample_file_a; sample_file_b] []))))
     = [(Some (PStr "Dangerous eval() Usage"), Some (PStr "a.py"), None);
        (Some (PStr "Potential Division by Zero"), Some (PStr "a.py"),
         Some (PStr "fallback"))]
  /\ map (fun x : Issue => (x !! "title", x !! "file_path", x !! "source"))
       (ai_issues
          (_run_ai_analysis simulating_world
             (_run_static_analysis simulating_world
                (state_with [sample_file_a; sample_file_b] []))))
     = [(Some (PStr "Potential Runtime Issue"), Some (PStr "a.py"),
         Some (PStr "gemini_simulation"));
        (Some (PStr "Dangerous eval() Usage"), Some (PStr "b.py"), None);
        (Some (PStr "Potential Runtime Issue"), Some (PStr "b.py"),
         Some (PStr "gemini_simulation"))].
Proof.
  assert (Hregrouped :
    generate_improvement_suggestions simulating_gemini
      (gemini_analyzer simulating_world)
      [located_issue "first" "a.py"; located_issue "second" "b.py";
       located_issue "third" "a.py"]
    = [located_issue "first" "a.py"; located_issue "third" "a.py";
       located_issue "second" "b.py"]).
  { vm_compute. reflexivity. }
  split; [|split; [|split; [|split; [exact Hregrouped|split; [|split]]]]].
  - intros gem self issues Hmodel. unfold generate_improvement_suggestions.
    by rewrite Hmodel.
  - intros gem self. unfold generate_improvement_suggestions.
    by rewrite orb_true_r.
  - intros gem self issues.
    destruct (enhancement_regroups gem self issues) as (regrouped & Hperm & Hrel).
    split.
    + rewrite <- (Forall2_length _ _ _ Hrel). by rewrite Hperm.
    + exists regrouped. split; [exact Hperm|].
      eapply Forall2_impl; [exact Hrel|]. intros x y Hxy key Hkey.
      by apply enhanced_from_fields.
  - rewrite Hregrouped. vm_compute. discriminate.
  - vm_compute. reflexivity.
  - vm_compute. reflexivity.
Qed.

(** Without a model the three issues come back as they were given. *)
Lemma enhancement_does_not_keep_order_witness :
  generate_improvement_suggestions no_gemini (gemini_analyzer offline_world)
    [located_issue "first" "a.py"; located_issue "second" "b.py";
     located_issue "third" "a.py"]
  = [located_issue "first" "a.py"; located_issue "second" "b.py";
     located_issue "third" "a.py"].
Proof.
  apply (proj1 enhancement_does_not_keep_order).
  vm_compute. reflexivity.
Defined.

(** ** The outcome of [analyze] *)

(** The workflow runs the five stages in the order of its edges. *)
Lemma invoke_workflow world state :
  invoke (_create_workflow world) state
  = Ok (_generate_final_report world
          (_run_ai_analysis world
             (_run_static_analysis world
                (_extract_code_files world (_parse_repository world state))))).
Proof. reflexivity. Qed.

Lemma try_stage_error prefix body state :
  (forall state', body state = Ok state' -> error state' = error state) ->
  error (try_stage prefix body state)
  = default (error state) (recorded prefix body state).
Proof.
  intros Hbody. unfold try_stage, recorded.
  destruct (body state) as [state'|e]; simpl; [by apply Hbody|done].
Qed.

Lemma parse_repository_error world state :
  error (_parse_repository world state)
  = default (error state)
      (recorded "Failed to parse repository: " (_parse_repository_body world) state).
Proof.
  apply try_stage_error. intros state'. unfold _parse_repository_body.
  destruct (parse_github_url _); simpl; [|done]. by intros [= <-].
Qed.

Lemma extract_code_files_error world state :
  error (_extract_code_files world state)
  = default (error state)
      (recorded "Failed to extract code files: " (_extract_code_files_body world) state).
Proof.
  apply try_stage_error. intros state'. unfold _extract_code_files_body.
  destruct (clone_repository _ _); simpl; [|done]. by intros [= <-].
Qed.

Lemma run_static_analysis_error world state :
  error (_run_static_analysis world state)
  = default (error state)
      (recorded "Static analysis failed: " (_run_static_analysis_body world) state).
Proof. apply try_stage_error. intros state'. by intros [= <-]. Qed.

Lemma run_ai_analysis_error world state :
  error (_run_ai_analysis world state)
  = default (error state)
      (recorded "AI analysis failed: " (_run_ai_analysis_body world) state).
Proof. apply try_stage_error. intros state'. by intros [= <-]. Qed.

Lemma generate_final_report_error world state :
  error (_generate_final_report world state)
  = default (error state)
      (recorded "Report generation failed: " (_generate_final_report_body world) state).
Proof.
  apply try_stage_error. intros state'. unfold _generate_final_report_body.
  destruct (build_report _ _); simpl; [|done]. by intros [= <-].
Qed.

Lemma recorded_nonempty prefix body state msg :
  prefix <> "" -> recorded prefix body state = Some msg -> msg <> "".
Proof.
  intros Hprefix. unfold recorded. destruct (body state) as [|e]; [done|].
  intros [= <-]. by destruct prefix.
Qed.

(** The error of the final state is the message recorded last. *)
Lemma final_error_is_last world repo_url :
  error (_generate_final_report world (state_before_report world repo_url))
  = default "" (last (recorded_errors world repo_url)).
Proof.
  unfold state_before_report, recorded_errors.
  rewrite generate_final_report_error, run_ai_analysis_error,
    run_static_analysis_error, extract_code_files_error, parse_repository_error.
  simpl. repeat match goal with
  | |- context [recorded ?p ?b ?s] => destruct (recorded p b s)
  end; reflexivity.
Qed.

Lemma recorded_errors_nonempty world repo_url :
  Forall (fun msg => msg <> "") (recorded_errors world repo_url).
Proof.
  unfold recorded_errors. simpl.
  repeat match goal with
  | |- context [recorded ?p ?b ?s] =>
      let H := fresh "Hrec" in
      destruct (recorded p b s) eqn:H;
        [apply recorded_nonempty in H; [|done]|]
  end; simpl; repeat constructor; done.
Qed.

(** C5, as the code has it. When some stage records an error, [analyze]
    returns success false, no report, and as error the message recorded
    last (a later stage's message replaces an earlier one), which is not
    empty; when no stage records one, it returns success true, no error
    and the report synthesized from the state the report stage received.
    The result has one of these two shapes. *)
Theorem analyze_outcome world repo_url :
  (forall msg,
     last (recorded_errors world repo_url) = Some msg ->
     msg <> ""
     /\ analyze world repo_url
        = {| success := false; result_error := Some msg; result_report := None |})
  /\ (recorded_errors world repo_url = [] ->
      exists report,
        build_report world (state_before_report world repo_url) = Ok report
        /\ analyze world repo_url
           = {| success := true; result_error := None;
                result_report := Some (FullReport report) |})
  /\ ((success (analyze world repo_url) = false
       /\ result_report (analyze world repo_url) = None
       /\ exists msg, msg ∈ recorded_errors world repo_url /\ msg <> ""
                      /\ result_error (analyze world repo_url) = Some msg)
      \/ (success (analyze world repo_url) = true
          /\ result_error (analyze world repo_url) = None
          /\ exists report,
               result_report (analyze world repo_url) = Some (FullReport report))).
Proof.
  assert (Hfail : forall msg,
     last (recorded_errors world repo_url) = Some msg ->
     msg <> ""
     /\ analyze world repo_url
        = {| success := false; result_error := Some msg; result_report := None |}).
  { intros msg Hlast.
    assert (Hmsg : msg <> "").
    { pose proof (recorded_errors_nonempty world repo_url) as Hall.
      rewrite Forall_forall in Hall. apply Hall.
      apply last_Some in Hlast as [l ->]. apply elem_of_app. right. by left. }
    split; [exact Hmsg|].
    unfold analyze. rewrite invoke_workflow. fold (state_before_report world repo_url).
    rewrite final_error_is_last, Hlast. simpl.
    by rewrite bool_decide_eq_true_2. }
  assert (Hdone : recorded_errors world repo_url = [] ->
      exists report,
        build_report world (state_before_report world repo_url) = Ok report
        /\ analyze world repo_url
           = {| success := true; result_error := None;
                result_report := Some (FullReport report) |}).
  { intros Hnone.
    assert (Hreport : recorded "Report generation failed: "
                        (_generate_final_report_body world)
                        (state_before_report world repo_url) = None).
    { unfold recorded_errors in Hnone. simpl in Hnone.
      fold (state_before_report world repo_url) in Hnone.
      destruct (recorded "Report generation failed: " _ _); [|done].
      repeat match type of Hnone with
      | context [recorded ?p ?b ?s] => destruct (recorded p b s)
      end; discriminate. }
    unfold recorded, _generate_final_report_body in Hreport.
    destruct (build_report world (state_before_report world repo_url))
      as [report|] eqn:Hbuild; [|done].
    exists report. split; [done|].
    unfold analyze. rewrite invoke_workflow. fold (state_before_report world repo_url).
    rewrite final_error_is_last, Hnone. simpl.
    by rewrite (generate_final_report_of_build _ _ _ Hbuild). }
  split; [exact Hfail|]. split; [exact Hdone|].
  destruct (last (recorded_errors world repo_url)) as [msg|] eqn:Hlast.
  - left. destruct (Hfail msg eq_refl) as [Hmsg ->]. simpl.
    split; [done|]. split; [done|]. exists msg. split; [|done].
    apply last_Some in Hlast as [l ->]. apply elem_of_app. right. by left.
  - right. apply last_None in Hlast. destruct (Hdone Hlast) as (report & _ & ->).
    simpl. split; [done|]. split; [done|]. by exists report.
Qed.

(** A run in which no stage fails returns a report. *)
Lemma analyze_outcome_witness :
  recorded_errors cloning_world "https://github.com/o/r" = []
  /\ exists report,
       build_report cloning_world
         (state_before_report cloning_world "https://github.com/o/r") = Ok report
       /\ analyze cloning_world "https://github.com/o/r"
          = {| success := true; result_error := None;
               result_report := Some (FullReport report) |}.
Proof.
  assert (Hnone : recorded_errors cloning_world "https://github.com/o/r" = []).
  { vm_compute. reflexivity. }
  split; [exact Hnone|].
  exact (proj1 (proj2 (analyze_outcome cloning_world "https://github.com/o/r")) Hnone).
Defined.

(** C5, as stated, fails: for a locator that is no GitHub URL and cannot
    be cloned, the parse stage records its message on the run state and
    [analyze] returns the message of the extraction stage instead. *)
Lemma earlier_error_is_replaced :
  error (_parse_repository offline_world (initial_state "not a url"))
  = "Failed to parse repository: Failed to parse GitHub URL: Invalid GitHub URL"
  /\ analyze offline_world "not a url"
     = {| success := false;
          result_error :=
            Some "Failed to extract code files: Failed to clone repository: could not resolve host";
          result_report := None |}
  /\ result_error (analyze offline_world "not a url")
     <> Some (error (_parse_repository offline_world (initial_state "not a url"))).
Proof.
  assert (Hparse :
    error (_parse_repository offline_world (initial_state "not a url"))
    = "Failed to parse repository: Failed to parse GitHub URL: Invalid GitHub URL").
  { vm_compute. reflexivity. }
  assert (Hanalyze : analyze offline_world "not a url"
     = {| success := false;
          result_error :=
            Some "Failed to extract code files: Failed to clone repository: could not resolve host";
          result_report := None |}).
  { vm_compute. reflexivity. }
  split; [exact Hparse|]. split; [exact Hanalyze|].
  rewrite Hanalyze, Hparse. simpl. discriminate.
Qed.

(** ** Strings *)

Lemma prefix_nil s : String.prefix "" s = true.
Proof. by destruct s. Qed.

Lemma prefix_cons a p b s :
  String.prefix (String a p) (String b s)
  = if bool_decide (a = b) then String.prefix p s else false.
Proof.
  simpl. destruct (ascii_dec a b) as [->|Hne].
  - by rewrite bool_decide_eq_true_2.
  - by rewrite bool_decide_eq_false_2.
Qed.

Lemma append_cons x (a b : string) : String x a +:+ b = String x (a +:+ b).
Proof. reflexivity. Qed.

Lemma append_nil_l (b : string) : "" +:+ b = b.
Proof. reflexivity. Qed.

Lemma prefix_append p s : String.prefix p (p +:+ s) = true.
Proof.
  induction p as [|a p IH]; [apply prefix_nil|].
  by rewrite append_cons, prefix_cons, bool_decide_eq_true_2.
Qed.

Lemma append_assoc (a b c : string) : (a +:+ b) +:+ c = a +:+ (b +:+ c).
Proof. induction a as [|x a IH]; [done|]. by rewrite !append_cons, IH. Qed.

Lemma append_nil_r (a : string) : a +:+ "" = a.
Proof. induction a as [|x a IH]; [done|]. by rewrite append_cons, IH. Qed.

Lemma length_append (a b : string) :
  String.length (a +:+ b) = String.length a + String.length b.
Proof. induction a as [|x a IH]; [done|]. rewrite append_cons. simpl. by rewrite IH. Qed.

Lemma count_char_append c a b :
  count_char c (a +:+ b) = count_char c a + count_char c b.
Proof.
  induction a as [|x a IH]; [done|]. rewrite append_cons. simpl. rewrite IH. lia.
Qed.

Lemma prefix_count c p s :
  String.prefix p s = true -> count_char c p <= count_char c s.
Proof.
  revert s. induction p as [|a p IH]; intros s Hprefix; [simpl; lia|].
  destruct s as [|b s]; [done|]. rewrite prefix_cons in Hprefix.
  case_bool_decide as Hab; [|done]. subst b. simpl.
  specialize (IH s Hprefix). lia.
Qed.

Lemma contains_nil sub : contains sub "" = String.prefix sub "".
Proof. unfold contains. apply orb_false_r. Qed.

Lemma contains_cons sub b s :
  contains sub (String b s) = String.prefix sub (String b s) || contains sub s.
Proof. reflexivity. Qed.

Lemma contains_count c sub s :
  contains sub s = true -> count_char c sub <= count_char c s.
Proof.
  induction s as [|b s IH].
  - rewrite contains_nil. apply prefix_count.
  - rewrite contains_cons. intros [Hprefix|Hrest]%orb_true_iff.
    + by apply (prefix_count c) in Hprefix.
    + specialize (IH Hrest). simpl. lia.
Qed.

Lemma contains_head sub s : contains sub (sub +:+ s) = true.
Proof.
  destruct (sub +:+ s) as [|b t] eqn:Heq.
  - rewrite contains_nil, <- Heq. apply prefix_append.
  - rewrite contains_cons, <- Heq, prefix_append. done.
Qed.

Lemma contains_append_r sub a b :
  contains sub b = true -> contains sub (a +:+ b) = true.
Proof.
  intros Hb. induction a as [|x a IH]; [done|].
  rewrite append_cons, contains_cons, IH. apply orb_true_r.
Qed.

Lemma prefix_take sub n s :
  String.prefix sub (str_take n s) = true -> String.prefix sub s = true.
Proof.
  revert n s. induction sub as [|a sub IH]; intros n s; [intros _; apply prefix_nil|].
  destruct n as [|n], s as [|b s]; try done.
  change (str_take (S n) (String b s)) with (String b (str_take n s)).
  rewrite !prefix_cons. case_bool_decide; [apply IH|done].
Qed.

Lemma contains_take sub n s :
  contains sub (str_take n s) = true -> contains sub s = true.
Proof.
  revert n. induction s as [|b s IH]; intros n.
  - by destruct n.
  - destruct n as [|n].
    + change (str_take 0 (String b s)) with "". rewrite contains_nil.
      intros Hp. rewrite contains_cons. apply orb_true_iff. left.
      by apply (prefix_take sub 0 (String b s)).
    + change (str_take (S n) (String b s)) with (String b (str_take n s)).
      rewrite !contains_cons. intros [Hprefix|Hrest]%orb_true_iff.
      * apply orb_true_iff. left.
        by apply (prefix_take sub (S n) (String b s)).
      * apply orb_true_iff. right. by eapply IH.
Qed.

Lemma take_append (a b : string) : str_take (String.length a) (a +:+ b) = a.
Proof.
  induction a as [|x a IH]; [by destruct b|]. rewrite append_cons. simpl. by rewrite IH.
Qed.

Lemma str_rev_onto_append (a b acc : string) :
  str_rev_onto (a +:+ b) acc = str_rev_onto b (str_rev_onto a acc).
Proof.
  revert acc. induction a as [|x a IH]; intros acc; [done|].
  rewrite append_cons. simpl. apply IH.
Qed.

Lemma str_rev_onto_acc (s acc : string) :
  str_rev_onto s acc = str_rev_onto s "" +:+ acc.
Proof.
  revert acc. induction s as [|x s IH]; intros acc; [done|].
  simpl. rewrite (IH (String x acc)), (IH (String x "")).
  by rewrite append_assoc.
Qed.

Lemma endswith_append (a p : string) : endswith (a +:+ p) p = true.
Proof.
  unfold endswith, str_rev.
  rewrite str_rev_onto_append, (str_rev_onto_acc p (str_rev_onto a "")).
  apply prefix_append.
Qed.

Lemma replace_from_skip old new (x rest : string) :
  replace_from old new (String.length x) (x +:+ rest) = replace_from old new 0 rest.
Proof.
  induction x as [|c x IH]; [by destruct rest|].
  rewrite append_cons. simpl. exact IH.
Qed.

Lemma replace_head old new rest :
  old <> "" -> replace (old +:+ rest) old new = new +:+ replace rest old new.
Proof.
  intros Hold. destruct old as [|c old]; [done|].
  unfold replace. rewrite append_cons. cbn [replace_from].
  rewrite <- append_cons, prefix_append. cbn [String.length Nat.pred].
  by rewrite replace_from_skip.
Qed.

Lemma replace_absent old new s :
  contains old s = false -> replace s old new = s.
Proof.
  unfold replace. induction s as [|c s IH]; [done|].
  rewrite contains_cons. intros [Hprefix Hrest]%orb_false_iff.
  cbn [replace_from]. rewrite Hprefix. by rewrite IH.
Qed.

Lemma split_absent c s :
  count_char c s = 0 -> split s (String c "") = [s].
Proof.
  unfold split. induction s as [|d s IH]; [done|].
  cbn [count_char split_from]. rewrite prefix_cons.
  case_bool_decide as Hdc; [lia|]. intros Hcount.
  rewrite bool_decide_eq_false_2 by congruence. by rewrite IH.
Qed.

Lemma split_at_first c a b :
  count_char c a = 0 ->
  split (a +:+ String c b) (String c "") = a :: split b (String c "").
Proof.
  unfold split. induction a as [|d a IH].
  - intros _. rewrite append_nil_l. cbn [split_from]. rewrite prefix_cons.
    by rewrite bool_decide_eq_true_2, prefix_nil.
  - rewrite append_cons. cbn [count_char split_from]. rewrite prefix_cons.
    case_bool_decide as Hdc; [lia|]. intros Hcount.
    rewrite bool_decide_eq_false_2 by congruence. by rewrite IH.
Qed.

(** ** Parsing a GitHub URL *)

Lemma github_url_parts owner repo :
  count_char "/" owner = 0 -> count_char "/" repo = 0 ->
  contains "github.com" ("https://github.com/" +:+ owner +:+ "/" +:+ repo) = true
  /\ split (replace (replace ("https://github.com/" +:+ owner +:+ "/" +:+ repo)
                             "https://github.com/" "")
                    "http://github.com/" "") "/"
     = [owner; repo].
Proof.
  intros Howner Hrepo.
  assert (Hcount : count_char "/" (owner +:+ "/" +:+ repo) = 1).
  { rewrite count_char_append, Howner.
    change ("/" +:+ repo) with (String "/" repo). simpl. rewrite Hrepo. done. }
  split.
  - change "https://github.com/" with ("https://" +:+ "github.com" +:+ "/").
    rewrite !append_assoc. apply contains_append_r, contains_head.
  - rewrite replace_head by done. rewrite append_nil_l.
    rewrite (replace_absent "https://github.com/").
    + rewrite (replace_absent "http://github.com/").
      * change ("/" +:+ repo) with (String "/" repo).
        rewrite split_at_first by done. by rewrite split_absent.
      * destruct (contains "http://github.com/" (owner +:+ "/" +:+ repo)) eqn:Hc; [|done].
        apply (contains_count "/") in Hc. rewrite Hcount in Hc. simpl in Hc. lia.
    + destruct (contains "https://github.com/" (owner +:+ "/" +:+ repo)) eqn:Hc; [|done].
      apply (contains_count "/") in Hc. rewrite Hcount in Hc. simpl in Hc. lia.
Qed.

(** X1. The canonical clone URL of a repository,
    [https://github.com/<owner>/<repo>.git] with no slash in the owner and
    the repository name, parses to that owner and name and to itself as
    ['full_url']; so does the URL without the [.git] ending, unless what
    is left still ends in [.git] (one ending only is removed). *)
Theorem parse_github_url_canonical owner repo :
  count_char "/" owner = 0 -> count_char "/" repo = 0 ->
  parse_github_url ("https://github.com/" +:+ owner +:+ "/" +:+ repo +:+ ".git")
  = Ok (parsed_url owner repo)
  /\ (endswith ("https://github.com/" +:+ owner +:+ "/" +:+ repo) ".git" = false ->
      parse_github_url ("https://github.com/" +:+ owner +:+ "/" +:+ repo)
      = Ok (parsed_url owner repo)).
Proof.
  intros Howner Hrepo.
  destruct (github_url_parts owner repo Howner Hrepo) as [Hcontains Hparts].
  split.
  - replace ("https://github.com/" +:+ owner +:+ "/" +:+ repo +:+ ".git")
      with (("https://github.com/" +:+ owner +:+ "/" +:+ repo) +:+ ".git")
      by (by rewrite !append_assoc).
    unfold parse_github_url. rewrite endswith_append.
    rewrite length_append. change (String.length ".git") with 4.
    rewrite Nat.add_sub, take_append, Hcontains. cbn [negb].
    rewrite Hparts. reflexivity.
  - intros Hending. unfold parse_github_url. rewrite Hending, Hcontains. cbn [negb].
    rewrite Hparts. reflexivity.
Qed.

(** The clone URL of octocat/hello parses with and without its ending. *)
Lemma parse_github_url_canonical_witness :
  parse_github_url "https://github.com/octocat/hello.git"
  = Ok (parsed_url "octocat" "hello")
  /\ parse_github_url "https://github.com/octocat/hello"
     = Ok (parsed_url "octocat" "hello").
Proof.
  destruct (parse_github_url_canonical "octocat" "hello") as [Hgit Hplain];
    [reflexivity|reflexivity|].
  split; [exact Hgit|]. apply Hplain. vm_compute. reflexivity.
Defined.

(** X2. A locator in which [github.com] does not occur is refused with
    the message of the first check, prefixed by the function's own
    handler, whether or not it ends in [.git]. *)
Theorem parse_github_url_rejects_other_hosts url :
  contains "github.com" url = false ->
  parse_github_url url = Raise "Failed to parse GitHub URL: Invalid GitHub URL".
Proof.
  intros Hhost. unfold parse_github_url.
  assert (Hcut : contains "github.com"
                   (if endswith url ".git"
                    then str_take (String.length url - 4) url else url) = false).
  { destruct (endswith url ".git"); [|done].
    destruct (contains "github.com" (str_take (String.length url - 4) url)) eqn:Hc;
      [|done].
    apply contains_take in Hc. congruence. }
  by rewrite Hcut.
Qed.

(** A GitLab URL is refused. *)
Lemma parse_github_url_rejects_other_hosts_witness :
  parse_github_url "https://gitlab.com/o/r.git"
  = Raise "Failed to parse GitHub URL: Invalid GitHub URL".
Proof.
  apply parse_github_url_rejects_other_hosts. vm_compute. reflexivity.
Defined.

(** ** The scan of a repository *)

(** One iteration of the scan, read through [fatal] and [unit_of]. *)
Lemma extract_loop_step config e rest acc :
  extract_loop config (e :: rest) acc
  = if fatal config e then acc
    else match unit_of config e with
         | Some unit =>
             if MAX_FILES_TO_ANALYZE config <=? length (acc ++ [unit])
             then acc ++ [unit]
             else extract_loop config rest (acc ++ [unit])
         | None => extract_loop config rest acc
         end.
Proof.
  cbn [extract_loop]. unfold fatal, unit_of.
  destruct (is_file e), (hidden e); cbn [andb negb]; try reflexivity.
  destruct (SUPPORTED_EXTENSIONS config !! lower (suffix e)); [|reflexivity].
  destruct (st_size e) as [sz|]; [|reflexivity].
  destruct (MAX_FILE_SIZE config <? sz)%Z; cbn [andb negb].
  - by destruct (read_text e).
  - by destruct (read_text e).
Qed.

Lemma omap_cons_case {A B : Type} (f : A -> option B) x l :
  omap f (x :: l) = match f x with
                    | Some y => y :: omap f l
                    | None => omap f l
                    end.
Proof. reflexivity. Qed.

Lemma extract_loop_scanned config entries acc :
  1 <= MAX_FILES_TO_ANALYZE config ->
  length acc < MAX_FILES_TO_ANALYZE config ->
  extract_loop config entries acc
  = take (MAX_FILES_TO_ANALYZE config)
         (acc ++ omap (unit_of config) (scanned config entries)).
Proof.
  intros Hcap. revert acc.
  induction entries as [|e entries IH]; intros acc Hacc.
  - simpl. rewrite app_nil_r. by rewrite take_ge by lia.
  - rewrite extract_loop_step. cbn [scanned].
    destruct (fatal config e).
    + simpl. rewrite app_nil_r. by rewrite take_ge by lia.
    + rewrite omap_cons_case. destruct (unit_of config e) as [unit|]; [|by apply IH].
      destruct (Nat.leb_spec (MAX_FILES_TO_ANALYZE config) (length (acc ++ [unit])))
        as [Hfull|Hroom].
      * rewrite length_app in Hfull. simpl in Hfull.
        replace (acc ++ unit :: omap (unit_of config) (scanned config entries))
          with ((acc ++ [unit]) ++ omap (unit_of config) (scanned config entries))
          by (by rewrite <- app_assoc).
        rewrite (take_app_length' (acc ++ [unit])); [done|].
        rewrite length_app. simpl. lia.
      * rewrite IH by done. by rewrite <- app_assoc.
Qed.

Lemma extract_code_files_first_accepted_aux env listing :
  extract_code_files (Config env) listing
  = take 50 (omap (unit_of (Config env)) (scanned (Config env) listing)).
Proof. unfold extract_code_files. rewrite extract_loop_scanned; [done|simpl; lia..]. Qed.

(** X3. [extract_code_files] returns the code units of the first 50
    entries it accepts, in the order of the listing, among the entries
    that come before the first one the scan fails on; when the scan fails
    on no entry, these are the first 50 accepted entries of the whole
    listing. *)
Theorem extract_code_files_first_accepted env listing :
  extract_code_files (Config env) listing
  = take 50 (omap (unit_of (Config env)) (scanned (Config env) listing))
  /\ (Forall (fun e => fatal (Config env) e = false) listing ->
      extract_code_files (Config env) listing
      = take 50 (omap (unit_of (Config env)) listing)).
Proof.
  pose proof (extract_code_files_first_accepted_aux env listing) as Hmain.
  split; [exact Hmain|].
  intros Hclean. rewrite Hmain.
  assert (Hscanned : scanned (Config env) listing = listing).
  { clear Hmain. induction Hclean as [|e entries He _ IH]; [done|].
    cbn [scanned]. rewrite He. by rewrite IH. }
  by rewrite Hscanned.
Qed.

(** In [sample_listing] no entry fails: the two accepted files are
    returned. *)
Lemma extract_code_files_first_accepted_witness :
  extract_code_files (Config empty_environ) sample_listing
  = take 50 (omap (unit_of (Config empty_environ)) sample_listing).
Proof.
  apply (proj2 (extract_code_files_first_accepted empty_environ sample_listing)).
  repeat constructor.
Defined.

(** X4. Every code unit [extract_code_files] returns comes from a regular
    file none of whose path components starts with a dot; its language is
    the entry of the extension table for the file's extension in lower
    case, its path the file's path relative to the repository and its size
    the number of characters of its content. *)
Theorem extract_code_files_provenance env listing :
  Forall (fun unit =>
    exists e, e ∈ listing /\ is_file e = true /\ hidden e = false
              /\ SUPPORTED_EXTENSIONS (Config env) !! lower (suffix e)
                 = Some (language unit)
              /\ path unit = relative_to e
              /\ read_text e = ReadText (content unit)
              /\ size unit = String.length (content unit))
    (extract_code_files (Config env) listing).
Proof.
  apply extract_loop_units; [|constructor].
  intros e sz text lang He Hfile Hhidden Hext _ _ Hread. by exists e.
Qed.

(** X5. When the scan fails on an entry (its [stat()] raises, or its
    reading raises an exception the inner handler does not name), the
    files listed after it are not looked at: the result is that of the
    listing cut before that entry. *)
Theorem extract_code_files_stops_at_failure env before e after :
  fatal (Config env) e = true ->
  Forall (fun e' => fatal (Config env) e' = false) before ->
  extract_code_files (Config env) (before ++ e :: after)
  = extract_code_files (Config env) before.
Proof.
  intros Hfatal Hclean.
  rewrite !extract_code_files_first_accepted_aux.
  assert (Hscanned : scanned (Config env) (before ++ e :: after)
                     = scanned (Config env) before).
  { induction Hclean as [|e' entries He' _ IH].
    - cbn [app scanned]. by rewrite Hfatal.
    - cbn [app scanned]. rewrite He'. by rewrite IH. }
  by rewrite Hscanned.
Qed.

(** In [sample_broken_listing] the third entry cannot be read: the Ruby
    file after it is not returned. *)
Lemma extract_code_files_stops_at_failure_witness :
  map path (extract_code_files (Config empty_environ) sample_broken_listing) = ["a.py"].
Proof.
  change sample_broken_listing
    with (take 2 sample_broken_listing
          ++ {| is_file := true; parts := ["tmp"; "src"; "gone.go"]; suffix := ".go";
                st_size := Raise "no such file"; read_text := ReadFailed "no such file";
                relative_to := "src/gone.go" |}
          :: drop 3 sample_broken_listing).
  rewrite extract_code_files_stops_at_failure.
  - vm_compute. reflexivity.
  - vm_compute. reflexivity.
  - repeat constructor.
Defined.

(** ** The structure summary *)

Lemma split_lines_length code :
  length (split code NL) = S (count_char newline code).
Proof.
  unfold split, NL. induction code as [|d code IH]; [done|].
  cbn [split_from count_char]. rewrite prefix_cons, prefix_nil.
  case_bool_decide as Hd.
  - subst d. rewrite bool_decide_eq_true_2 by done. simpl. by rewrite IH.
  - rewrite bool_decide_eq_false_2 by congruence.
    destruct (split_from (String newline "") 0 code) as [|piece rest]; [done|].
    simpl in *. lia.
Qed.

Lemma basic_python_fold lines k analysis :
  let result := fold_left basic_python_line (enumerate_from k lines) analysis in
  functions result
  = functions analysis
    ++ flat_map (fun '(i, l) => if is_def_line l then [python_function i l] else [])
         (enumerate_from k lines)
  /\ complexity result = complexity analysis
  /\ lines_of_code result = lines_of_code analysis.
Proof.
  revert k analysis. induction lines as [|l lines IH]; intros k analysis.
  - simpl. by rewrite app_nil_r.
  - cbn [enumerate_from fold_left flat_map].
    destruct (IH (S k) (basic_python_line analysis (k, l))) as (Hf & Hc & Hl).
    cbn zeta in *. rewrite Hf, Hc, Hl. clear Hf Hc Hl IH.
    unfold basic_python_line, is_def_line.
    destruct (startswith (strip l) "def ").
    + cbn [functions complexity lines_of_code]. by rewrite <- app_assoc.
    + destruct (startswith (strip l) "class "); [done|].
      by destruct (startswith (strip l) "import " || startswith (strip l) "from ").
Qed.

Lemma basic_javascript_fold lines k analysis :
  let result := fold_left basic_javascript_line (enumerate_from k lines) analysis in
  complexity result = complexity analysis
  /\ lines_of_code result = lines_of_code analysis
  /\ (Forall (fun f => exists i, line f = Some (i + 1)) (functions analysis) ->
      Forall (fun f => exists i, line f = Some (i + 1)) (functions result)).
Proof.
  revert k analysis. induction lines as [|l lines IH]; intros k analysis; [done|].
  cbn [enumerate_from fold_left].
  destruct (IH (S k) (basic_javascript_line analysis (k, l))) as (Hc & Hl & Hf).
  cbn zeta in *. rewrite Hc, Hl. clear Hc Hl IH.
  unfold basic_javascript_line in *.
  destruct (contains "function " (strip l)).
  - cbn [functions complexity lines_of_code] in *. split; [done|]. split; [done|].
    intros Hall. apply Hf, Forall_app. split; [done|]. repeat constructor. by exists k.
  - destruct (startswith (strip l) "class "); done.
Qed.

(** X6. Whatever the language and whether or not tree-sitter parses the
    file, the structure summary counts one line more than the content has
    newline characters (an empty file has one line) and reports the
    complexity 1. *)
Theorem structure_counts_lines ts code lang :
  lines_of_code (analyze_code_structure ts code lang) = S (count_char newline code)
  /\ complexity (analyze_code_structure ts code lang) = 1.
Proof.
  assert (Hbasic : lines_of_code (_basic_code_analysis code lang)
                   = S (count_char newline code)
                   /\ complexity (_basic_code_analysis code lang) = 1).
  { unfold _basic_code_analysis, enumerate. case_bool_decide.
    - destruct (basic_python_fold (split code NL) 0
                  {| functions := []; classes := []; imports := []; complexity := 1;
                     lines_of_code := length (split code NL) |}) as (_ & Hc & Hl).
      cbn zeta in *. rewrite Hc, Hl. simpl. by rewrite split_lines_length.
    - case_bool_decide.
      + destruct (basic_javascript_fold (split code NL) 0
                    {| functions := []; classes := []; imports := []; complexity := 1;
                       lines_of_code := length (split code NL) |}) as (Hc & Hl & _).
        cbn zeta in *. rewrite Hc, Hl. simpl. by rewrite split_lines_length.
      + simpl. by rewrite split_lines_length. }
  unfold analyze_code_structure. case_bool_decide; [|done].
  destruct (parse_returns ts lang code); [|done].
  simpl. by rewrite split_lines_length.
Qed.

(** The functions the summary of a Python file lists when tree-sitter
    does not parse it: one per [def] line, with the line's number. *)
Lemma python_functions_unparsed ts code :
  (bool_decide ("python" ∈ parsers ts) && parse_returns ts "python" code) = false ->
  functions (analyze_code_structure ts code "python")
  = flat_map (fun '(i, l) => if is_def_line l then [python_function i l] else [])
      (enumerate (split code NL)).
Proof.
  intros Hparse.
  assert (Hbasic : functions (_basic_code_analysis code "python")
    = flat_map (fun '(i, l) => if is_def_line l then [python_function i l] else [])
        (enumerate (split code NL))).
  { unfold _basic_code_analysis, enumerate. rewrite bool_decide_eq_true_2 by done.
    destruct (basic_python_fold (split code NL) 0
                {| functions := []; classes := []; imports := []; complexity := 1;
                   lines_of_code := length (split code NL) |}) as (Hf & _).
    cbn zeta in Hf. by rewrite Hf. }
  unfold analyze_code_structure.
  destruct (bool_decide ("python" ∈ parsers ts)); [|done].
  simpl in Hparse. by rewrite Hparse.
Qed.

Lemma python_functions_parsed ts code lang :
  lang ∈ parsers ts -> parse_returns ts lang code = true ->
  functions (analyze_code_structure ts code lang) = [].
Proof.
  intros Hin Hparse. unfold analyze_code_structure.
  rewrite bool_decide_eq_true_2 by done. by rewrite Hparse.
Qed.

(** ** Static detection, rule by rule *)

Lemma map_flat_map_enumerate {A B C : Type} (f : B -> C) (h : nat -> A -> list B) l :
  map f (flat_map (fun '(i, x) => h i x) l)
  = flat_map (fun '(i, x) => map f (h i x)) l.
Proof.
  induction l as [|[i x] l IH]; [done|]. simpl. by rewrite map_app, IH.
Qed.

(** The count of the issues of one title and line in the output of
    [analyze_file] is the count within the family that uses the title. *)
Lemma count_in_families ts code lang file_path (p : Issue -> bool) :
  (forall x, p (set_file_path file_path x) = p x) ->
  count_issues p (analyze_file ts code lang file_path)
  = count_issues p (long_line_issues (split code NL))
    + count_issues p (hardcoded_secret_issues (split code NL))
    + count_issues p (if bool_decide (lang = "python")
                      then eval_issues (split code NL) else [])
    + count_issues p (_check_performance_issues code lang
                        (analyze_code_structure ts code lang))
    + count_issues p (_check_maintainability code lang
                        (analyze_code_structure ts code lang)).
Proof.
  intros Hp. rewrite analyze_file_families, count_issues_map by done.
  rewrite !count_issues_app. lia.
Qed.

Lemma count_other_title t t' n l :
  t <> t' -> all_titled t' l ->
  count_issues (fun x => titled t x && at_line n x) l = 0.
Proof.
  intros Hne Hall. apply count_issues_none.
  eapply Forall_impl; [exact (all_titled_other _ _ _ Hne Hall)|].
  intros x Hx. simpl in Hx. by rewrite Hx.
Qed.

Lemma titled_at_line_set_file_path t n file_path x :
  titled t (set_file_path file_path x) && at_line n (set_file_path file_path x)
  = titled t x && at_line n x.
Proof. by rewrite titled_set_file_path, at_line_set_file_path. Qed.

Lemma count_single (p : Issue -> bool) (b : bool) x :
  p x = true -> count_issues p (if b then [x] else []) = if b then 1 else 0.
Proof. intros Hp. destruct b; [|done]. unfold count_issues. simpl. by rewrite Hp. Qed.

(** X7. For a Python file that tree-sitter does not parse, static
    detection reports "Missing Documentation" once for every line whose
    text, stripped of surrounding white space, starts with [def ], at that
    line's number, and for no other line: whether the function has a
    docstring is not looked at. *)
Theorem missing_documentation_per_def_line ts code file_path i line_ :
  (bool_decide ("python" ∈ parsers ts) && parse_returns ts "python" code) = false ->
  split code NL !! i = Some line_ ->
  count_issues (fun x => titled "Missing Documentation" x && at_line (i + 1) x)
               (analyze_file ts code "python" file_path)
  = if is_def_line line_ then 1 else 0.
Proof.
  intros Hparse Hline.
  rewrite count_in_families by (intros x; apply titled_at_line_set_file_path).
  rewrite (count_other_title _ "Long Line" _ (long_line_issues _))
    by (done || apply long_line_issues_titled).
  rewrite (count_other_title _ "Potential Hardcoded Secret" _ (hardcoded_secret_issues _))
    by (done || apply hardcoded_secret_issues_titled).
  rewrite (count_other_title _ "Inefficient Loop" _ (_check_performance_issues _ _ _))
    by (done || apply performance_issues_titled).
  rewrite bool_decide_eq_true_2 by done.
  rewrite (count_other_title _ "Dangerous eval() Usage" _ (eval_issues _))
    by (done || apply eval_issues_titled).
  unfold _check_maintainability. rewrite bool_decide_eq_true_2 by done.
  rewrite python_functions_unparsed by done.
  rewrite (map_flat_map_enumerate missing_documentation_issue
             (fun i l => if is_def_line l then [python_function i l] else [])).
  assert (Hlines : forall j l,
            Forall (fun x => x !! "line" = Some (PInt (Z.of_nat (j + 1))))
                   (map missing_documentation_issue
                      (if is_def_line l then [python_function j l] else []))).
  { intros j l. destruct (is_def_line l); repeat constructor. }
  pose proof (count_at_line_enumerate
                (fun j l => map missing_documentation_issue
                              (if is_def_line l then [python_function j l] else []))
                (titled "Missing Documentation") Hlines (split code NL) 0 i) as Hcount.
  change (0 + i + 1) with (i + 1) in Hcount. change (0 + i) with i in Hcount.
  unfold enumerate. rewrite Hcount, Hline.
  destruct (is_def_line line_); reflexivity.
Qed.

(** In [sample_python_code] line 3 is an indented [def]. *)
Lemma missing_documentation_per_def_line_witness :
  count_issues (fun x => titled "Missing Documentation" x && at_line 3 x)
               (analyze_file no_tree_sitter sample_python_code "python" "m.py")
  = 1.
Proof.
  apply (missing_documentation_per_def_line no_tree_sitter sample_python_code "m.py"
           2 "  def g():").
  - reflexivity.
  - vm_compute. reflexivity.
Defined.

(** X8. When tree-sitter holds a parser for the language and parses the
    file, the structure summary lists no function, so the file gets no
    "Missing Documentation" issue, however many functions it defines. *)
Theorem parsed_file_has_no_documentation_issue ts code lang file_path :
  lang ∈ parsers ts -> parse_returns ts lang code = true ->
  functions (analyze_code_structure ts code lang) = []
  /\ Forall (fun x => titled "Missing Documentation" x = false)
            (analyze_file ts code lang file_path).
Proof.
  intros Hin Hparse.
  pose proof (python_functions_parsed ts code lang Hin Hparse) as Hnone.
  split; [exact Hnone|].
  rewrite analyze_file_families.
  assert (Hother : forall t l, "Missing Documentation" <> t -> all_titled t l ->
            Forall (fun x => titled "Missing Documentation" x = false)
                   (map (set_file_path file_path) l)).
  { intros t l Hne Hall. apply Forall_map.
    eapply Forall_impl; [exact (all_titled_other _ _ _ Hne Hall)|].
    intros x Hx. simpl. by rewrite titled_set_file_path. }
  rewrite !map_app, !Forall_app. repeat split.
  - by apply (Hother "Long Line"), long_line_issues_titled.
  - by apply (Hother "Potential Hardcoded Secret"), hardcoded_secret_issues_titled.
  - case_bool_decide; [|constructor].
    by apply (Hother "Dangerous eval() Usage"), eval_issues_titled.
  - by apply (Hother "Inefficient Loop"), performance_issues_titled.
  - unfold _check_maintainability. rewrite Hnone. by case_bool_decide.
Qed.

(** With a working parser the two functions of [sample_python_code] go
    unreported. *)
Lemma parsed_file_has_no_documentation_issue_witness :
  Forall (fun x => titled "Missing Documentation" x = false)
         (analyze_file working_tree_sitter sample_python_code "python" "m.py").
Proof.
  apply (parsed_file_has_no_documentation_issue
           working_tree_sitter sample_python_code "python" "m.py").
  - vm_compute. set_solver.
  - reflexivity.
Defined.

Lemma eval_issues_line j l :
  Forall (fun x => x !! "line" = Some (PInt (Z.of_nat (j + 1))))
         (if contains "eval(" l then [eval_issue j] else []).
Proof. destruct (contains "eval(" l); repeat constructor. Qed.

Lemma loop_issues_line j l :
  Forall (fun x => x !! "line" = Some (PInt (Z.of_nat (j + 1))))
         (if contains "for" l && contains "range(len(" l
          then [inefficient_loop_issue j] else []).
Proof. destruct (contains "for" l && contains "range(len(" l); repeat constructor. Qed.

(** X9. The two line rules for Python: a line is reported as "Dangerous
    eval() Usage" exactly once when it contains [eval(] and as
    "Inefficient Loop" exactly once when it contains both [for] and
    [range(len(], at its own number; in a file of another language
    neither is ever reported. *)
Theorem python_line_rules ts code lang file_path i line_ :
  split code NL !! i = Some line_ ->
  count_issues (fun x => titled "Dangerous eval() Usage" x && at_line (i + 1) x)
               (analyze_file ts code lang file_path)
  = (if bool_decide (lang = "python") && contains "eval(" line_ then 1 else 0)
  /\ count_issues (fun x => titled "Inefficient Loop" x && at_line (i + 1) x)
                  (analyze_file ts code lang file_path)
     = (if bool_decide (lang = "python")
           && (contains "for" line_ && contains "range(len(" line_)
        then 1 else 0).
Proof.
  intros Hline. split.
  - rewrite count_in_families by (intros x; apply titled_at_line_set_file_path).
    rewrite (count_other_title _ "Long Line" _ (long_line_issues _))
    by (done || apply long_line_issues_titled).
    rewrite (count_other_title _ "Potential Hardcoded Secret" _ (hardcoded_secret_issues _))
      by (done || apply hardcoded_secret_issues_titled).
    rewrite (count_other_title _ "Inefficient Loop" _ (_check_performance_issues _ _ _))
      by (done || apply performance_issues_titled).
    rewrite (count_other_title _ "Missing Documentation" _ (_check_maintainability _ _ _))
      by (done || apply maintainability_issues_titled).
    case_bool_decide; [|done]. cbn [andb].
    pose proof (count_at_line_enumerate
                  (fun j l => if contains "eval(" l then [eval_issue j] else [])
                  (titled "Dangerous eval() Usage") eval_issues_line
                  (split code NL) 0 i) as Hcount.
    simpl in Hcount. unfold eval_issues, enumerate. rewrite Hcount, Hline.
    rewrite count_single by done. lia.
  - rewrite count_in_families by (intros x; apply titled_at_line_set_file_path).
    rewrite (count_other_title _ "Long Line" _ (long_line_issues _))
    by (done || apply long_line_issues_titled).
    rewrite (count_other_title _ "Potential Hardcoded Secret" _ (hardcoded_secret_issues _))
      by (done || apply hardcoded_secret_issues_titled).
    rewrite (count_other_title _ "Missing Documentation" _ (_check_maintainability _ _ _))
      by (done || apply maintainability_issues_titled).
    unfold _check_performance_issues.
    case_bool_decide.
    + rewrite (count_other_title _ "Dangerous eval() Usage" _ (eval_issues _))
        by (done || apply eval_issues_titled).
      cbn [andb].
      pose proof (count_at_line_enumerate
                    (fun j l => if contains "for" l && contains "range(len(" l
                                then [inefficient_loop_issue j] else [])
                    (titled "Inefficient Loop") loop_issues_line
                    (split code NL) 0 i) as Hcount.
      simpl in Hcount. unfold enumerate. rewrite Hcount, Hline.
      rewrite count_single by done. lia.
    + done.
Qed.

(** Line 2 of [sample_python_code] calls eval, line 4 loops over
    [range(len(a))]. *)
Lemma python_line_rules_witness :
  count_issues (fun x => titled "Dangerous eval() Usage" x && at_line 2 x)
               (analyze_file no_tree_sitter sample_python_code "python" "m.py") = 1
  /\ count_issues (fun x => titled "Inefficient Loop" x && at_line 2 x)
                  (analyze_file no_tree_sitter sample_python_code "python" "m.py") = 0.
Proof.
  apply (python_line_rules no_tree_sitter sample_python_code "python" "m.py" 1
           "    return eval(a)").
  vm_compute. reflexivity.
Defined.

Lemma count_secret_bound j l patterns :
  count_issues (titled "Potential Hardcoded Secret")
    (flat_map (fun pattern =>
       if secret_match pattern l then [hardcoded_secret_issue j] else [])
       patterns)
  <= length patterns.
Proof.
  induction patterns as [|pattern patterns IH]; [done|].
  cbn [flat_map length]. rewrite count_issues_app.
  assert (Hone : count_issues (titled "Potential Hardcoded Secret")
                   (if secret_match pattern l then [hardcoded_secret_issue j] else [])
                 <= 1).
  { rewrite count_single by reflexivity. destruct (secret_match pattern l); lia. }
  lia.
Qed.

Lemma count_secret_none j l patterns :
  contains "=" l = false \/ contains dquote l || contains "'" l = false ->
  count_issues (titled "Potential Hardcoded Secret")
    (flat_map (fun pattern =>
       if secret_match pattern l then [hardcoded_secret_issue j] else [])
       patterns)
  = 0.
Proof.
  intros Hmissing. induction patterns as [|pattern patterns IH]; [done|].
  simpl. rewrite count_issues_app, IH.
  assert (Hno : secret_match pattern l = false).
  { unfold secret_match. destruct Hmissing as [-> | ->];
      [by rewrite andb_false_r|apply andb_false_r]. }
  by rewrite Hno.
Qed.

(** X10. A line is never reported as "Potential Hardcoded Secret" more
    than four times, and not at all when it contains no ['='] or neither
    kind of quote, whatever keywords it holds. *)
Theorem secret_rule_needs_assignment_and_quote ts code lang file_path i line_ :
  split code NL !! i = Some line_ ->
  count_issues (fun x => titled "Potential Hardcoded Secret" x && at_line (i + 1) x)
               (analyze_file ts code lang file_path) <= 4
  /\ (contains "=" line_ = false \/ contains dquote line_ || contains "'" line_ = false ->
      count_issues (fun x => titled "Potential Hardcoded Secret" x && at_line (i + 1) x)
                   (analyze_file ts code lang file_path) = 0).
Proof.
  intros Hline.
  assert (Hcount :
    count_issues (fun x => titled "Potential Hardcoded Secret" x && at_line (i + 1) x)
                 (analyze_file ts code lang file_path)
    = count_issues (titled "Potential Hardcoded Secret")
        (flat_map (fun pattern =>
           if secret_match pattern line_ then [hardcoded_secret_issue i] else [])
           secret_patterns)).
  { rewrite count_in_families by (intros x; apply titled_at_line_set_file_path).
    rewrite (count_other_title _ "Long Line" _ (long_line_issues _))
      by (done || apply long_line_issues_titled).
    rewrite (count_other_title _ "Inefficient Loop" _ (_check_performance_issues _ _ _))
      by (done || apply performance_issues_titled).
    rewrite (count_other_title _ "Missing Documentation" _ (_check_maintainability _ _ _))
      by (done || apply maintainability_issues_titled).
    rewrite count_secret_issues_at, Hline.
    case_bool_decide.
    - rewrite (count_other_title _ "Dangerous eval() Usage" _ (eval_issues _))
        by (done || apply eval_issues_titled).
      lia.
    - unfold count_issues at 2. simpl. lia. }
  rewrite Hcount. split.
  - apply (count_secret_bound i line_ secret_patterns).
  - apply count_secret_none.
Qed.

(** A comment that names a password but assigns nothing is not reported. *)
Lemma secret_rule_needs_assignment_and_quote_witness :
  count_issues (fun x => titled "Potential Hardcoded Secret" x && at_line 1 x)
               (analyze_file no_tree_sitter "# ask the user's password" "python" "p.py")
  = 0.
Proof.
  apply (proj2 (secret_rule_needs_assignment_and_quote no_tree_sitter
                  "# ask the user's password" "python" "p.py" 0
                  "# ask the user's password" eq_refl)).
  left. vm_compute. reflexivity.
Defined.

(** ** The shape of the issues of static detection *)

Lemma forall_enumerate (P : Issue -> Prop) (g : nat -> string -> list Issue) k lines :
  (forall j l, Forall P (g j l)) ->
  Forall P (flat_map (fun '(j, l) => g j l) (enumerate_from k lines)).
Proof.
  intros Hg. apply List.Forall_flat_map, Forall_forall. intros [j l] _. apply Hg.
Qed.

Lemma shape_long_line file_path i l :
  static_issue_shape file_path (set_file_path file_path (long_line_issue i l)).
Proof.
  split; [reflexivity|]. split; [exists "code_quality"; split; [set_solver|reflexivity]|].
  split; [reflexivity|].
  split; [exists i; replace (S i) with (i + 1) by lia; reflexivity|]. done.
Qed.

Lemma shape_secret file_path i :
  static_issue_shape file_path (set_file_path file_path (hardcoded_secret_issue i)).
Proof.
  split; [reflexivity|]. split; [exists "security"; split; [set_solver|reflexivity]|].
  split; [reflexivity|].
  split; [exists i; replace (S i) with (i + 1) by lia; reflexivity|]. done.
Qed.

Lemma shape_eval file_path i :
  static_issue_shape file_path (set_file_path file_path (eval_issue i)).
Proof.
  split; [reflexivity|]. split; [exists "security"; split; [set_solver|reflexivity]|].
  split; [reflexivity|].
  split; [exists i; replace (S i) with (i + 1) by lia; reflexivity|]. done.
Qed.

Lemma shape_loop file_path i :
  static_issue_shape file_path (set_file_path file_path (inefficient_loop_issue i)).
Proof.
  split; [reflexivity|]. split; [exists "performance"; split; [set_solver|reflexivity]|].
  split; [reflexivity|].
  split; [exists i; replace (S i) with (i + 1) by lia; reflexivity|]. done.
Qed.

Lemma shape_documentation file_path func i :
  line func = Some (i + 1) ->
  static_issue_shape file_path (set_file_path file_path (missing_documentation_issue func)).
Proof.
  intros Hline.
  split; [reflexivity|].
  split; [exists "maintainability"; split; [set_solver|reflexivity]|].
  split; [reflexivity|].
  split; [exists i; replace (S i) with (i + 1) by lia;
          unfold missing_documentation_issue; rewrite Hline; reflexivity|].
  done.
Qed.

Lemma python_function_lines ts code :
  Forall (fun func => exists i, line func = Some (i + 1))
         (functions (analyze_code_structure ts code "python")).
Proof.
  destruct (bool_decide ("python" ∈ parsers ts) && parse_returns ts "python" code)
    eqn:Hparse.
  - apply andb_true_iff in Hparse as [Hin Hparse]. apply bool_decide_eq_true in Hin.
    by rewrite python_functions_parsed.
  - rewrite python_functions_unparsed by done.
    apply List.Forall_flat_map, Forall_forall. intros [i l] _.
    destruct (is_def_line l); repeat constructor. by exists i.
Qed.

Lemma static_issues_shape_aux ts code lang file_path :
  Forall (static_issue_shape file_path) (analyze_file ts code lang file_path).
Proof.
  rewrite analyze_file_families, !map_app, !Forall_app. repeat split.
  - apply Forall_map.
    apply (forall_enumerate (fun x => static_issue_shape file_path (set_file_path file_path x))
             (fun i l => if 120 <? String.length l then [long_line_issue i l] else [])).
    intros j l. destruct (120 <? String.length l); [|constructor].
    constructor; [apply shape_long_line|constructor].
  - apply Forall_map.
    apply (forall_enumerate (fun x => static_issue_shape file_path (set_file_path file_path x))
             (fun i l => flat_map (fun pattern =>
                if secret_match pattern l then [hardcoded_secret_issue i] else [])
                secret_patterns)).
    intros j l. apply List.Forall_flat_map, Forall_forall. intros pattern _.
    destruct (secret_match pattern l); [|constructor].
    constructor; [apply shape_secret|constructor].
  - case_bool_decide; [|constructor]. apply Forall_map.
    apply (forall_enumerate (fun x => static_issue_shape file_path (set_file_path file_path x))
             (fun i l => if contains "eval(" l then [eval_issue i] else [])).
    intros j l. destruct (contains "eval(" l); [|constructor].
    constructor; [apply shape_eval|constructor].
  - unfold _check_performance_issues. case_bool_decide; [|constructor]. apply Forall_map.
    apply (forall_enumerate (fun x => static_issue_shape file_path (set_file_path file_path x))
             (fun i l => if contains "for" l && contains "range(len(" l
                         then [inefficient_loop_issue i] else [])).
    intros j l. destruct (contains "for" l && contains "range(len(" l); [|constructor].
    constructor; [apply shape_loop|constructor].
  - unfold _check_maintainability. case_bool_decide as Hlang; [|constructor]. subst lang.
    apply Forall_map, Forall_map.
    eapply Forall_impl; [apply python_function_lines|].
    intros func [i Hi]. by eapply shape_documentation.
Qed.

(** X11. Every issue [analyze_file] returns is stamped with the file path
    it was called with, belongs to one of the categories code_quality,
    security, performance and maintainability, has a severity the report
    recognizes, carries a line number from 1, and has no ['source'] and
    no ['enhanced_suggestion']. *)
Theorem static_issues_shape ts code lang file_path :
  Forall (static_issue_shape file_path) (analyze_file ts code lang file_path).
Proof. apply static_issues_shape_aux. Qed.

(** X12. A file whose language tag is not ['python'] gets "Long Line" and
    "Potential Hardcoded Secret" issues only: the eval, loop and
    documentation rules are not applied to it. *)
Theorem other_languages_get_two_rules ts code lang file_path :
  lang <> "python" ->
  Forall (fun x => titled "Long Line" x || titled "Potential Hardcoded Secret" x = true)
         (analyze_file ts code lang file_path).
Proof.
  intros Hlang. rewrite analyze_file_families.
  unfold _check_performance_issues, _check_maintainability.
  rewrite !bool_decide_eq_false_2 by done. rewrite !app_nil_r.
  rewrite map_app, Forall_app. split; apply Forall_map.
  - eapply Forall_impl; [apply long_line_issues_titled|].
    intros x Hx. simpl. rewrite titled_set_file_path. unfold titled at 1.
    by rewrite Hx, bool_decide_eq_true_2.
  - eapply Forall_impl; [apply hardcoded_secret_issues_titled|].
    intros x Hx. simpl. rewrite !titled_set_file_path. unfold titled at 2.
    rewrite Hx, bool_decide_eq_true_2 by done. apply orb_true_r.
Qed.

(** The eval call of a JavaScript file is not reported. *)
Lemma other_languages_get_two_rules_witness :
  Forall (fun x => titled "Long Line" x || titled "Potential Hardcoded Secret" x = true)
         (analyze_file no_tree_sitter "eval(input)" "javascript" "x.js").
Proof.
  apply other_languages_get_two_rules. done.
Defined.

(** ** The modes of the analyzer *)

(** X13. After [__init__] the analyzer never has both the command line
    client and a model: it has a model exactly when an API key is set and
    the client is not in use (switched off, or switched on and missing).
    Without a model the simulation reports no runtime issue and the
    enhancement returns every list as it is. *)
Theorem gemini_analyzer_modes env gem :
  (use_cli (GeminiAnalyzer_init env gem) = true ->
   model (GeminiAnalyzer_init env gem) = false)
  /\ (model (GeminiAnalyzer_init env gem) = true <->
      GEMINI_API_KEY (Config env) <> ""
      /\ USE_GEMINI_CLI (Config env) && cli_available gem = false)
  /\ (model (GeminiAnalyzer_init env gem) = false ->
      (forall issues,
         generate_improvement_suggestions gem (GeminiAnalyzer_init env gem) issues
         = issues)
      /\ (forall code lang,
            potential_runtime_issues
              (simulate_code_execution gem (GeminiAnalyzer_init env gem) code lang)
            = None)).
Proof.
  unfold GeminiAnalyzer_init. cbn [use_cli model].
  split; [by intros ->|]. split.
  - destruct (USE_GEMINI_CLI (Config env) && cli_available gem).
    + split; [done|]. by intros [_ ?].
    + rewrite bool_decide_eq_true. split; [done|]. by intros [? _].
  - intros Hmodel. split.
    + intros issues. unfold generate_improvement_suggestions. cbn [model].
      by rewrite Hmodel.
    + intros code lang. unfold simulate_code_execution. cbn [model].
      by rewrite Hmodel.
Qed.

(** With the client switched on and present, an API key gives no model. *)
Lemma gemini_analyzer_modes_witness :
  model (GeminiAnalyzer_init cli_environ cli_gemini) = false
  /\ forall issues,
       generate_improvement_suggestions cli_gemini
         (GeminiAnalyzer_init cli_environ cli_gemini) issues = issues.
Proof.
  assert (Hcli : use_cli (GeminiAnalyzer_init cli_environ cli_gemini) = true).
  { vm_compute. reflexivity. }
  pose proof (proj1 (gemini_analyzer_modes cli_environ cli_gemini) Hcli) as Hmodel.
  split; [exact Hmodel|].
  exact (proj1 (proj2 (proj2 (gemini_analyzer_modes cli_environ cli_gemini)) Hmodel)).
Defined.

(** ** Model responses read as text *)

Lemma blank_line_announces_nothing l : strip l = "" -> announces_issue l = false.
Proof. unfold announces_issue. by intros ->. Qed.

Lemma text_response_line_cases file_path (found : list Issue) (cur : option Issue) l :
  text_response_line file_path (found, cur) l
  = if announces_issue l
    then (found ++ option_list cur, Some (text_response_issue (strip l) file_path))
    else (found, cur).
Proof.
  unfold text_response_line. case_bool_decide as Hblank.
  - by rewrite (blank_line_announces_nothing l Hblank).
  - fold (announces_issue l). destruct (announces_issue l); [|done].
    destruct cur; [done|]. simpl. by rewrite app_nil_r.
Qed.

Lemma text_response_fold file_path lines (found : list Issue) (cur : option Issue) :
  let st := fold_left (text_response_line file_path) lines (found, cur) in
  fst st ++ option_list (snd st)
  = (found ++ option_list cur)
    ++ map (fun l => text_response_issue (strip l) file_path)
           (List.filter announces_issue lines).
Proof.
  revert found cur. induction lines as [|l lines IH]; intros found cur.
  - simpl. by rewrite app_nil_r.
  - cbn [fold_left List.filter]. rewrite text_response_line_cases.
    destruct (announces_issue l).
    + cbn zeta in IH. rewrite IH. cbn [map option_list]. by rewrite <- app_assoc.
    + apply IH.
Qed.

Lemma text_response_one_issue_per_announcement_aux response_text file_path :
  _parse_text_response response_text file_path
  = map (fun l => text_response_issue (strip l) file_path)
        (List.filter announces_issue (split response_text NL)).
Proof.
  unfold _parse_text_response.
  pose proof (text_response_fold file_path (split response_text NL) [] None) as Hfold.
  cbn zeta in Hfold.
  destruct (fold_left (text_response_line file_path) (split response_text NL) ([], None))
    as [found [cur|]]; simpl in Hfold; rewrite <- Hfold; [done|by rewrite app_nil_r].
Qed.


(** ** Enhancement: what makes it give up, and when it keeps the order *)

Lemma summary_raises (issues : list Issue) (acc : list (pyval * pyval)) :
  Exists (fun x => x !! "title" = None \/ x !! "description" = None) issues ->
  exists e,
    for_each (fun issue acc =>
                title <-? dict_item issue "title" ;;
                description <-? dict_item issue "description" ;;
                Ok (acc ++ [(title, description)]))
             issues acc = Raise e.
Proof.
  intros Hbad. revert acc. induction issues as [|x issues IH]; intros acc.
  - by apply Exists_nil in Hbad.
  - cbn [for_each]. unfold dict_item at 1 2.
    destruct (x !! "title") as [t|] eqn:Ht; [|by eexists].
    destruct (x !! "description") as [d|] eqn:Hd; [|by eexists].
    cbn [rbind]. apply IH. apply Exists_cons in Hbad as [[?|?]|?]; congruence || done.
Qed.

Lemma grouping_raises (issues : list Issue) (acc : list (pyval * list Issue)) :
  Exists (fun x => exists ty, x !! "file_path" = Some (PUnhashable ty)) issues ->
  exists e,
    for_each (fun issue files_issues =>
                let file_path := dict_get issue "file_path" (PStr "unknown") in
                match file_path with
                | PUnhashable ty => unhashable_error ty
                | _ => Ok (group_append files_issues file_path issue)
                end)
             issues acc = Raise e.
Proof.
  intros Hbad. revert acc. induction issues as [|x issues IH]; intros acc.
  - by apply Exists_nil in Hbad.
  - cbn [for_each]. cbn zeta. unfold dict_get.
    apply Exists_cons in Hbad as [[ty Hty]|Hrest].
    + rewrite Hty. by eexists.
    + destruct (x !! "file_path") as [[s|z| |ty]|]; cbn [rbind];
        try (by apply IH); by eexists.
Qed.

(** X15. The enhancement gives up silently on input it cannot handle: a
    group of issues one of which has no ['title'] or no ['description']
    comes back unchanged, without the model being asked, and a list one
    of whose issues has a JSON array or object as ['file_path'] comes back
    unchanged as a whole. *)
Theorem enhancement_gives_up gem self :
  (forall issues file_path,
     Exists (fun x => x !! "title" = None \/ x !! "description" = None) issues ->
     _enhance_suggestions_for_file gem issues file_path = issues)
  /\ (forall issues,
        Exists (fun x => exists ty, x !! "file_path" = Some (PUnhashable ty)) issues ->
        generate_improvement_suggestions gem self issues = issues).
Proof.
  split.
  - intros issues file_path Hbad. unfold _enhance_suggestions_for_file.
    destruct (summary_raises issues [] Hbad) as [e He].
    cbn zeta in *. by rewrite He.
  - intros issues Hbad. unfold generate_improvement_suggestions.
    destruct (negb (model self) || bool_decide (issues = [])); [done|].
    assert (Hraise : exists e, group_by_file issues = Raise e)
      by exact (grouping_raises issues [] Hbad).
    destruct Hraise as [e He]. by rewrite He.
Qed.

(** An issue without title stops the enhancement of its group, even
    with a model that would answer. *)
Lemma enhancement_gives_up_witness :
  _enhance_suggestions_for_file cli_gemini
    [located_issue "first" "a.py"; dict_of [("description", PStr "no title")]]
    (PStr "a.py")
  = [located_issue "first" "a.py"; dict_of [("description", PStr "no title")]].
Proof.
  apply (proj1 (enhancement_gives_up cli_gemini (GeminiAnalyzer_init cli_environ cli_gemini))).
  apply Exists_cons. right. apply Exists_cons. left. left. reflexivity.
Defined.

Lemma group_one_file (issues acc : list Issue) (file_path : pyval) :
  hashable file_path = true ->
  Forall (fun x => dict_get x "file_path" (PStr "unknown") = file_path) issues ->
  for_each (fun issue files_issues =>
              let file_path := dict_get issue "file_path" (PStr "unknown") in
              match file_path with
              | PUnhashable ty => unhashable_error ty
              | _ => Ok (group_append files_issues file_path issue)
              end)
           issues [(file_path, acc)]
  = Ok [(file_path, acc ++ issues)].
Proof.
  intros Hhash Hall. revert acc.
  induction Hall as [|x issues Hx _ IH]; intros acc.
  - simpl. by rewrite app_nil_r.
  - cbn [for_each]. cbn zeta. rewrite Hx.
    destruct file_path as [s|z| |ty]; [| | |done]; cbn [rbind group_append];
      rewrite bool_decide_eq_true_2 by done; rewrite IH; by rewrite <- app_assoc.
Qed.

(** X16. When all the issues of the list belong to one file (the same
    hashable ['file_path'], or none at all), the enhancement keeps their
    order: the result is the input, issue by issue, each possibly with an
    ['enhanced_suggestion'] attached. *)
Theorem enhancement_keeps_order_of_one_file gem self issues file_path :
  hashable file_path = true ->
  Forall (fun x => dict_get x "file_path" (PStr "unknown") = file_path) issues ->
  Forall2 enhanced_from issues (generate_improvement_suggestions gem self issues).
Proof.
  intros Hhash Hall. unfold generate_improvement_suggestions.
  destruct (negb (model self) || bool_decide (issues = []));
    [apply enhanced_from_refl|].
  destruct issues as [|x issues]; [constructor|].
  assert (Hgroup : group_by_file (x :: issues) = Ok [(file_path, x :: issues)]).
  { unfold group_by_file. cbn [for_each]. cbn zeta.
    apply Forall_cons in Hall as [Hx Hall]. rewrite Hx.
    destruct file_path as [s|z| |ty]; [| | |done]; cbn [rbind group_append];
      by rewrite (group_one_file issues [x]). }
  rewrite Hgroup. cbn [flat_map]. rewrite app_nil_r. apply enhance_file_related.
Qed.

(** Two issues of a.py keep their order under a model that answers. *)
Lemma enhancement_keeps_order_of_one_file_witness :
  Forall2 enhanced_from
    [located_issue "first" "a.py"; located_issue "second" "a.py"]
    (generate_improvement_suggestions cli_gemini
       {| config := Config api_key_environ; use_cli := false; model := true |}
       [located_issue "first" "a.py"; located_issue "second" "a.py"]).
Proof.
  apply (enhancement_keeps_order_of_one_file _ _ _ (PStr "a.py")).
  - reflexivity.
  - repeat constructor.
Defined.

(** ** The AI stage: which files it looks at *)

Lemma fallback_file_path code lang file_path :
  Forall (fun x => x !! "file_path" = Some (PStr file_path))
         (_fallback_logic_analysis code lang file_path).
Proof.
  unfold _fallback_logic_analysis.
  apply List.Forall_flat_map, Forall_forall. intros [i l] _.
  case_bool_decide; [|constructor].
  apply Forall_app. split.
  - case_bool_decide; repeat constructor.
  - destruct (_ && _); repeat constructor.
Qed.

Lemma gemini_response_file_path gem response_text file_path parsed :
  _parse_gemini_response gem response_text file_path = Ok parsed ->
  Forall (fun x => x !! "file_path" = Some (PStr file_path)) parsed.
Proof.
  assert (Htext : Forall (fun x => x !! "file_path" = Some (PStr file_path))
                         (_parse_text_response response_text file_path)).
  { rewrite text_response_one_issue_per_announcement_aux.
    apply Forall_map, Forall_forall. by intros l _. }
  unfold _parse_gemini_response.
  destruct (find_char _ _); [|by intros [= <-]].
  destruct (json_loads gem _) as [parsed_issues| |msg]; [| |done].
  - intros [= <-]. apply Forall_map, Forall_forall. intros x _.
    unfold stamp_gemini. rewrite lookup_insert_ne by done. apply lookup_insert_eq.
  - by intros [= <-].
Qed.

(** The logic issues of a file carry the path they were asked for. *)
Lemma analyze_code_logic_file_path gem self code lang file_path :
  Forall (fun x => x !! "file_path" = Some (PStr file_path))
         (analyze_code_logic gem self code lang file_path).
Proof.
  pose proof (fallback_file_path code lang file_path) as Hfallback.
  unfold analyze_code_logic, _analyze_with_cli_logic.
  destruct (use_cli self).
  - case_bool_decide; [|done].
    destruct (_parse_gemini_response _ _ _) eqn:Hok;
      [by eapply gemini_response_file_path|done].
  - destruct (model self); simpl; [|done].
    destruct (generate_content gem _) as [text|]; simpl; [|done].
    destruct (_parse_gemini_response _ _ _) eqn:Hok;
      [by eapply gemini_response_file_path|done].
Qed.

Lemma ai_issues_of_file_path world file_info :
  Forall (fun x => x !! "file_path" = Some (PStr (path file_info)))
         (ai_issues_of_file world file_info).
Proof.
  unfold ai_issues_of_file. apply Forall_app. split.
  - apply analyze_code_logic_file_path.
  - destruct (_ <? 5000); [|constructor].
    apply Forall_map, Forall_forall. by intros text _.
Qed.

Lemma Forall2_sources {A B : Type} (R : A -> B -> Prop) l k :
  Forall2 R l k -> Forall (fun y => exists x, x ∈ l /\ R x y) k.
Proof.
  induction 1 as [|x y l k Hxy _ IH]; constructor.
  - exists x. split; [by left|done].
  - eapply Forall_impl; [exact IH|]. intros y' (x' & Hin & Hr).
    exists x'. split; [by right|done].
Qed.

(** X17. After the AI stage, every issue of the state is, up to an
    attached ['enhanced_suggestion'], either one of the static issues the
    stage received or an issue located in one of the first ten code files:
    the files after the tenth get no AI issue. *)
Theorem ai_stage_covers_ten_files world state :
  Forall (fun y =>
    exists x, enhanced_from x y
      /\ (x ∈ static_issues state
          \/ exists file_info,
               file_info ∈ take 10 (code_files state)
               /\ x !! "file_path" = Some (PStr (path file_info))))
    (static_issues (_run_ai_analysis world state)
     ++ ai_issues (_run_ai_analysis world state)).
Proof.
  unfold _run_ai_analysis, try_stage, _run_ai_analysis_body.
  cbn [static_issues ai_issues set_ai_issues set_static_issues]. rewrite take_drop.
  destruct (enhancement_regroups (gemini world) (gemini_analyzer world)
              (static_issues state
               ++ flat_map (ai_issues_of_file world) (take 10 (code_files state))))
    as (regrouped & Hperm & Hrel).
  eapply Forall_impl; [exact (Forall2_sources _ _ _ Hrel)|].
  intros y (x & Hin & Hxy). exists x. split; [done|].
  rewrite Hperm in Hin. apply elem_of_app in Hin as [Hstatic|Hai]; [by left|right].
  apply list_elem_of_In, in_flat_map in Hai as (file_info & Hfile & Hx).
  exists file_info. split; [by apply list_elem_of_In|].
  pose proof (ai_issues_of_file_path world file_info) as Hpath.
  rewrite Forall_forall in Hpath. by apply Hpath, list_elem_of_In.
Qed.

(** ** When the report can be synthesized *)

(** What [build_report] returns, read off its last statement. *)
Lemma build_report_inv world state report :
  build_report world state = Ok report ->
  exists severity_counts type_counts,
    for_each count_severity (static_issues state ++ ai_issues state)
      (dict_of [("CRITICAL", 0); ("HIGH", 0); ("MEDIUM", 0); ("LOW", 0); ("INFO", 0)])
    = Ok severity_counts
    /\ for_each count_type (static_issues state ++ ai_issues state) ∅ = Ok type_counts
    /\ severity_breakdown (summary report) = severity_counts
    /\ issue_types (summary report) = type_counts
    /\ issues report = static_issues state ++ ai_issues state
    /\ total_issues (summary report) = length (static_issues state ++ ai_issues state)
    /\ files_analyzed (summary report) = length (code_files state)
    /\ static_analysis_issues (analysis_metadata report) = length (static_issues state)
    /\ ai_analysis_issues (analysis_metadata report) = length (ai_issues state)
    /\ timestamp (analysis_metadata report) = now_isoformat world
    /\ repository report = repo_info state.
Proof.
  unfold build_report.
  destruct (for_each count_severity _ _) as [severity_counts|]; [|done].
  destruct (for_each count_type _ _) as [type_counts|]; [|done]. cbn [rbind].
  destruct (counts_item severity_counts "CRITICAL"); [|done]. cbn [rbind].
  destruct (counts_item severity_counts "HIGH"); [|done]. cbn [rbind].
  destruct (counts_item severity_counts "MEDIUM"); [|done]. cbn [rbind].
  destruct (counts_item severity_counts "LOW"); [|done]. cbn [rbind].
  destruct (_generate_recommendations _); [|done]. cbn [rbind].
  intros [= <-]. exists severity_counts, type_counts. by repeat split.
Qed.

Lemma severity_loop_raises issues (counts : gmap string nat) :
  Exists (fun x => hashable (severity_of x) = false) issues ->
  exists ty, for_each count_severity issues counts
             = Raise ("unhashable type: '" +:+ ty +:+ "'").
Proof.
  intros Hbad. revert counts. induction issues as [|x issues IH]; intros counts.
  - by apply Exists_nil in Hbad.
  - cbn [for_each]. unfold count_severity at 1. fold (severity_of x).
    apply Exists_cons in Hbad.
    destruct (severity_of x) as [s|z| |ty] eqn:Hsev.
    + destruct Hbad as [?|Hrest]; [done|].
      destruct (counts !! s); cbn [rbind]; by apply IH.
    + destruct Hbad as [?|Hrest]; [done|]. cbn [rbind]. by apply IH.
    + destruct Hbad as [?|Hrest]; [done|]. cbn [rbind]. by apply IH.
    + by exists ty.
Qed.

Lemma type_loop_raises issues (counts : gmap pyval nat) :
  Exists (fun x => hashable (type_of x) = false) issues ->
  exists ty, for_each count_type issues counts
             = Raise ("unhashable type: '" +:+ ty +:+ "'").
Proof.
  intros Hbad. revert counts. induction issues as [|x issues IH]; intros counts.
  - by apply Exists_nil in Hbad.
  - cbn [for_each]. unfold count_type at 1. fold (type_of x).
    apply Exists_cons in Hbad.
    destruct (type_of x) as [s|z| |ty] eqn:Htype;
      [destruct Hbad as [?|Hrest]; [done|]; cbn [rbind]; by apply IH..|].
    by exists ty.
Qed.

Lemma hashable_or_not issues :
  Forall keys_hashable issues \/ Exists unhashable_keys issues.
Proof.
  induction issues as [|x issues [IH|IH]].
  - left. constructor.
  - destruct (hashable (severity_of x)) eqn:Hs, (hashable (type_of x)) eqn:Ht.
    + left. by constructor.
    + right. left. by right.
    + right. left. by left.
    + right. left. by left.
  - right. by right.
Qed.

Lemma build_report_raises world state :
  Exists unhashable_keys (static_issues state ++ ai_issues state) ->
  exists ty, build_report world state = Raise ("unhashable type: '" +:+ ty +:+ "'").
Proof.
  intros Hbad. unfold build_report.
  set (all_issues := static_issues state ++ ai_issues state) in *.
  set (init := dict_of [("CRITICAL", 0); ("HIGH", 0); ("MEDIUM", 0); ("LOW", 0);
                        ("INFO", 0)]).
  destruct (decide (Forall (fun x => hashable (severity_of x) = true) all_issues))
    as [Hsev|Hsev].
  - destruct (severity_loop all_issues init Hsev) as (severity_counts & Hloop & _).
    rewrite Hloop. cbn [rbind].
    assert (Htypes : Exists (fun x => hashable (type_of x) = false) all_issues).
    { rewrite Forall_forall in Hsev. apply Exists_exists in Hbad as (x & Hin & Hx).
      apply Exists_exists. exists x. split; [done|].
      destruct Hx as [Hx|Hx]; [|done]. rewrite (Hsev x Hin) in Hx. done. }
    destruct (type_loop_raises all_issues ∅ Htypes) as [ty Hty].
    rewrite Hty. by exists ty.
  - apply not_Forall_Exists in Hsev; [|apply _].
    assert (Hsev' : Exists (fun x => hashable (severity_of x) = false) all_issues).
    { eapply Exists_impl; [exact Hsev|]. intros x Hx. simpl in Hx.
      by destruct (hashable (severity_of x)). }
    destruct (severity_loop_raises all_issues init Hsev') as [ty Hty].
    rewrite Hty. by exists ty.
Qed.

(** X18. The report is synthesized exactly when the severity and the
    category of every issue can be used as a dictionary key. Otherwise the
    stage records "Report generation failed: unhashable type: '...'" and
    leaves the report slot of the state as it was; the report stage fails
    in no other way. *)
Theorem report_fails_on_unhashable_keys world state :
  (Forall keys_hashable (static_issues state ++ ai_issues state)
   <-> exists report, build_report world state = Ok report)
  /\ (forall e,
        build_report world state = Raise e ->
        (exists ty, e = "unhashable type: '" +:+ ty +:+ "'")
        /\ error (_generate_final_report world state)
           = "Report generation failed: " +:+ e
        /\ final_report (_generate_final_report world state) = final_report state).
Proof.
  split.
  - split.
    + intros Hall. destruct (build_report_of_hashable world state Hall) as (r & Hr & _).
      by exists r.
    + intros [report Hreport].
      destruct (hashable_or_not (static_issues state ++ ai_issues state)) as [?|Hbad];
        [done|].
      destruct (build_report_raises world state Hbad) as [ty Hty]. congruence.
  - intros e He.
    destruct (hashable_or_not (static_issues state ++ ai_issues state)) as [Hall|Hbad].
    + destruct (build_report_of_hashable world state Hall) as (r & Hr & _). congruence.
    + destruct (build_report_raises world state Hbad) as [ty Hty].
      split; [exists ty; congruence|].
      unfold _generate_final_report, try_stage, _generate_final_report_body.
      by rewrite He.
Qed.

(** An issue whose severity is a JSON array stops the report. *)
Lemma report_fails_on_unhashable_keys_witness :
  error (_generate_final_report offline_world
           (state_with [sample_code_file]
              [dict_of [("type", PStr "security"); ("severity", PUnhashable "list")]]))
  = "Report generation failed: unhashable type: 'list'".
Proof.
  apply (proj2 (report_fails_on_unhashable_keys offline_world
                  (state_with [sample_code_file]
                     [dict_of [("type", PStr "security");
                               ("severity", PUnhashable "list")]]))
               "unhashable type: 'list'").
  vm_compute. reflexivity.
Defined.

(** ** Locators that do not parse *)

Lemma analyze_of_last_error world repo_url msg :
  last (recorded_errors world repo_url) = Some msg ->
  msg <> ""
  /\ analyze world repo_url
     = {| success := false; result_error := Some msg; result_report := None |}.
Proof.
  intros Hlast.
  assert (Hmsg : msg <> "").
  { pose proof (recorded_errors_nonempty world repo_url) as Hall.
    rewrite Forall_forall in Hall. apply Hall.
    apply last_Some in Hlast as [l ->]. apply elem_of_app. right. by left. }
  split; [exact Hmsg|].
  unfold analyze. rewrite invoke_workflow. fold (state_before_report world repo_url).
  rewrite final_error_is_last, Hlast. simpl.
  by rewrite bool_decide_eq_true_2.
Qed.

Lemma last_cons_is_Some {A : Type} (x : A) l : is_Some (last (x :: l)).
Proof.
  revert x. induction l as [|y l IH]; intros x; [by eexists|].
  change (last (x :: y :: l)) with (last (y :: l)). apply IH.
Qed.

(** X19. A locator that [parse_github_url] refuses makes [analyze] fail,
    with no report and a message that is not empty, whatever the clone,
    the analyses and the model do afterwards: the later stages all run,
    and none of them clears the error. *)
Theorem unparsed_locator_fails world url e :
  parse_github_url url = Raise e ->
  success (analyze world url) = false
  /\ result_report (analyze world url) = None
  /\ exists msg, msg <> "" /\ result_error (analyze world url) = Some msg.
Proof.
  intros Hparse.
  assert (Hlast : is_Some (last (recorded_errors world url))).
  { unfold recorded_errors. cbn zeta.
    assert (Hfirst : recorded "Failed to parse repository: "
                       (_parse_repository_body world) (initial_state url)
                     = Some ("Failed to parse repository: " +:+ e)).
    { unfold recorded, _parse_repository_body. cbn [repo_url initial_state].
      by rewrite Hparse. }
    rewrite Hfirst. cbn [omap list_omap id]. apply last_cons_is_Some. }
  destruct Hlast as [msg Hlast].
  destruct (analyze_of_last_error world url msg Hlast) as [Hmsg ->].
  simpl. split; [done|]. split; [done|]. by exists msg.
Qed.

(** A GitLab locator fails even where the clone succeeds. *)
Lemma unparsed_locator_fails_witness :
  success (analyze cloning_world "https://gitlab.com/o/r") = false
  /\ result_report (analyze cloning_world "https://gitlab.com/o/r") = None.
Proof.
  destruct (unparsed_locator_fails cloning_world "https://gitlab.com/o/r"
              "Failed to parse GitHub URL: Invalid GitHub URL")
    as (Hfail & Hnone & _).
  - vm_compute. reflexivity.
  - by split.
Defined.

(** ** Runs that find no code file *)

Lemma stages_without_files world state :
  code_files state = [] ->
  analysis_stages world state
  = set_final_report (FullReport (clean_report world (repo_info state)))
      (set_ai_issues [] (set_static_issues [] (set_ai_issues [] state))).
Proof.
  intros Hfiles. destruct state as [url info files static ai report err].
  cbn in Hfiles. subst files.
  unfold analysis_stages, _run_static_analysis, _run_ai_analysis, try_stage,
    _run_static_analysis_body, _run_ai_analysis_body, generate_improvement_suggestions.
  cbn. rewrite orb_true_r. reflexivity.
Qed.

Lemma analyze_stages world url :
  invoke (_create_workflow world) (initial_state url)
  = Ok (analysis_stages world
          (_extract_code_files world (_parse_repository world (initial_state url)))).
Proof. reflexivity. Qed.

Lemma parse_repository_frame world state :
  code_files (_parse_repository world state) = code_files state.
Proof.
  unfold _parse_repository, try_stage, _parse_repository_body.
  by destruct (parse_github_url (repo_url state)).
Qed.

(** X20. A repository whose clone holds no accepted code file is
    analyzed with success: when the locator parses and the clone
    succeeds, [analyze] returns the report with no issue, score 100 (the
    integer), all five severity counts zero and the single "looks good"
    recommendation. *)
Theorem empty_repository_scores_100 world url parsed repo_listing :
  parse_github_url url = Ok parsed ->
  clone_from world url = Ok repo_listing ->
  extract_code_files (Config (os_environ world)) repo_listing = [] ->
  analyze world url
  = {| success := true;
       result_error := None;
       result_report :=
         Some (FullReport
                 (clean_report world
                    (parsed ∪ get_repository_info (requests_get world) url))) |}.
Proof.
  intros Hparse Hclone Hextract.
  unfold analyze. rewrite analyze_stages.
  set (s1 := _parse_repository world (initial_state url)).
  assert (Hs1 : s1 = set_repo_info
                       (parsed ∪ get_repository_info (requests_get world) url)
                       (initial_state url)).
  { subst s1. unfold _parse_repository, try_stage, _parse_repository_body.
    cbn [repo_url initial_state]. by rewrite Hparse. }
  assert (Hs2 : _extract_code_files world s1 = set_code_files [] s1).
  { unfold _extract_code_files, try_stage, _extract_code_files_body, clone_repository.
    rewrite Hs1. cbn [repo_url initial_state set_repo_info].
    rewrite Hclone. cbn [rbind]. unfold github_parser_config. by rewrite Hextract. }
  rewrite Hs2, stages_without_files by done. rewrite Hs1. reflexivity.
Qed.

(** An empty clone of a GitHub repository. *)
Lemma empty_repository_scores_100_witness :
  success (analyze empty_clone_world "https://github.com/o/r") = true.
Proof.
  rewrite (empty_repository_scores_100 empty_clone_world "https://github.com/o/r"
             (dict_of [("owner", PStr "o"); ("repo", PStr "r");
                       ("full_url", PStr "https://github.com/o/r.git")])
             []).
  - reflexivity.
  - vm_compute. reflexivity.
  - reflexivity.
  - reflexivity.
Defined.

(** X21. A clone that fails makes [analyze] fail with the message
    "Failed to extract code files: Failed to clone repository: ..." and
    no report, whether or not the locator parsed: the message of the
    parse stage, if any, is replaced, and the later stages, which see no
    code file, add nothing. *)
Theorem clone_failure_message world url e :
  clone_from world url = Raise e ->
  analyze world url
  = {| success := false;
       result_error :=
         Some ("Failed to extract code files: Failed to clone repository: " +:+ e);
       result_report := None |}.
Proof.
  intros Hclone. unfold analyze. rewrite analyze_stages.
  set (s1 := _parse_repository world (initial_state url)).
  assert (Hurl : repo_url s1 = url).
  { subst s1. unfold _parse_repository, try_stage, _parse_repository_body.
    cbn [repo_url initial_state]. by destruct (parse_github_url url). }
  assert (Hs2 : _extract_code_files world s1
                = set_error ("Failed to extract code files: "
                             +:+ ("Failed to clone repository: " +:+ e)) s1).
  { unfold _extract_code_files, try_stage, _extract_code_files_body, clone_repository.
    by rewrite Hurl, Hclone. }
  rewrite Hs2, stages_without_files
    by (cbn [code_files set_error]; subst s1; apply parse_repository_frame).
  cbn [error set_final_report set_ai_issues set_static_issues set_error].
  rewrite bool_decide_eq_true_2 by (rewrite append_cons; discriminate).
  reflexivity.
Qed.

(** Without network the clone fails. *)
Lemma clone_failure_message_witness :
  result_error (analyze offline_world "https://github.com/o/r")
  = Some "Failed to extract code files: Failed to clone repository: could not resolve host".
Proof.
  rewrite (clone_failure_message offline_world "https://github.com/o/r"
             "could not resolve host"); reflexivity.
Defined.

(** ** What the AI stage does to the number of issues *)

Lemma enhancement_length gem self issues :
  length (generate_improvement_suggestions gem self issues) = length issues.
Proof.
  destruct (enhancement_regroups gem self issues) as (regrouped & Hperm & Hrel).
  rewrite <- (Forall2_length _ _ _ Hrel). by rewrite Hperm.
Qed.

(** X22. The AI stage neither drops nor duplicates an issue. The list it
    leaves under [static_issues] is as long as the one it found there,
    the list under [ai_issues] as long as what the model or the fallback
    reported for the first ten files, and the stage touches neither the
    code files, the repository entry nor the error; so the report built
    next gives as [static_analysis_issues] the number of issues static
    detection found, and the two numbers of its metadata add up to
    [total_issues]. *)
Theorem ai_stage_keeps_issue_counts world state :
  length (static_issues (_run_ai_analysis world state)) = length (static_issues state)
  /\ length (ai_issues (_run_ai_analysis world state))
     = length (flat_map (ai_issues_of_file world) (take 10 (code_files state)))
  /\ code_files (_run_ai_analysis world state) = code_files state
  /\ repo_info (_run_ai_analysis world state) = repo_info state
  /\ error (_run_ai_analysis world state) = error state
  /\ (forall report,
        build_report world (_run_ai_analysis world state) = Ok report ->
        static_analysis_issues (analysis_metadata report) = length (static_issues state)
        /\ static_analysis_issues (analysis_metadata report)
           + ai_analysis_issues (analysis_metadata report)
           = total_issues (summary report)
        /\ total_issues (summary report) = length (issues report)).
Proof.
  assert (Hstatic : length (static_issues (_run_ai_analysis world state))
                    = length (static_issues state)).
  { unfold _run_ai_analysis, try_stage, _run_ai_analysis_body.
    cbn [static_issues set_ai_issues set_static_issues].
    rewrite length_take, enhancement_length, length_app. lia. }
  split; [exact Hstatic|]. split; [|split; [done|split; [done|split; [done|]]]].
  - unfold _run_ai_analysis, try_stage, _run_ai_analysis_body.
    cbn [ai_issues set_ai_issues set_static_issues].
    rewrite length_drop, enhancement_length, length_app. lia.
  - intros report Hreport.
    apply build_report_inv in Hreport
      as (sc & tc & _ & _ & _ & _ & Hissues & Htotal & _ & Hs & Ha & _).
    rewrite Hs, Ha, Htotal, Hissues, length_app. by rewrite Hstatic.
Qed.

(** ** The tally of categories *)

Lemma counts_total_increment `{Countable K} (counts : gmap K nat) (key : K) :
  counts_total (<[key := dict_get counts key 0 + 1]> counts) = counts_total counts + 1.
Proof.
  unfold counts_total, dict_get.
  destruct (counts !! key) as [n|] eqn:Hkey.
  - rewrite <- (insert_delete_eq counts).
    rewrite map_fold_insert_L; [|intros; lia|apply lookup_delete_eq].
    rewrite (map_fold_delete_L _ _ key n counts); [lia|intros; lia|done].
  - rewrite map_fold_insert_L; [lia|intros; lia|done].
Qed.

Lemma type_loop_total issues (counts counts' : gmap pyval nat) :
  for_each count_type issues counts = Ok counts' ->
  counts_total counts' = counts_total counts + length issues.
Proof.
  revert counts. induction issues as [|x issues IH]; intros counts.
  - intros [= <-]. simpl. lia.
  - cbn [for_each]. unfold count_type at 1.
    destruct (dict_get x "type" (PStr "unknown")) eqn:Htype; cbn [rbind]; [..|done];
      intros Hrest; apply IH in Hrest; rewrite Hrest, counts_total_increment;
      simpl; lia.
Qed.

(** X23. In every report the counts of [issue_types] add up to
    [total_issues]: each issue is tallied under exactly one category,
    "unknown" when it has none (unlike the severity breakdown, which
    passes over the severities it does not know). *)
Theorem issue_types_add_up world state report :
  build_report world state = Ok report ->
  counts_total (issue_types (summary report)) = total_issues (summary report).
Proof.
  intros Hreport.
  apply build_report_inv in Hreport
    as (severity_counts & type_counts & _ & Htypes & _ & -> & _ & -> & _).
  apply type_loop_total in Htypes. rewrite Htypes. done.
Qed.

(** Two issues, one of them without a category. *)
Lemma issue_types_add_up_witness :
  exists report,
    build_report offline_world
      (state_with [sample_code_file]
         [dict_of [("severity", PStr "BLOCKER")]; sample_issue "security" "HIGH"])
    = Ok report
    /\ counts_total (issue_types (summary report)) = 2.
Proof.
  destruct (build_report offline_world
              (state_with [sample_code_file]
                 [dict_of [("severity", PStr "BLOCKER")]; sample_issue "security" "HIGH"]))
    as [report|e] eqn:Hreport; [|by vm_compute in Hreport].
  exists report. split; [reflexivity|].
  rewrite (issue_types_add_up _ _ _ Hreport).
  by apply build_report_inv in Hreport as (sc & tc & _ & _ & _ & _ & _ & -> & _).
Defined.

(** ** The pipeline without a model *)

Lemma recognized_hashable x : recognized x = true -> hashable (severity_of x) = true.
Proof.
  unfold recognized. intros Hrec. apply existsb_exists in Hrec as (level & _ & Hlevel).
  apply bool_decide_eq_true_1 in Hlevel. by rewrite Hlevel.
Qed.

Lemma static_shape_countable file_path x :
  static_issue_shape file_path x -> keys_hashable x /\ recognized x = true.
Proof.
  intros (_ & (category & _ & Htype) & Hrec & _).
  split; [split|]; [by apply recognized_hashable| |done].
  unfold type_of, dict_get. by rewrite Htype.
Qed.

Lemma fallback_countable code lang file_path :
  Forall (fun x => keys_hashable x /\ recognized x = true)
         (_fallback_logic_analysis code lang file_path).
Proof.
  unfold _fallback_logic_analysis.
  apply List.Forall_flat_map, Forall_forall. intros [i l] _.
  case_bool_decide; [|constructor].
  apply Forall_app. split.
  - case_bool_decide; constructor; [|constructor]. by split.
  - destruct (_ && _); constructor; [|constructor]. by split.
Qed.

Lemma ai_issues_without_model world file_info :
  use_cli (gemini_analyzer world) = false ->
  model (gemini_analyzer world) = false ->
  ai_issues_of_file world file_info = fallback_issues_of_file file_info.
Proof.
  intros Hcli Hmodel.
  unfold ai_issues_of_file, analyze_code_logic, simulate_code_execution,
    fallback_issues_of_file.
  rewrite Hcli, Hmodel. cbn [negb potential_runtime_issues default].
  destruct (_ <? _); cbn [map]; apply app_nil_r.
Qed.

Lemma ai_stage_without_model world state :
  use_cli (gemini_analyzer world) = false ->
  model (gemini_analyzer world) = false ->
  _run_ai_analysis world state
  = set_ai_issues (flat_map fallback_issues_of_file (take 10 (code_files state))) state.
Proof.
  intros Hcli Hmodel.
  unfold _run_ai_analysis, try_stage, _run_ai_analysis_body,
    generate_improvement_suggestions.
  rewrite Hmodel. cbn [negb orb].
  rewrite take_app_length, drop_app_length.
  replace (flat_map (ai_issues_of_file world) (take 10 (code_files state)))
    with (flat_map fallback_issues_of_file (take 10 (code_files state))).
  - by destruct state.
  - apply flat_map_ext. intros file_info. symmetry.
    by apply ai_issues_without_model.
Qed.

(** X24. Without a model (no API key and no command line client) the
    three analysis stages always end with a report and record no error.
    The report lists what static detection found in every code file,
    followed by what the fallback detection found in the first ten; the
    AI stage leaves the static issues as they are; and since all these
    issues carry one of the five severities, the five counts of the
    severity breakdown add up to [total_issues]. *)
Theorem pipeline_without_model world state :
  use_cli (gemini_analyzer world) = false ->
  model (gemini_analyzer world) = false ->
  exists report,
    final_report (analysis_stages world state) = FullReport report
    /\ error (analysis_stages world state) = error state
    /\ static_issues (analysis_stages world state)
       = flat_map (static_issues_of_file world) (code_files state)
    /\ ai_issues (analysis_stages world state)
       = flat_map fallback_issues_of_file (take 10 (code_files state))
    /\ issues report
       = flat_map (static_issues_of_file world) (code_files state)
         ++ flat_map fallback_issues_of_file (take 10 (code_files state))
    /\ breakdown_sum (severity_breakdown (summary report)) = total_issues (summary report).
Proof.
  intros Hcli Hmodel. unfold analysis_stages.
  rewrite (ai_stage_without_model world _ Hcli Hmodel).
  set (s4 := set_ai_issues _ _).
  assert (Hstatic : static_issues s4
                    = flat_map (static_issues_of_file world) (code_files state)).
  { reflexivity. }
  assert (Hai : ai_issues s4
                = flat_map fallback_issues_of_file (take 10 (code_files state))).
  { reflexivity. }
  assert (Hshape : Forall (fun x => keys_hashable x /\ recognized x = true)
                          (static_issues s4 ++ ai_issues s4)).
  { rewrite Hstatic, Hai. apply Forall_app. split.
    - apply List.Forall_flat_map, Forall_forall. intros file_info _.
      eapply Forall_impl; [apply static_issues_shape_aux|].
      intros x Hx. by apply static_shape_countable in Hx.
    - apply List.Forall_flat_map, Forall_forall. intros file_info _.
      apply fallback_countable. }
  destruct (build_report_of_hashable world s4)
    as (report & Hbuild & Hissues & Htotal & _ & Hbreakdown & _).
  { eapply Forall_impl; [exact Hshape|]. by intros x [? _]. }
  exists report.
  rewrite (generate_final_report_of_build world s4 report Hbuild).
  split; [done|]. split; [done|]. split; [done|]. split; [done|].
  split; [by rewrite Hissues, Hstatic, Hai|].
  rewrite Htotal, <- (count_issues_all recognized).
  - rewrite <- sum_of_levels. unfold breakdown_sum, severity_levels, dict_get.
    cbn [map list_sum]. rewrite !Hbreakdown. simpl. lia.
  - eapply Forall_impl; [exact Hshape|]. by intros x [_ ?].
Qed.

(** No key, no client: the sample file gives a report. *)
Lemma pipeline_without_model_witness :
  exists report,
    final_report (analysis_stages offline_world (state_with [sample_code_file] []))
    = FullReport report
    /\ breakdown_sum (severity_breakdown (summary report)) = total_issues (summary report).
Proof.
  destruct (pipeline_without_model offline_world (state_with [sample_code_file] []))
    as (report & Hreport & _ & _ & _ & _ & Hsum).
  - reflexivity.
  - reflexivity.
  - by exists report.
Defined.

(** ** Telling static issues from AI issues *)

Lemma fallback_sourced code lang file_path :
  Forall ai_sourced (_fallback_logic_analysis code lang file_path).
Proof.
  assert (Hin : "fallback" ∈ ai_sources) by (unfold ai_sources; set_solver).
  unfold _fallback_logic_analysis.
  apply List.Forall_flat_map, Forall_forall. intros [i l] _.
  case_bool_decide; [|constructor].
  apply Forall_app. split.
  - case_bool_decide; constructor; [|constructor]. by exists "fallback".
  - destruct (_ && _); constructor; [|constructor]. by exists "fallback".
Qed.

Lemma gemini_response_sourced gem response_text file_path parsed :
  _parse_gemini_response gem response_text file_path = Ok parsed ->
  Forall ai_sourced parsed.
Proof.
  assert (Hin : "gemini" ∈ ai_sources) by (unfold ai_sources; set_solver).
  assert (Htext : Forall ai_sourced (_parse_text_response response_text file_path)).
  { rewrite text_response_one_issue_per_announcement_aux.
    apply Forall_map, Forall_forall. intros l _. by exists "gemini". }
  unfold _parse_gemini_response.
  destruct (find_char _ _); [|by intros [= <-]].
  destruct (json_loads gem _) as [parsed_issues| |msg]; [| |done].
  - intros [= <-]. apply Forall_map, Forall_forall. intros x _.
    exists "gemini". split; [done|]. unfold stamp_gemini. apply lookup_insert_eq.
  - by intros [= <-].
Qed.

Lemma analyze_code_logic_sourced gem self code lang file_path :
  Forall ai_sourced (analyze_code_logic gem self code lang file_path).
Proof.
  pose proof (fallback_sourced code lang file_path) as Hfallback.
  unfold analyze_code_logic, _analyze_with_cli_logic.
  destruct (use_cli self).
  - case_bool_decide; [|done].
    destruct (_parse_gemini_response _ _ _) eqn:Hok;
      [by eapply gemini_response_sourced|done].
  - destruct (model self); simpl; [|done].
    destruct (generate_content gem _) as [text|]; simpl; [|done].
    destruct (_parse_gemini_response _ _ _) eqn:Hok;
      [by eapply gemini_response_sourced|done].
Qed.

Lemma ai_issues_of_file_sourced world file_info :
  Forall ai_sourced (ai_issues_of_file world file_info).
Proof.
  unfold ai_issues_of_file. apply Forall_app. split.
  - apply analyze_code_logic_sourced.
  - destruct (_ <? 5000); [|constructor].
    apply Forall_map, Forall_forall. intros text _.
    exists "gemini_simulation". split; [unfold ai_sources; set_solver|done].
Qed.

Lemma ai_sourced_not_unsourced x : ai_sourced x -> unsourced x = false.
Proof.
  intros (s & _ & Hs). unfold unsourced. rewrite Hs. by apply bool_decide_eq_false_2.
Qed.

Lemma count_issues_permutation p l k : l ≡ₚ k -> count_issues p l = count_issues p k.
Proof.
  unfold count_issues.
  induction 1 as [|x l k _ IH|x y l|l k m _ IH1 _ IH2]; simpl.
  - done.
  - destruct (p x); simpl; by rewrite IH.
  - by destruct (p x), (p y).
  - by rewrite IH1.
Qed.

Lemma count_unsourced_enhanced l k :
  Forall2 enhanced_from l k -> count_issues unsourced l = count_issues unsourced k.
Proof.
  unfold count_issues.
  induction 1 as [|x y l k Hxy _ IH]; [done|]. simpl.
  replace (unsourced y) with (unsourced x).
  - destruct (unsourced x); simpl; by rewrite IH.
  - unfold unsourced. by rewrite (enhanced_from_fields x y "source" Hxy).
Qed.

(** X25. The issues of static detection have no ['source'], those of the
    AI stage always have one (gemini, fallback or gemini_simulation), and
    the enhancement changes no ['source']. So, however the AI stage
    redistributes the issues over [static_issues] and [ai_issues], the
    issues without a source in the two lists are as many as static
    detection found, and every other issue carries one of the three
    sources. *)
Theorem source_tells_static_from_ai world state :
  let found := _run_static_analysis world state in
  let final := _run_ai_analysis world found in
  static_issues found = flat_map (static_issues_of_file world) (code_files state)
  /\ Forall (fun x => unsourced x = true) (static_issues found)
  /\ count_issues unsourced (static_issues final ++ ai_issues final)
     = length (static_issues found)
  /\ Forall (fun y => unsourced y = true \/ ai_sourced y)
            (static_issues final ++ ai_issues final).
Proof.
  cbn zeta.
  set (found := _run_static_analysis world state).
  assert (Hfound : static_issues found
                   = flat_map (static_issues_of_file world) (code_files state))
    by reflexivity.
  assert (Hstatic : Forall (fun x => unsourced x = true) (static_issues found)).
  { rewrite Hfound. apply List.Forall_flat_map, Forall_forall. intros file_info _.
    eapply Forall_impl; [apply static_issues_shape_aux|].
    intros x (_ & _ & _ & _ & Hsource & _). unfold unsourced.
    by apply bool_decide_eq_true_2. }
  assert (Hai : Forall ai_sourced
                  (flat_map (ai_issues_of_file world) (take 10 (code_files found)))).
  { apply List.Forall_flat_map, Forall_forall. intros file_info _.
    apply ai_issues_of_file_sourced. }
  split; [exact Hfound|]. split; [exact Hstatic|].
  unfold _run_ai_analysis, try_stage, _run_ai_analysis_body.
  cbn [static_issues ai_issues set_ai_issues set_static_issues]. rewrite take_drop.
  destruct (enhancement_regroups (gemini world) (gemini_analyzer world)
              (static_issues found
               ++ flat_map (ai_issues_of_file world) (take 10 (code_files found))))
    as (regrouped & Hperm & Hrel).
  split.
  - rewrite <- (count_unsourced_enhanced _ _ Hrel),
      (count_issues_permutation _ _ _ Hperm), count_issues_app.
    rewrite (count_issues_all _ _ Hstatic), count_issues_none; [lia|].
    eapply Forall_impl; [exact Hai|]. apply ai_sourced_not_unsourced.
  - eapply Forall_impl; [exact (Forall2_sources _ _ _ Hrel)|].
    intros y (x & Hx & Hxy). cbn beta in *.
    assert (Hsame : y !! "source" = x !! "source")
      by (by apply enhanced_from_fields).
    rewrite Hperm in Hx. apply elem_of_app in Hx as [Hx|Hx].
    + left. rewrite Forall_forall in Hstatic. specialize (Hstatic x Hx).
      unfold unsourced in *. by rewrite Hsame.
    + right. rewrite Forall_forall in Hai. destruct (Hai x Hx) as (s & Hs & Hsrc).
      exists s. split; [done|]. by rewrite Hsame.
Qed.

(** ** The repository entry *)

(** X26. When the locator parses, the parse stage records no error,
    whatever the GitHub API answers: the repository entry of the state
    holds the owner, the name and the clone URL read off the locator,
    which no field of the API response replaces, and it holds nothing
    else when the API gives no answer. *)
Theorem parse_stage_survives_api_failure world state parsed :
  parse_github_url (repo_url state) = Ok parsed ->
  error (_parse_repository world state) = error state
  /\ (forall key value,
        parsed !! key = Some value ->
        repo_info (_parse_repository world state) !! key = Some value)
  /\ ((forall api_url, requests_get world api_url = None) ->
      repo_info (_parse_repository world state) = parsed).
Proof.
  intros Hparse.
  unfold _parse_repository, try_stage, _parse_repository_body.
  rewrite Hparse. cbn [rbind error repo_info set_repo_info].
  split; [done|]. split.
  - intros key value Hkey. by apply lookup_union_Some_l.
  - intros Hnone. unfold get_repository_info. rewrite Hparse, Hnone.
    apply (right_id ∅ (∪)).
Qed.

(** Without network the entry is what the locator gives. *)
Lemma parse_stage_survives_api_failure_witness :
  repo_info (_parse_repository offline_world (initial_state "https://github.com/o/r"))
  !! "owner" = Some (PStr "o").
Proof.
  apply (proj1 (proj2 (parse_stage_survives_api_failure offline_world
                  (initial_state "https://github.com/o/r")
                  (dict_of [("owner", PStr "o"); ("repo", PStr "r");
                            ("full_url", PStr "https://github.com/o/r.git")])
                  ltac:(vm_compute; reflexivity)))).
  reflexivity.
Defined.
